(** * STARCOS SPK 2.3 card driver (libopensc/card-starcos.c)

    A shallow embedding of the driver's session logic: the status-word
    translator, the FCI decoder, the selection engine with its location
    cache, the security-environment state and the two crypto entry points.

    Conventions.  C integers ([int], [size_t], [u8]) are modelled as [Z];
    where the C code can wrap around the wrap is written out.  The card
    structure is threaded explicitly through a small state monad.  The
    parts of libopensc the driver calls but does not define (the reader
    transport, the ISO 7816 status translator, the ASN.1 tag finder, the
    allocator of file descriptors, the decoder of hexadecimal strings) are
    collected in the [Framework] class, so every statement made for a
    [Framework] holds for every implementation of them. *)

From Stdlib Require Import ZArith List Bool Lia String Ascii.
From stdpp Require Import base list.
Import ListNotations.
Local Open Scope Z_scope.

(** ** Constants of errors.h, opensc.h and types.h *)

Definition SC_SUCCESS : Z := 0.
Definition SC_NO_ERROR : Z := 0.
Definition SC_ERROR_CARD_CMD_FAILED : Z := -1200.
Definition SC_ERROR_FILE_NOT_FOUND : Z := -1201.
Definition SC_ERROR_INCORRECT_PARAMETERS : Z := -1205.
Definition SC_ERROR_NOT_ALLOWED : Z := -1209.
Definition SC_ERROR_UNKNOWN_DATA_RECEIVED : Z := -1213.
Definition SC_ERROR_PIN_CODE_INCORRECT : Z := -1214.
Definition SC_ERROR_FILE_ALREADY_EXISTS : Z := -1215.
Definition SC_ERROR_INVALID_ARGUMENTS : Z := -1300.
Definition SC_ERROR_INTERNAL : Z := -1400.
Definition SC_ERROR_OUT_OF_MEMORY : Z := -1404.

Definition SC_MAX_APDU_BUFFER_SIZE : Z := 258.
Definition SC_MAX_PATH_SIZE : Z := 16.
Definition SC_MAX_ATR_SIZE : Z := 33.

Definition SC_PATH_TYPE_FILE_ID : Z := 0.
Definition SC_PATH_TYPE_DF_NAME : Z := 1.
Definition SC_PATH_TYPE_PATH : Z := 2.

Definition SC_FILE_TYPE_WORKING_EF : Z := 0x01.
Definition SC_FILE_TYPE_DF : Z := 0x04.

Definition SC_FILE_EF_UNKNOWN : Z := 0x00.
Definition SC_FILE_EF_TRANSPARENT : Z := 0x01.
Definition SC_FILE_EF_LINEAR_FIXED : Z := 0x02.
Definition SC_FILE_EF_CYCLIC : Z := 0x06.

Definition SC_FILE_MAGIC : Z := 0x14426950.

Definition SC_APDU_CASE_2_SHORT : Z := 2.
Definition SC_APDU_CASE_3_SHORT : Z := 3.
Definition SC_APDU_CASE_4_SHORT : Z := 4.

Definition SC_SEC_OPERATION_DECIPHER : Z := 0x0001.
Definition SC_SEC_OPERATION_SIGN : Z := 0x0002.
Definition SC_SEC_OPERATION_AUTHENTICATE : Z := 0x0003.

Definition SC_SEC_ENV_ALG_REF_PRESENT : Z := 0x0001.
Definition SC_SEC_ENV_KEY_REF_PRESENT : Z := 0x0004.
Definition SC_SEC_ENV_KEY_REF_ASYMMETRIC : Z := 0x0008.
Definition SC_SEC_ENV_ALG_PRESENT : Z := 0x0010.

Definition SC_ALGORITHM_RSA : Z := 0.
Definition SC_ALGORITHM_RSA_PAD_PKCS1 : Z := 0x00000002.
Definition SC_ALGORITHM_RSA_PAD_ISO9796 : Z := 0x00000008.
Definition SC_ALGORITHM_RSA_HASH_NONE : Z := 0x00000010.
Definition SC_ALGORITHM_RSA_HASH_SHA1 : Z := 0x00000020.
Definition SC_ALGORITHM_RSA_HASH_MD5 : Z := 0x00000040.
Definition SC_ALGORITHM_RSA_HASH_RIPEMD160 : Z := 0x00000100.

(** [size_t] arithmetic: unsigned, wrapping at the word size. *)
Definition size_t_modulus : Z := 2 ^ 64.
Definition size_t_sub (a b : Z) : Z := (a - b) mod size_t_modulus.

(** Reading a C array at an index: [a[i]]. *)
Definition at_index (a : list Z) (i : Z) : Z := a !!! Z.to_nat i.

(** ** APDUs *)

Record sc_apdu := mk_apdu {
  apdu_cse : Z;
  apdu_cla : Z;
  apdu_ins : Z;
  apdu_p1 : Z;
  apdu_p2 : Z;
  apdu_lc : Z;
  apdu_le : Z;
  apdu_data : list Z;      (* data, datalen *)
  apdu_resplen : Z;        (* capacity of the response buffer *)
  apdu_sensitive : Z
}.

(** What [sc_transmit_apdu] leaves behind: its return value, the bytes
    stored in [apdu.resp] (their number is the new [apdu.resplen]) and the
    status word. *)
Record apdu_reply := mk_reply {
  reply_r : Z;
  reply_resp : list Z;
  reply_sw1 : Z;
  reply_sw2 : Z
}.

(** ** Paths, file descriptors and the card structure *)

Record sc_path := mk_path {
  path_value : list Z;     (* u8 value[SC_MAX_PATH_SIZE] *)
  path_len : Z;
  path_index : Z;
  path_type : Z
}.

Record sc_file := mk_file {
  file_path : sc_path;
  file_name : list Z;      (* u8 name[16] *)
  file_namelen : Z;
  file_type : Z;
  file_shareable : Z;
  file_ef_structure : Z;
  file_size : Z;
  file_id : Z;
  file_record_length : Z;
  file_record_count : Z;
  file_magic : Z
}.

Definition set_file_path (p : sc_path) (f : sc_file) : sc_file :=
  mk_file p (file_name f) (file_namelen f) (file_type f) (file_shareable f)
    (file_ef_structure f) (file_size f) (file_id f) (file_record_length f)
    (file_record_count f) (file_magic f).
Definition set_file_name (v : list Z) (f : sc_file) : sc_file :=
  mk_file (file_path f) v (file_namelen f) (file_type f) (file_shareable f)
    (file_ef_structure f) (file_size f) (file_id f) (file_record_length f)
    (file_record_count f) (file_magic f).
Definition set_file_namelen (v : Z) (f : sc_file) : sc_file :=
  mk_file (file_path f) (file_name f) v (file_type f) (file_shareable f)
    (file_ef_structure f) (file_size f) (file_id f) (file_record_length f)
    (file_record_count f) (file_magic f).
Definition set_file_type (v : Z) (f : sc_file) : sc_file :=
  mk_file (file_path f) (file_name f) (file_namelen f) v (file_shareable f)
    (file_ef_structure f) (file_size f) (file_id f) (file_record_length f)
    (file_record_count f) (file_magic f).
Definition set_file_shareable (v : Z) (f : sc_file) : sc_file :=
  mk_file (file_path f) (file_name f) (file_namelen f) (file_type f) v
    (file_ef_structure f) (file_size f) (file_id f) (file_record_length f)
    (file_record_count f) (file_magic f).
Definition set_file_ef_structure (v : Z) (f : sc_file) : sc_file :=
  mk_file (file_path f) (file_name f) (file_namelen f) (file_type f) (file_shareable f)
    v (file_size f) (file_id f) (file_record_length f)
    (file_record_count f) (file_magic f).
Definition set_file_size (v : Z) (f : sc_file) : sc_file :=
  mk_file (file_path f) (file_name f) (file_namelen f) (file_type f) (file_shareable f)
    (file_ef_structure f) v (file_id f) (file_record_length f)
    (file_record_count f) (file_magic f).
Definition set_file_id (v : Z) (f : sc_file) : sc_file :=
  mk_file (file_path f) (file_name f) (file_namelen f) (file_type f) (file_shareable f)
    (file_ef_structure f) (file_size f) v (file_record_length f)
    (file_record_count f) (file_magic f).
Definition set_file_record_length (v : Z) (f : sc_file) : sc_file :=
  mk_file (file_path f) (file_name f) (file_namelen f) (file_type f) (file_shareable f)
    (file_ef_structure f) (file_size f) (file_id f) v
    (file_record_count f) (file_magic f).
Definition set_file_magic (v : Z) (f : sc_file) : sc_file :=
  mk_file (file_path f) (file_name f) (file_namelen f) (file_type f) (file_shareable f)
    (file_ef_structure f) (file_size f) (file_id f) (file_record_length f)
    (file_record_count f) v.

(** The security-environment record kept in [card->drv_data].  [mse_buf]
    holds the first [buf_len] bytes of [buf]; the rest is never read. *)
Record starcos_mse_state := mk_mse {
  sec_ops : Z;
  mse_buf : list Z;
  mse_p1 : Z;
  mse_p2 : Z
}.

(** [memset(mse, 0, sizeof(starcos_mse_state))] *)
Definition mse_zero : starcos_mse_state := mk_mse 0 [] 0 0.

(** An entry of the algorithm list filled by [_sc_card_add_rsa_alg]. *)
Record rsa_alg := mk_rsa_alg {
  alg_key_length : Z;
  alg_flags : Z;
  alg_exponent : Z
}.

Record sc_card := mk_card {
  card_atr : list Z;                  (* atr, atr_len *)
  card_cla : Z;
  card_max_le : Z;
  card_algorithms : list rsa_alg;
  cache_valid : bool;
  cache_current_path : sc_path;
  drv_data : starcos_mse_state;
  apdu_log : list sc_apdu             (* the commands transmitted so far *)
}.

Definition set_cache (p : sc_path) (c : sc_card) : sc_card :=
  mk_card (card_atr c) (card_cla c) (card_max_le c) (card_algorithms c)
    (cache_valid c) p (drv_data c) (apdu_log c).
Definition set_drv_data (m : starcos_mse_state) (c : sc_card) : sc_card :=
  mk_card (card_atr c) (card_cla c) (card_max_le c) (card_algorithms c)
    (cache_valid c) (cache_current_path c) m (apdu_log c).
Definition set_apdu_log (l : list sc_apdu) (c : sc_card) : sc_card :=
  mk_card (card_atr c) (card_cla c) (card_max_le c) (card_algorithms c)
    (cache_valid c) (cache_current_path c) (drv_data c) l.

(** ** The services of libopensc *)

Class Framework := {
  (** the reader and the card: the reply to a command, given the commands
      transmitted before it *)
  card_reply : list sc_apdu -> sc_apdu -> apdu_reply;
  (** [iso_ops->check_sw], the translator of the ISO 7816 driver *)
  iso_check_sw : Z -> Z -> Z;
  (** [sc_asn1_find_tag buf buflen tag]: the value of the first object with
      that tag ([None] for a NULL result; the length of the list is
      [taglen]) *)
  sc_asn1_find_tag : list Z -> Z -> option (list Z);
  (** [sc_file_new()]: a fresh descriptor, or [None] when the allocation
      fails *)
  sc_file_new : option sc_file;
  (** [sc_hex_to_bin in out outlen], given the capacity [*outlen]: the
      bytes decoded, or [None] when it returns an error *)
  sc_hex_to_bin : string -> Z -> option (list Z);
  (** indeterminate content of the buffers on the stack, by index *)
  stack_byte : nat -> Z;
  (** [malloc(sizeof(starcos_mse_state))]: the block with its indeterminate
      content, or [None] for a NULL result *)
  malloc_mse_state : option starcos_mse_state
}.

(** ** Error translator *)

Record sc_card_error := mk_error {
  SWs : Z;
  errorno : Z;
  errorstr : string
}.

Definition starcos_errors : list sc_card_error :=
  [ mk_error 0x6600 SC_ERROR_INCORRECT_PARAMETERS "Error setting the security env";
    mk_error 0x66F0 SC_ERROR_INCORRECT_PARAMETERS "No space left for padding";
    mk_error 0x69F0 SC_ERROR_NOT_ALLOWED "Command not allowed";
    mk_error 0x6A89 SC_ERROR_FILE_ALREADY_EXISTS "Files exists";
    mk_error 0x6A8A SC_ERROR_FILE_ALREADY_EXISTS "Application exists";
    mk_error 0x6F01 SC_ERROR_CARD_CMD_FAILED "public key not complete";
    mk_error 0x6F02 SC_ERROR_CARD_CMD_FAILED "data overflow";
    mk_error 0x6F03 SC_ERROR_CARD_CMD_FAILED "invalid command sequence";
    mk_error 0x6F05 SC_ERROR_CARD_CMD_FAILED "security enviroment invalid";
    mk_error 0x6F07 SC_ERROR_FILE_NOT_FOUND "key part not found";
    mk_error 0x6F08 SC_ERROR_CARD_CMD_FAILED "signature failed";
    mk_error 0x6F0A SC_ERROR_INCORRECT_PARAMETERS "key format does not match key length";
    mk_error 0x6F0B SC_ERROR_INCORRECT_PARAMETERS
             "length of key component inconsistent with algorithm";
    mk_error 0x6F81 SC_ERROR_CARD_CMD_FAILED "system error" ].

(** What [error(ctx, ...)] prints. *)
Inductive error_message :=
| Verification_failed (remaining_tries : Z)
| Card_error (text : string).

(** The table scan of [starcos_check_sw]: the first entry whose [SWs]
    equals [(sw1 << 8) | sw2]. *)
Fixpoint find_error (tbl : list sc_card_error) (sw : Z) : option sc_card_error :=
  match tbl with
  | [] => None
  | e :: tbl' => if SWs e =? sw then Some e else find_error tbl' sw
  end.

(** [starcos_check_sw]: the return value and the message printed. *)
Definition starcos_check_sw `{Framework} (sw1 sw2 : Z) : Z * option error_message :=
  if sw1 =? 0x90 then (SC_NO_ERROR, None)
  else if (sw1 =? 0x63) && (Z.land sw2 (Z.lnot 0x0f) =? 0xc0) then
    (SC_ERROR_PIN_CODE_INCORRECT, Some (Verification_failed (Z.land sw2 0x0f)))
  else
    match find_error starcos_errors (Z.lor (Z.shiftl sw1 8) sw2) with
    | Some e => (errorno e, Some (Card_error (errorstr e)))
    | None => (iso_check_sw sw1 sw2, None)
    end.

(** [sc_check_sw] dispatches through [card->ops->check_sw], which
    [sc_get_driver] sets to [starcos_check_sw]. *)
Definition sc_check_sw `{Framework} (sw1 sw2 : Z) : Z := fst (starcos_check_sw sw1 sw2).

(** ** The state monad over the card structure *)

Definition M (A : Type) : Type := sc_card -> A * sc_card.

#[global] Instance M_ret : MRet M := fun A (a : A) c => (a, c).
#[global] Instance M_bind : MBind M :=
  fun A B (k : A -> M B) (m : M A) c => let (a, c') := m c in k a c'.
#[global] Instance M_fmap : FMap M :=
  fun A B (f : A -> B) (m : M A) c => let (a, c') := m c in (f a, c').

Definition get_card : M sc_card := fun c => (c, c).
Definition modify_card (f : sc_card -> sc_card) : M unit := fun c => (tt, f c).

(** [sc_format_apdu]: everything zero but class, case, instruction and
    parameters. *)
Definition sc_format_apdu (card : sc_card) (cse ins p1 p2 : Z) : sc_apdu :=
  mk_apdu cse (card_cla card) ins p1 p2 0 0 [] 0 0.

(** [sc_transmit_apdu]: the command goes to the card and is logged. *)
Definition sc_transmit_apdu `{Framework} (apdu : sc_apdu) : M apdu_reply :=
  fun c => (card_reply (apdu_log c) apdu, set_apdu_log (apdu_log c ++ [apdu]) c).

(** [memcpy(dest, src, n)] on arrays held as lists. *)
Definition memcpy (dest src : list Z) (n : Z) : list Z :=
  take (Z.to_nat n) src ++ drop (Z.to_nat n) dest.

(** [memcmp(a, b, n) == 0] *)
Definition memcmp_eq (a b : list Z) (n : Z) : bool :=
  forallb (fun i => at_index a (Z.of_nat i) =? at_index b (Z.of_nat i))
          (seq 0 (Z.to_nat n)).

(** The argument [struct sc_file **file_out]: [None] is a NULL pointer,
    [Some v] a pointer to a slot that currently holds [v] ([None] there is
    a NULL file). *)
Definition file_slot : Type := option (option sc_file).

(** [if (file_out) *file_out = v] *)
Definition store_slot (file_out : file_slot) (v : option sc_file) : file_slot :=
  match file_out with
  | None => None
  | Some _ => Some v
  end.

(** ** File descriptor decoder *)

Definition process_fci `{Framework} (file : sc_file) (buf : list Z) : sc_file :=
  (* defaults *)
  let file := set_file_type SC_FILE_TYPE_WORKING_EF file in
  let file := set_file_ef_structure SC_FILE_EF_UNKNOWN file in
  let file := set_file_shareable 0 file in
  let file := set_file_record_length 0 file in
  let file := set_file_size 0 file in
  let file :=
    match sc_asn1_find_tag buf 0x80 with
    | Some tag =>
        if 2 <=? Z.of_nat (length tag)
        then set_file_size (Z.shiftl (at_index tag 0) 8 + at_index tag 1) file
        else file
    | None => file
    end in
  let file :=
    match sc_asn1_find_tag buf 0x82 with
    | Some tag =>
        let taglen := Z.of_nat (length tag) in
        if (taglen =? 1) && (at_index tag 0 =? 0x01) then
          (* transparent EF *)
          set_file_ef_structure SC_FILE_EF_TRANSPARENT
            (set_file_type SC_FILE_TYPE_WORKING_EF file)
        else if (taglen =? 1) && (at_index tag 0 =? 0x11) then
          (* object EF *)
          set_file_ef_structure SC_FILE_EF_TRANSPARENT
            (set_file_type SC_FILE_TYPE_WORKING_EF file)
        else if (taglen =? 3) && (at_index tag 1 =? 0x21) then
          let file := set_file_record_length (at_index tag 2) file in
          let file := set_file_type SC_FILE_TYPE_WORKING_EF file in
          (* linear fixed, cyclic or compute *)
          if at_index tag 0 =? 0x02 then
            set_file_ef_structure SC_FILE_EF_LINEAR_FIXED file
          else if at_index tag 0 =? 0x07 then
            set_file_ef_structure SC_FILE_EF_CYCLIC file
          else if at_index tag 0 =? 0x17 then
            set_file_ef_structure SC_FILE_EF_UNKNOWN file
          else
            set_file_record_length 0 (set_file_ef_structure SC_FILE_EF_UNKNOWN file)
        else file
    | None => file
    end in
  set_file_magic SC_FILE_MAGIC file.

(** ** Selection engine *)

(** [copy_path(dest, src)] for non-NULL arguments. *)
Definition copy_path (dest src : sc_path) : sc_path :=
  mk_path (memcpy (path_value dest) (path_value src) (path_len src))
          (path_len src) (path_index src) (path_type src).

(** The response buffer [u8 resp[SC_MAX_APDU_BUFFER_SIZE]] after a
    transmit: the bytes received, then what the stack held. *)
Definition resp_buffer `{Framework} (resp : list Z) : list Z :=
  resp ++ map stack_byte
              (seq (length resp) (Z.to_nat SC_MAX_APDU_BUFFER_SIZE - length resp)).

(** The SELECT FILE command of [starcos_select_aid]. *)
Definition select_aid_apdu (card : sc_card) (aid : list Z) (len : Z) : sc_apdu :=
  let apdu := sc_format_apdu card SC_APDU_CASE_3_SHORT 0xA4 0x04 0x0C in
  mk_apdu (apdu_cse apdu) (apdu_cla apdu) (apdu_ins apdu) (apdu_p1 apdu) (apdu_p2 apdu)
          len 0 (take (Z.to_nat len) aid) 0 (apdu_sensitive apdu).

Definition starcos_select_aid `{Framework} (aid : list Z) (len : Z)
    (file_out : file_slot) : M (Z * file_slot) :=
  let file_out := store_slot file_out None in
  card ← get_card;
  rep ← sc_transmit_apdu (select_aid_apdu card aid len);
  if reply_r rep <? 0 then mret (reply_r rep, file_out) else
  (* check return value *)
  if negb ((reply_sw1 rep =? 0x90) && (reply_sw2 rep =? 0x00))
     && negb (reply_sw1 rep =? 0x61)
  then mret (sc_check_sw (reply_sw1 rep) (reply_sw2 rep), file_out) else
  (* update cache *)
  _ ← modify_card (fun c =>
        let p := cache_current_path c in
        set_cache (mk_path (memcpy (path_value p) aid len) len (path_index p)
                           SC_PATH_TYPE_DF_NAME) c);
  match file_out with
  | Some _ =>
      match sc_file_new with
      | None => mret (SC_ERROR_OUT_OF_MEMORY, file_out)
      | Some file =>
          let file := set_file_type SC_FILE_TYPE_DF file in
          let file := set_file_ef_structure SC_FILE_EF_UNKNOWN file in
          let fp := file_path file in
          let file := set_file_path
                        (mk_path (path_value fp) 0 (path_index fp) (path_type fp)) file in
          let file := set_file_size 0 file in
          (* AID *)
          let file := set_file_name (memcpy (file_name file) aid len) file in
          let file := set_file_namelen len file in
          let file := set_file_id 0x0000 file in
          let file := set_file_magic SC_FILE_MAGIC file in
          mret (SC_SUCCESS, Some (Some file))
      end
  | None => mret (SC_SUCCESS, file_out)
  end.

(** The SELECT FILE command that opens [starcos_select_fid]. *)
Definition select_fid_apdu (card : sc_card) (id_hi id_lo : Z) : sc_apdu :=
  let apdu := sc_format_apdu card SC_APDU_CASE_4_SHORT 0xA4 0x00 0x00 in
  mk_apdu (apdu_cse apdu) (apdu_cla apdu) (apdu_ins apdu) (apdu_p1 apdu) (apdu_p2 apdu)
          2 256 [id_hi; id_lo] SC_MAX_APDU_BUFFER_SIZE (apdu_sensitive apdu).

(** The same command re-issued without a response, once the card has
    answered 62 84. *)
Definition reselect_fid_apdu (apdu : sc_apdu) : sc_apdu :=
  mk_apdu SC_APDU_CASE_3_SHORT (apdu_cla apdu) (apdu_ins apdu) (apdu_p1 apdu) 0x0C
          (apdu_lc apdu) 0 (apdu_data apdu) 0 (apdu_sensitive apdu).

(** The READ BINARY probe of [starcos_select_fid]. *)
Definition read_binary_apdu (card : sc_card) : sc_apdu :=
  let apdu2 := sc_format_apdu card SC_APDU_CASE_2_SHORT 0xB0 0 0 in
  mk_apdu (apdu_cse apdu2) (apdu_cla apdu2) (apdu_ins apdu2) (apdu_p1 apdu2)
          (apdu_p2 apdu2) 0 1 (apdu_data apdu2) 2 (apdu_sensitive apdu2).

(** The cache update of [starcos_select_fid] for a DF. *)
Definition cache_df (id_hi id_lo : Z) (p : sc_path) : sc_path :=
  let value := <[1%nat := 0x00]> (<[0%nat := 0x3f]> (path_value p)) in
  if (id_hi =? 0x3f) && (id_lo =? 0x00)
  then mk_path value 2 (path_index p) SC_PATH_TYPE_PATH
  else mk_path (<[3%nat := id_lo]> (<[2%nat := id_hi]> value)) 4 (path_index p)
               SC_PATH_TYPE_PATH.

(** Lines 365-421 of [starcos_select_fid]: what follows the exchange with
    the card, given [bIsDF] and the state of [apdu] (status word, response). *)
Definition select_fid_finish `{Framework} (id_hi id_lo : Z) (file_out : file_slot)
    (bIsDF : bool) (rep : apdu_reply) : M (Z * file_slot) :=
  if negb (reply_sw1 rep =? 0x61)
     && (negb (reply_sw1 rep =? 0x90) || negb (reply_sw2 rep =? 0x00))
  then mret (sc_check_sw (reply_sw1 rep) (reply_sw2 rep), file_out) else
  (* update cache *)
  _ ← modify_card (fun c =>
        if bIsDF then set_cache (cache_df id_hi id_lo (cache_current_path c)) c else c);
  card ← get_card;
  match file_out with
  | Some _ =>
      match sc_file_new with
      | None => mret (SC_ERROR_OUT_OF_MEMORY, file_out)
      | Some file =>
          let file := set_file_id (Z.shiftl id_hi 8 + id_lo) file in
          let file := set_file_path (copy_path (file_path file) (cache_current_path card))
                                    file in
          if bIsDF then
            (* we have a DF *)
            let file := set_file_type SC_FILE_TYPE_DF file in
            let file := set_file_ef_structure SC_FILE_EF_UNKNOWN file in
            let file := set_file_size 0 file in
            let file := set_file_namelen 0 file in
            let file := set_file_magic SC_FILE_MAGIC file in
            mret (SC_SUCCESS, Some (Some file))
          else
            (* ok, assume we have a EF *)
            let resp := resp_buffer (reply_resp rep) in
            let resplen := Z.of_nat (length (reply_resp rep)) in
            if negb (at_index resp 0 =? 0x6F) then
              (* missing tag *)
              mret (SC_ERROR_UNKNOWN_DATA_RECEIVED, file_out)
            else
              (* check length of the FCI data *)
              let file :=
                if at_index resp 1 <=? size_t_sub resplen 2
                then process_fci file (take (Z.to_nat (at_index resp 1)) (drop 2 resp))
                else file in
              mret (SC_SUCCESS, Some (Some file))
      end
  | None => mret (SC_SUCCESS, file_out)
  end.

Definition starcos_select_fid `{Framework} (id_hi id_lo : Z) (file_out : file_slot)
    : M (Z * file_slot) :=
  let file_out := store_slot file_out None in
  card ← get_card;
  (* request FCI to distinguish between EFs and DFs *)
  let apdu := select_fid_apdu card id_hi id_lo in
  rep ← sc_transmit_apdu apdu;
  if reply_r rep <? 0 then mret (reply_r rep, file_out) else
  if (apdu_p2 apdu =? 0x00) && (reply_sw1 rep =? 0x62) && (reply_sw2 rep =? 0x84) then
    (* no FCI => we have a DF *)
    rep' ← sc_transmit_apdu (reselect_fid_apdu apdu);
    if reply_r rep' <? 0 then mret (reply_r rep', file_out) else
    select_fid_finish id_hi id_lo file_out true rep'
  else if (reply_sw1 rep =? 0x61) || ((reply_sw1 rep =? 0x90) && (reply_sw2 rep =? 0x00)) then
    (* SELECT returned some data (possible FCI) =>
       try a READ BINARY to see if a EF is selected *)
    rep2 ← sc_transmit_apdu (read_binary_apdu card);
    if reply_r rep2 <? 0 then mret (reply_r rep2, file_out) else
    select_fid_finish id_hi id_lo file_out
      ((reply_sw1 rep2 =? 0x69) && (reply_sw2 rep2 =? 0x86)) rep
  else select_fid_finish id_hi id_lo file_out false rep.

(** The loop that counts the FIDs of the cached path found at the same
    place in the requested path:
    [for (i = 0; i < len; i += 2) if (...) bMatch += 2;]
    [steps] bounds the number of iterations ([len] is enough). *)
Fixpoint count_match (steps : nat) (cache path : list Z) (len i bMatch : Z) : Z :=
  match steps with
  | O => bMatch
  | S steps' =>
      if i <? len then
        count_match steps' cache path len (i + 2)
          (if (at_index cache i =? at_index path i)
              && (at_index cache (i + 1) =? at_index path (i + 1))
           then bMatch + 2 else bMatch)
      else bMatch
  end.

(** The loop over the leading FIDs when the cache is of no use:
    [for (i = 0; i < pathlen-2; i += 2) { r = starcos_select_fid(...); SC_TEST_RET }]
    The result is the negative [r] that ended the walk, or 0. *)
Fixpoint select_walk `{Framework} (steps : nat) (path : list Z) (pathlen i : Z) : M Z :=
  match steps with
  | O => mret 0
  | S steps' =>
      if i <? size_t_sub pathlen 2 then
        '(r, _) ← starcos_select_fid (at_index path i) (at_index path (i + 1)) None;
        if r <? 0 then mret r else select_walk steps' path pathlen (i + 2)
      else mret 0
  end.

(** The local [sc_path_t new_path] before it is filled in. *)
Definition stack_path `{Framework} : sc_path :=
  mk_path (map stack_byte (seq 0 (Z.to_nat SC_MAX_PATH_SIZE))) 0 0 0.

(** [starcos_select_file].  The C function calls itself on the rest of the
    path; [fuel] bounds the depth of these calls and [None] is returned
    when it is used up. *)
Fixpoint starcos_select_file `{Framework} (fuel : nat) (in_path : sc_path)
    (file_out : file_slot) : M (option (Z * file_slot)) :=
  match fuel with
  | O => mret None
  | S fuel' =>
    card ← get_card;
    let cur := cache_current_path card in
    let pathbuf := take (Z.to_nat (path_len in_path)) (path_value in_path) in
    let pathlen := path_len in_path in
    if path_type in_path =? SC_PATH_TYPE_FILE_ID then
      (* Select with 2byte File-ID *)
      if negb (pathlen =? 2) then mret (Some (SC_ERROR_INVALID_ARGUMENTS, file_out)) else
      (* check if we are already in the right DF *)
      if cache_valid card
         && (path_type cur =? SC_PATH_TYPE_PATH)
         && (2 <=? path_len cur)
         && (at_index (path_value cur) (path_len cur - 2) =? at_index pathbuf 0)
         && (at_index (path_value cur) (path_len cur - 1) =? at_index pathbuf 1)
      then mret (Some (SC_SUCCESS, file_out))
      else Some <$> starcos_select_fid (at_index pathbuf 0) (at_index pathbuf 1) file_out
    else if path_type in_path =? SC_PATH_TYPE_DF_NAME then
      (* Select with 1-16byte Application-ID *)
      if cache_valid card
         && (path_type cur =? SC_PATH_TYPE_DF_NAME)
         && (path_len cur =? pathlen)
         && memcmp_eq (path_value cur) pathbuf pathlen
      then mret (Some (SC_SUCCESS, file_out))
      else Some <$> starcos_select_aid pathbuf pathlen file_out
    else if path_type in_path =? SC_PATH_TYPE_PATH then
      (* Select with path (sequence of File-IDs) *)
      if negb (pathlen mod 2 =? 0) || (6 <? pathlen) || (pathlen <=? 0)
      then mret (Some (SC_ERROR_INVALID_ARGUMENTS, file_out)) else
      (* if pathlen == 6 then the first FID must be MF (== 3F00) *)
      if (pathlen =? 6)
         && (negb (at_index pathbuf 0 =? 0x3f) || negb (at_index pathbuf 1 =? 0x00))
      then mret (Some (SC_ERROR_INVALID_ARGUMENTS, file_out)) else
      (* unify path (the first FID should be MF) *)
      let '(path, pathlen) :=
        if negb (at_index pathbuf 0 =? 0x3f) || negb (at_index pathbuf 1 =? 0x00)
        then ([0x3f; 0x00] ++ pathbuf, pathlen + 2)
        else (pathbuf, pathlen) in
      (* check current working directory *)
      let bMatch :=
        if cache_valid card
           && (path_type cur =? SC_PATH_TYPE_PATH)
           && (2 <=? path_len cur)
           && (path_len cur <=? pathlen)
        then count_match (Z.to_nat (path_len cur)) (path_value cur) path (path_len cur) 0 0
        else -1 in
      if cache_valid card && (0 <=? bMatch) then
        if size_t_sub pathlen bMatch =? 2 then
          (* we are in the rigth directory *)
          Some <$> starcos_select_fid (at_index path bMatch) (at_index path (bMatch + 1))
                                      file_out
        else if 2 <? size_t_sub pathlen bMatch then
          (* two more steps to go; first step: change directory *)
          '(r, _) ← starcos_select_fid (at_index path bMatch) (at_index path (bMatch + 1))
                                       None;
          if r <? 0 then mret (Some (r, file_out)) else
          let len := size_t_sub (size_t_sub pathlen bMatch) 2 in
          let new_path :=
            mk_path (memcpy (path_value stack_path) (drop (Z.to_nat (bMatch + 2)) path) len)
                    len (path_index stack_path) SC_PATH_TYPE_PATH in
          (* final step: select file *)
          starcos_select_file fuel' new_path file_out
        else
          (* done: we are already in the requested directory;
             copy file info (if necessary) *)
          match file_out with
          | Some _ =>
              match sc_file_new with
              | None => mret (Some (SC_ERROR_OUT_OF_MEMORY, file_out))
              | Some file =>
                  let file := set_file_id (Z.shiftl (at_index path (pathlen - 2)) 8
                                           + at_index path (pathlen - 1)) file in
                  let file := set_file_path
                                (copy_path (file_path file) (cache_current_path card))
                                file in
                  let file := set_file_type SC_FILE_TYPE_DF file in
                  let file := set_file_ef_structure SC_FILE_EF_UNKNOWN file in
                  let file := set_file_size 0 file in
                  let file := set_file_namelen 0 file in
                  let file := set_file_magic SC_FILE_MAGIC file in
                  mret (Some (SC_SUCCESS, Some (Some file)))
              end
          | None => mret (Some (SC_SUCCESS, file_out))
          end
      else
        (* no usable cache *)
        r ← select_walk (Z.to_nat pathlen) path pathlen 0;
        if r <? 0 then mret (Some (r, file_out)) else
        Some <$> starcos_select_fid (at_index path (pathlen - 2))
                                    (at_index path (pathlen - 1)) file_out
    else mret (Some (SC_ERROR_INVALID_ARGUMENTS, file_out))
  end.

(** ** Card recognition and initialisation *)

Definition starcos_atrs : list string :=
  [ "3B:B7:94:00:c0:24:31:fe:65:53:50:4b:32:33:90:00:b4";
    "3B:B7:94:00:81:31:fe:65:53:50:4b:32:33:90:00:d1" ]%string.

(** The loop of [starcos_match_card] from index [i] on, over the entries
    left before the terminating NULL: the values of [i] and [match] when
    the loop is left. *)
Fixpoint match_loop `{Framework} (atrs : list string) (i : Z) (card : sc_card) : Z * Z :=
  match atrs with
  | [] => (i, -1)
  | atrp :: atrs' =>
      match sc_hex_to_bin atrp SC_MAX_ATR_SIZE with
      | None => match_loop atrs' (i + 1) card
      | Some defatr =>
          let len := Z.of_nat (length defatr) in
          if negb (len =? Z.of_nat (length (card_atr card)))
          then match_loop atrs' (i + 1) card
          else if negb (memcmp_eq (card_atr card) defatr len)
          then match_loop atrs' (i + 1) card
          else (i, i + 1)
      end
  end.

Definition starcos_match_card `{Framework} (card : sc_card) : Z :=
  let '(i, match_) := match_loop starcos_atrs 0 card in
  if match_ =? -1 then 0 else i.

(** [_sc_card_add_rsa_alg] *)
Definition _sc_card_add_rsa_alg (key_length flags exponent : Z) (c : sc_card) : sc_card :=
  mk_card (card_atr c) (card_cla c) (card_max_le c)
    (card_algorithms c ++ [mk_rsa_alg key_length flags exponent])
    (cache_valid c) (cache_current_path c) (drv_data c) (apdu_log c).

(** [starcos_init].  When [malloc] fails nothing of the card structure is
    written.  Of the fresh state only [sec_ops] is initialised; the other
    fields keep what the block held.  [card->name], a string constant, is
    not a field of [sc_card]. *)
Definition starcos_init `{Framework} : M Z :=
  match malloc_mse_state with
  | None => mret SC_ERROR_OUT_OF_MEMORY
  | Some state =>
      let state := mk_mse 0 (mse_buf state) (mse_p1 state) (mse_p2 state) in
      _ ← modify_card (fun c =>
            mk_card (card_atr c) 0x00 (card_max_le c) (card_algorithms c)
              (cache_valid c) (cache_current_path c) state (apdu_log c));
      card ← get_card;
      (* set the supported algorithm *)
      let type := starcos_match_card card in
      if (type =? 1) || (type =? 2) then
        (* Starcos SPK 2.3 card *)
        let flags :=
          Z.lor SC_ALGORITHM_RSA_PAD_PKCS1
           (Z.lor SC_ALGORITHM_RSA_PAD_ISO9796
            (Z.lor SC_ALGORITHM_RSA_HASH_NONE
             (Z.lor SC_ALGORITHM_RSA_HASH_SHA1
              (Z.lor SC_ALGORITHM_RSA_HASH_MD5 SC_ALGORITHM_RSA_HASH_RIPEMD160)))) in
        _ ← modify_card (_sc_card_add_rsa_alg 512 flags 0x10001);
        _ ← modify_card (_sc_card_add_rsa_alg 768 flags 0x10001);
        _ ← modify_card (_sc_card_add_rsa_alg 1024 flags 0x10001);
        (* we need read_binary&friends with max 128 bytes per read *)
        _ ← modify_card (fun c =>
              mk_card (card_atr c) (card_cla c) 0x80 (card_algorithms c)
                (cache_valid c) (cache_current_path c) (drv_data c) (apdu_log c));
        mret 0
      else mret SC_ERROR_INTERNAL
  end.

(** ** Security environment *)

Record sc_security_env := mk_env {
  env_flags : Z;
  env_operation : Z;
  env_algorithm : Z;
  env_algorithm_flags : Z;
  env_algorithm_ref : Z;
  env_key_ref : list Z;      (* u8 key_ref[8] *)
  env_key_ref_len : Z
}.

(** A C condition [x & mask]. *)
Definition has_flag (x mask : Z) : bool := negb (Z.land x mask =? 0).

(** [starcos_set_security_env]: no command is sent; the environment is
    recorded in [card->drv_data]. *)
Definition starcos_set_security_env (env : sc_security_env) (se_num : Z) : M Z :=
  let params :=
    if env_operation env =? SC_SEC_OPERATION_DECIPHER
    then Some (SC_SEC_OPERATION_DECIPHER, 0x81, 0xB8)
    else if env_operation env =? SC_SEC_OPERATION_SIGN
    then Some (SC_SEC_OPERATION_SIGN, 0x41, 0xB6)
    else if env_operation env =? SC_SEC_OPERATION_AUTHENTICATE
    then Some (SC_SEC_OPERATION_AUTHENTICATE, 0x41, 0xa4)
    else None in
  match params with
  | None => mret SC_ERROR_INVALID_ARGUMENTS
  | Some (ops, p1, p2) =>
      let p : list Z := [] in
      let p :=
        if has_flag (env_flags env) SC_SEC_ENV_ALG_REF_PRESENT then
          p ++ [0x80; 0x01; Z.land (env_algorithm_ref env) 0xFF]
        else if has_flag (env_flags env) SC_SEC_ENV_ALG_PRESENT
                && (env_algorithm env =? SC_ALGORITHM_RSA)
                && has_flag (env_algorithm_flags env) SC_ALGORITHM_RSA_PAD_PKCS1 then
          if env_operation env =? SC_SEC_OPERATION_DECIPHER then
            (* default value for the deciphering operations (PKCS#1 BT 2) *)
            p ++ [0x80; 0x01; 0x02]
          else if (env_operation env =? SC_SEC_OPERATION_SIGN)
                  || (env_operation env =? SC_SEC_OPERATION_AUTHENTICATE) then
            (* default value for signing PKCS#1 BT 1 *)
            p ++ [0x80; 0x01; 0x12]
          else p
        else p in
      let p :=
        if has_flag (env_flags env) SC_SEC_ENV_KEY_REF_PRESENT then
          p ++ [if has_flag (env_flags env) SC_SEC_ENV_KEY_REF_ASYMMETRIC
                then 0x83 else 0x84;
                env_key_ref_len env mod 256]
            ++ take (Z.to_nat (env_key_ref_len env)) (env_key_ref env)
        else p in
      _ ← modify_card (set_drv_data (mk_mse ops p p1 p2));
      mret SC_SUCCESS
  end.

(** ** Crypto operations *)

(** The MANAGE SECURITY ENVIRONMENT command built from the recorded state. *)
Definition mse_apdu (card : sc_card) : sc_apdu :=
  let mse := drv_data card in
  let apdu := sc_format_apdu card SC_APDU_CASE_3_SHORT 0x22 (mse_p1 mse) (mse_p2 mse) in
  mk_apdu (apdu_cse apdu) (apdu_cla apdu) (apdu_ins apdu) (apdu_p1 apdu) (apdu_p2 apdu)
          (Z.of_nat (length (mse_buf mse))) 0 (mse_buf mse) (apdu_resplen apdu)
          (apdu_sensitive apdu).

(** [int len = apdu.resplen > outlen ? outlen : apdu.resplen;
     memcpy(out, apdu.resp, len); return len]: the value returned and the
    bytes written to [out]. *)
Definition copy_out (rep : apdu_reply) (outlen : Z) : Z * option (list Z) :=
  let resplen := Z.of_nat (length (reply_resp rep)) in
  let len := if outlen <? resplen then outlen else resplen in
  (len, Some (take (Z.to_nat len) (reply_resp rep))).

(** [starcos_compute_signature]: the return value and what was written to
    [out] ([None]: nothing). *)
Definition starcos_compute_signature `{Framework} (data : list Z) (datalen : Z)
    (outlen : Z) : M (Z * option (list Z)) :=
  if 20 <? datalen then mret (SC_ERROR_INVALID_ARGUMENTS, None) else
  card ← get_card;
  let mse := drv_data card in
  (* first step: MSE *)
  if sec_ops mse =? 0 then mret (SC_ERROR_INVALID_ARGUMENTS, None) else
  rep ← sc_transmit_apdu (mse_apdu card);
  if reply_r rep <? 0 then mret (reply_r rep, None) else
  if negb (reply_sw1 rep =? 0x90) || negb (reply_sw2 rep =? 0x00)
  then mret (sc_check_sw (reply_sw1 rep) (reply_sw2 rep), None) else
  (* the second step depends on the signature method used:
     INTERNAL AUTHENTICATE or COMPUTE SIGNATURE *)
  if sec_ops mse =? SC_SEC_OPERATION_SIGN then
    (* second step: set the hash value *)
    let apdu := sc_format_apdu card SC_APDU_CASE_3_SHORT 0x2A 0x90 0x81 in
    let apdu := mk_apdu (apdu_cse apdu) (apdu_cla apdu) (apdu_ins apdu) (apdu_p1 apdu)
                  (apdu_p2 apdu) datalen 0 (take (Z.to_nat datalen) data)
                  SC_MAX_APDU_BUFFER_SIZE (apdu_sensitive apdu) in
    rep ← sc_transmit_apdu apdu;
    if reply_r rep <? 0 then mret (reply_r rep, None) else
    if negb (reply_sw1 rep =? 0x90) || negb (reply_sw2 rep =? 0x00)
    then mret (sc_check_sw (reply_sw1 rep) (reply_sw2 rep), None) else
    (* third and final step: calculate the signature *)
    let apdu := sc_format_apdu card SC_APDU_CASE_2_SHORT 0x2A 0x9E 0x9A in
    let apdu := mk_apdu (apdu_cse apdu) (apdu_cla apdu) (apdu_ins apdu) (apdu_p1 apdu)
                  (apdu_p2 apdu) 0 256 [] SC_MAX_APDU_BUFFER_SIZE 1 in
    rep ← sc_transmit_apdu apdu;
    if reply_r rep <? 0 then mret (reply_r rep, None) else
    if (reply_sw1 rep =? 0x90) && (reply_sw2 rep =? 0x00)
    then mret (copy_out rep outlen) else
    (* clear the old mse state *)
    _ ← modify_card (set_drv_data mse_zero);
    mret (sc_check_sw (reply_sw1 rep) (reply_sw2 rep), None)
  else if sec_ops mse =? SC_SEC_OPERATION_AUTHENTICATE then
    (* second and final step: compute the signature *)
    let apdu := sc_format_apdu card SC_APDU_CASE_4_SHORT 0x88 0x10 0x00 in
    let apdu := mk_apdu (apdu_cse apdu) (apdu_cla apdu) (apdu_ins apdu) (apdu_p1 apdu)
                  (apdu_p2 apdu) datalen 256 (take (Z.to_nat datalen) data)
                  SC_MAX_APDU_BUFFER_SIZE (apdu_sensitive apdu) in
    rep ← sc_transmit_apdu apdu;
    if reply_r rep <? 0 then mret (reply_r rep, None) else
    mret (copy_out rep outlen)
  else mret (SC_ERROR_INVALID_ARGUMENTS, None).

(** [starcos_decipher]: the return value and what was written to [out]. *)
Definition starcos_decipher `{Framework} (crgram : list Z) (crgram_len : Z)
    (outlen : Z) : M (Z * option (list Z)) :=
  if 255 <? crgram_len then mret (SC_ERROR_INVALID_ARGUMENTS, None) else
  (* MSE *)
  card ← get_card;
  let mse := drv_data card in
  if sec_ops mse =? 0 then mret (SC_ERROR_INVALID_ARGUMENTS, None) else
  rep ← sc_transmit_apdu (mse_apdu card);
  if reply_r rep <? 0 then mret (reply_r rep, None) else
  if negb (reply_sw1 rep =? 0x90) || negb (reply_sw2 rep =? 0x00)
  then mret (sc_check_sw (reply_sw1 rep) (reply_sw2 rep), None) else
  (* INS: 0x2A  PERFORM SECURITY OPERATION
     P1:  0x80  Resp: Plain value
     P2:  0x86  Cmd: Padding indicator byte followed by cryptogram *)
  let apdu := sc_format_apdu card SC_APDU_CASE_4_SHORT 0x2A 0x80 0x86 in
  let apdu := mk_apdu (apdu_cse apdu) (apdu_cla apdu) (apdu_ins apdu) (apdu_p1 apdu)
                (apdu_p2 apdu) (crgram_len + 1) 256
                (0 :: take (Z.to_nat crgram_len) crgram)
                SC_MAX_APDU_BUFFER_SIZE 1 in
  rep ← sc_transmit_apdu apdu;
  if reply_r rep <? 0 then mret (reply_r rep, None) else
  if (reply_sw1 rep =? 0x90) && (reply_sw2 rep =? 0x00)
  then mret (copy_out rep outlen) else
  (* clear the old mse state *)
  _ ← modify_card (set_drv_data mse_zero);
  mret (sc_check_sw (reply_sw1 rep) (reply_sw2 rep), None).

(** ** A scripted card

    One implementation of [Framework], used to run the driver on concrete
    exchanges: the card answers the n-th command with the n-th reply of a
    script. *)

Definition hex_digit (c : ascii) : option Z :=
  let n := Z.of_nat (nat_of_ascii c) in
  if (48 <=? n) && (n <=? 57) then Some (n - 48)
  else if (97 <=? n) && (n <=? 102) then Some (n - 87)
  else if (65 <=? n) && (n <=? 70) then Some (n - 55)
  else None.

(** Modelled from the spec: [sc_hex_to_bin] of libopensc is not part of
    card-starcos.c.  The spec calls the two strings fixed ATR fingerprints;
    this decoder reads the notation they are written in, two hexadecimal
    digits per byte with colons between the bytes. *)
Fixpoint hex_bytes (s : string) : option (list Z) :=
  match s with
  | EmptyString => Some []
  | String a (String b rest) =>
      match hex_digit a, hex_digit b with
      | Some h, Some l =>
          let rest' := match rest with
                       | String ":" r => hex_bytes r
                       | _ => hex_bytes rest
                       end in
          match rest' with
          | Some bs => Some (16 * h + l :: bs)
          | None => None
          end
      | _, _ => None
      end
  | _ => None
  end.

(** [hex_bytes] with the check of the output capacity. *)
Definition hex_to_bin (s : string) (capacity : Z) : option (list Z) :=
  match hex_bytes s with
  | Some bs => if Z.of_nat (length bs) <=? capacity then Some bs else None
  | None => None
  end.

(** Modelled from the spec: [sc_asn1_find_tag] of libopensc is not part of
    card-starcos.c.  The spec describes the metadata as TLV bytes; this
    finder walks objects made of a one-byte tag, a one-byte length and the
    value, and returns the value of the first object with the tag. *)
Fixpoint tlv_find_tag (steps : nat) (buf : list Z) (tag : Z) : option (list Z) :=
  match steps with
  | O => None
  | S steps' =>
      match buf with
      | t :: l :: rest =>
          if Z.of_nat (length rest) <? l then None
          else if t =? tag then Some (take (Z.to_nat l) rest)
          else tlv_find_tag steps' (drop (Z.to_nat l) rest) tag
      | _ => None
      end
  end.

(** Modelled from the spec: [sc_file_new] of libopensc is not part of
    card-starcos.c; a descriptor with every field zero but the magic
    number. *)
Definition blank_file : sc_file :=
  mk_file (mk_path (replicate 16 0) 0 0 0) (replicate 16 0) 0 0 0 0 0 0 0 0 SC_FILE_MAGIC.

(** The reply of a reader that has no more answers in its script. *)
Definition no_reply : apdu_reply := mk_reply (-1107) [] 0 0.

Definition scripted_card (script : list apdu_reply) : Framework :=
  {| card_reply := fun log _ => nth (length log) script no_reply;
     iso_check_sw := fun _ _ => SC_ERROR_CARD_CMD_FAILED;
     sc_asn1_find_tag := fun buf tag => tlv_find_tag (length buf) buf tag;
     sc_file_new := Some blank_file;
     sc_hex_to_bin := hex_to_bin;
     stack_byte := fun _ => 0xCC;
     malloc_mse_state := Some (mk_mse 0xCC [0xCC; 0xCC] 0xCC 0xCC) |}.

(** A card structure after [sc_connect_card]: nothing cached, nothing sent. *)
Definition fresh_card (atr : list Z) : sc_card :=
  mk_card atr 0 0 [] false (mk_path (replicate 16 0) 0 0 0) mse_zero [].

(** Shorthands for replies. *)
Definition sw_only (sw1 sw2 : Z) : apdu_reply := mk_reply 0 [] sw1 sw2.
Definition with_data (resp : list Z) : apdu_reply := mk_reply 0 resp 0x90 0x00.

(** ** Auxiliary definitions for the statements *)

(** What [process_fci] leaves in the fields that tag 0x82 decides, as a
    function of the value found for the tag. *)
Definition fci_82_fields (tag : list Z) : Z * Z * Z :=
  let taglen := Z.of_nat (length tag) in
  if (taglen =? 1) && (at_index tag 0 =? 0x01)
  then (SC_FILE_TYPE_WORKING_EF, SC_FILE_EF_TRANSPARENT, 0)
  else if (taglen =? 1) && (at_index tag 0 =? 0x11)
  then (SC_FILE_TYPE_WORKING_EF, SC_FILE_EF_TRANSPARENT, 0)
  else if (taglen =? 3) && (at_index tag 1 =? 0x21) then
    if at_index tag 0 =? 0x02
    then (SC_FILE_TYPE_WORKING_EF, SC_FILE_EF_LINEAR_FIXED, at_index tag 2)
    else if at_index tag 0 =? 0x07
    then (SC_FILE_TYPE_WORKING_EF, SC_FILE_EF_CYCLIC, at_index tag 2)
    else if at_index tag 0 =? 0x17
    then (SC_FILE_TYPE_WORKING_EF, SC_FILE_EF_UNKNOWN, at_index tag 2)
    else (SC_FILE_TYPE_WORKING_EF, SC_FILE_EF_UNKNOWN, 0)
  else (SC_FILE_TYPE_WORKING_EF, SC_FILE_EF_UNKNOWN, 0).


(** The commands that open a FID-select: SELECT FILE with P1 = P2 = 0. *)
Definition is_fid_select (a : sc_apdu) : bool :=
  (apdu_ins a =? 0xA4) && (apdu_p1 a =? 0x00) && (apdu_p2 a =? 0x00).

(** The FIDs of the FID-selects in a log of commands, oldest first. *)
Definition fid_selects (log : list sc_apdu) : list (Z * Z) :=
  map (fun a => (at_index (apdu_data a) 0, at_index (apdu_data a) 1))
      (List.filter is_fid_select log).

(** The verdict of the card on a FID: a DF when it answers the SELECT with
    62 84, or answers it with data and the READ BINARY probe with 69 86. *)
Definition fid_is_df `{Framework} (id_hi id_lo : Z) (c : sc_card) : bool :=
  let apdu := select_fid_apdu c id_hi id_lo in
  let rep := card_reply (apdu_log c) apdu in
  if (reply_sw1 rep =? 0x62) && (reply_sw2 rep =? 0x84) then true
  else if (reply_sw1 rep =? 0x61) || ((reply_sw1 rep =? 0x90) && (reply_sw2 rep =? 0x00))
  then let rep2 := card_reply (apdu_log c ++ [apdu]) (read_binary_apdu c) in
       (reply_sw1 rep2 =? 0x69) && (reply_sw2 rep2 =? 0x86)
  else false.

(** A path structure whose array has its C size and whose length fits. *)
Definition wf_path (p : sc_path) : Prop :=
  length (path_value p) = Z.to_nat SC_MAX_PATH_SIZE /\ 0 <= path_len p <= SC_MAX_PATH_SIZE.








(** A card structure with a valid cache. *)
Definition cached_card (p : sc_path) : sc_card :=
  mk_card [] 0 0 [] true p mse_zero [].

(** The path structure for some bytes: the array is padded with zeros. *)
Definition path_of (type : Z) (bytes : list Z) : sc_path :=
  mk_path (bytes ++ replicate (Z.to_nat SC_MAX_PATH_SIZE - length bytes) 0)
          (Z.of_nat (length bytes)) 0 type.

(** A card with the DF 1234 under the MF and the transparent EF 5678 of
    100 bytes in it: the replies to SELECT 3F00, SELECT 1234 and
    SELECT 5678, each with the command that follows it. *)
Definition full_path_script : list apdu_reply :=
  [ sw_only 0x62 0x84; sw_only 0x90 0x00;
    sw_only 0x62 0x84; sw_only 0x90 0x00;
    with_data [0x6F; 0x07; 0x80; 0x02; 0x00; 0x64; 0x82; 0x01; 0x01]; sw_only 0x90 0x00 ].

(** A security environment for an RSA key with PKCS#1 padding. *)
Definition rsa_env (operation : Z) : sc_security_env :=
  mk_env (Z.lor SC_SEC_ENV_ALG_PRESENT
            (Z.lor SC_SEC_ENV_KEY_REF_PRESENT SC_SEC_ENV_KEY_REF_ASYMMETRIC))
         operation SC_ALGORITHM_RSA SC_ALGORITHM_RSA_PAD_PKCS1 0 [0x91] 1.

(** The card structure after [starcos_set_security_env] for that
    environment. *)
Definition configured (operation : Z) : sc_card :=
  snd (starcos_set_security_env (rsa_env operation) 0 (fresh_card [])).

(** A 20-byte digest. *)
Definition digest : list Z := replicate 20 0xAB.

(** The two ATRs of the table, as bytes. *)
Definition atr_spk23_a : list Z :=
  [0x3B; 0xB7; 0x94; 0x00; 0xc0; 0x24; 0x31; 0xfe; 0x65; 0x53; 0x50; 0x4b; 0x32; 0x33;
   0x90; 0x00; 0xb4].
Definition atr_spk23_b : list Z :=
  [0x3B; 0xB7; 0x94; 0x00; 0x81; 0x31; 0xfe; 0x65; 0x53; 0x50; 0x4b; 0x32; 0x33; 0x90;
   0x00; 0xd1].

(** The PERFORM SECURITY OPERATION command of [starcos_decipher]: the
    padding indicator byte and the cryptogram. *)
Definition decipher_apdu (card : sc_card) (crgram : list Z) (crgram_len : Z) : sc_apdu :=
  let apdu := sc_format_apdu card SC_APDU_CASE_4_SHORT 0x2A 0x80 0x86 in
  mk_apdu (apdu_cse apdu) (apdu_cla apdu) (apdu_ins apdu) (apdu_p1 apdu)
          (apdu_p2 apdu) (crgram_len + 1) 256
          (0 :: take (Z.to_nat crgram_len) crgram)
          SC_MAX_APDU_BUFFER_SIZE 1.

(** ** File creation and deletion *)

(** A write of [bytes] into a C array from index [off] on. *)
Definition write_at (buf : list Z) (off : nat) (bytes : list Z) : list Z :=
  take off buf ++ bytes ++ drop (off + length bytes) buf.

(** The local [u8 sbuf[SC_MAX_APDU_BUFFER_SIZE]] before anything is stored
    in it. *)
Definition stack_sbuf `{Framework} : list Z :=
  map stack_byte (seq 0 (Z.to_nat SC_MAX_APDU_BUFFER_SIZE)).

(** The local [struct sc_apdu apdu] before [sc_format_apdu] has filled it
    in: indeterminate. *)
Definition stack_apdu `{Framework} : sc_apdu :=
  mk_apdu (stack_byte 0) (stack_byte 1) (stack_byte 2) (stack_byte 3) (stack_byte 4)
          (stack_byte 5) (stack_byte 6) [] (stack_byte 7) (stack_byte 8).

(** The end of [starcos_create_file], lines 705-712: the command is marked
    proprietary, gets the first [len] bytes of [sbuf] and is sent. *)
Definition create_file_send `{Framework} (apdu : sc_apdu) (sbuf : list Z) (len : Z) : M Z :=
  let apdu := mk_apdu (apdu_cse apdu) (Z.lor (apdu_cla apdu) 0x80) (apdu_ins apdu)
                (apdu_p1 apdu) (apdu_p2 apdu) len (apdu_le apdu)
                (take (Z.to_nat len) sbuf) (apdu_resplen apdu) (apdu_sensitive apdu) in
  rep ← sc_transmit_apdu apdu;
  if reply_r rep <? 0 then mret (reply_r rep) else
  mret (sc_check_sw (reply_sw1 rep) (reply_sw2 rep)).

Definition starcos_create_file `{Framework} (file : sc_file) : M Z :=
  card ← get_card;
  let sbuf := stack_sbuf in
  if file_type file =? SC_FILE_TYPE_WORKING_EF then
    (* create a EF: FID, ACs, SM byte, SID *)
    let sbuf := write_at sbuf 0
                  ([Z.shiftr (Z.land (file_id file) 0xffff) 8; Z.land (file_id file) 0x00ff]
                   ++ replicate 9 0x00 ++ [0x00; 0x00]) in
    (* set EF-INFO and EF descriptor *)
    let descr :=
      if file_ef_structure file =? SC_FILE_EF_LINEAR_FIXED then
        Some [0x82; Z.land (file_record_count file) 0xff;
              Z.land (file_record_length file) 0xff]
      else if file_ef_structure file =? SC_FILE_EF_CYCLIC then
        Some [0x84; Z.land (file_record_count file) 0xff;
              Z.land (file_record_length file) 0xff]
      else if file_ef_structure file =? SC_FILE_EF_TRANSPARENT then
        Some [0x81; Z.shiftr (Z.land (file_size file) 0xffff) 8;
              Z.land (file_size file) 0x00ff]
      else None in
    match descr with
    | None => mret SC_ERROR_INVALID_ARGUMENTS
    | Some d =>
        let sbuf := write_at sbuf 13 d in
        create_file_send (sc_format_apdu card SC_APDU_CASE_3_SHORT 0xE0 0x03 0x00) sbuf 16
    end
  else if file_type file =? SC_FILE_TYPE_DF then
    (* create a DF; first step: REGISTER DF to allocate the required memory *)
    let apdu := sc_format_apdu card SC_APDU_CASE_3_SHORT 0x52
                  (Z.shiftr (Z.land (file_size file) 0xffff) 8)
                  (Z.land (file_size file) 0xff) in
    let sbuf := write_at sbuf 0
                  [Z.shiftr (Z.land (file_id file) 0xffff) 8; Z.land (file_id file) 0xff] in
    let '(sbuf, namelen) :=
      if negb (file_namelen file =? 0) then
        (write_at (write_at sbuf 2 [Z.land (file_namelen file) 0xff]) 3
                  (take (Z.to_nat (file_namelen file)) (file_name file)),
         file_namelen file)
      else
        (* Starcos seems to need a AID name *)
        (write_at sbuf 2 [2; at_index sbuf 0; at_index sbuf 1], 2) in
    let apdu := mk_apdu (apdu_cse apdu) (Z.lor (apdu_cla apdu) 0x80) (apdu_ins apdu)
                  (apdu_p1 apdu) (apdu_p2 apdu) (3 + namelen) (apdu_le apdu)
                  (take (Z.to_nat (3 + namelen)) sbuf) (apdu_resplen apdu)
                  (apdu_sensitive apdu) in
    rep ← sc_transmit_apdu apdu;
    if reply_r rep <? 0 then mret (reply_r rep) else
    if negb ((reply_sw1 rep =? 0x90) && (reply_sw2 rep =? 0x00))
    then mret (sc_check_sw (reply_sw1 rep) (reply_sw2 rep)) else
    (* second step: create the DF; ISF space, AC CREATE EF, AC CREATE KEY,
       SM byte CR, SM byte ISF *)
    let sbuf := write_at sbuf 19 [0x00; 0x80; 0x00; 0x00; 0x00; 0x00] in
    create_file_send (sc_format_apdu card SC_APDU_CASE_3_SHORT 0xE0 0x01 0x00) sbuf 25
  else
    (* neither branch: [apdu] and [sbuf] go out as the stack left them *)
    create_file_send stack_apdu sbuf SC_MAX_APDU_BUFFER_SIZE.

(** DELETE works only for the MF. *)
Definition starcos_delete_file `{Framework} (path : sc_path) : M Z :=
  if negb (path_type path =? SC_PATH_TYPE_FILE_ID) && negb (path_len path =? 2)
  then mret SC_ERROR_INVALID_ARGUMENTS else
  let sbuf := [at_index (path_value path) 0; at_index (path_value path) 1] in
  if negb (at_index sbuf 0 =? 0x3f) || negb (at_index sbuf 1 =? 0x00)
  then mret SC_ERROR_INVALID_ARGUMENTS else
  card ← get_card;
  let apdu := sc_format_apdu card SC_APDU_CASE_3_SHORT 0xE4 0x00 0x00 in
  let apdu := mk_apdu (apdu_cse apdu) (Z.lor (apdu_cla apdu) 0x80) (apdu_ins apdu)
                (apdu_p1 apdu) (apdu_p2 apdu) 2 (apdu_le apdu) sbuf (apdu_resplen apdu)
                (apdu_sensitive apdu) in
  rep ← sc_transmit_apdu apdu;
  if reply_r rep <? 0 then mret (reply_r rep) else
  mret (sc_check_sw (reply_sw1 rep) (reply_sw2 rep)).

(** ** Auxiliary definitions for the further statements *)

(** Whether [starcos_set_security_env] stores an algorithm object for the
    environment: an explicit reference, or the default for RSA with
    PKCS#1 padding. *)
Definition env_has_alg (env : sc_security_env) : bool :=
  has_flag (env_flags env) SC_SEC_ENV_ALG_REF_PRESENT
  || (has_flag (env_flags env) SC_SEC_ENV_ALG_PRESENT
      && (env_algorithm env =? SC_ALGORITHM_RSA)
      && has_flag (env_algorithm_flags env) SC_ALGORITHM_RSA_PAD_PKCS1).

(** The requested path as [starcos_select_file] walks it: with the MF in
    front when the request does not start with it. *)
Definition unified_path (pathbuf : list Z) : list Z :=
  if negb (at_index pathbuf 0 =? 0x3f) || negb (at_index pathbuf 1 =? 0x00)
  then [0x3f; 0x00] ++ pathbuf
  else pathbuf.

(** A status that the selects take as success. *)
Definition select_accepted (rep : apdu_reply) : Prop :=
  reply_sw1 rep = 0x61 \/ (reply_sw1 rep = 0x90 /\ reply_sw2 rep = 0x00).

(** The exchanges after which [starcos_select_fid] takes the FID for a DF
    and goes on to the cache update: 62 84 and an accepted second SELECT,
    or an accepted SELECT and 69 86 from the READ BINARY probe. *)
Definition fid_select_df_accepted `{Framework} (id_hi id_lo : Z) (c : sc_card) : Prop :=
  let apdu := select_fid_apdu c id_hi id_lo in
  let rep := card_reply (apdu_log c) apdu in
  let rep' := card_reply (apdu_log c ++ [apdu]) (reselect_fid_apdu apdu) in
  let rep2 := card_reply (apdu_log c ++ [apdu]) (read_binary_apdu c) in
  0 <= reply_r rep /\
  ((reply_sw1 rep = 0x62 /\ reply_sw2 rep = 0x84 /\
    0 <= reply_r rep' /\ select_accepted rep') \/
   (select_accepted rep /\ 0 <= reply_r rep2 /\
    reply_sw1 rep2 = 0x69 /\ reply_sw2 rep2 = 0x86)).

(** The test of one entry of [starcos_atrs] in [starcos_match_card]: the
    string decodes, to as many bytes as the card's ATR has, and the bytes
    are the same. *)
Definition atr_matches `{Framework} (atrp : string) (card : sc_card) : Prop :=
  exists defatr,
    sc_hex_to_bin atrp SC_MAX_ATR_SIZE = Some defatr /\
    length defatr = length (card_atr card) /\
    memcmp_eq (card_atr card) defatr (Z.of_nat (length defatr)) = true.

(** The algorithm flags that [starcos_init] registers. *)
Definition starcos_rsa_flags : Z :=
  Z.lor SC_ALGORITHM_RSA_PAD_PKCS1
   (Z.lor SC_ALGORITHM_RSA_PAD_ISO9796
    (Z.lor SC_ALGORITHM_RSA_HASH_NONE
     (Z.lor SC_ALGORITHM_RSA_HASH_SHA1
      (Z.lor SC_ALGORITHM_RSA_HASH_MD5 SC_ALGORITHM_RSA_HASH_RIPEMD160)))).

(** The name that [starcos_create_file] registers a DF under: the name of
    the file, or its FID when it has none. *)
Definition df_name (file : sc_file) : list Z :=
  if file_namelen file =? 0
  then [Z.shiftr (Z.land (file_id file) 0xffff) 8; Z.land (file_id file) 0xff]
  else take (Z.to_nat (file_namelen file)) (file_name file).

(** FID, length of the name and name: the data of REGISTER DF. *)
Definition register_df_data (file : sc_file) : list Z :=
  [Z.shiftr (Z.land (file_id file) 0xffff) 8; Z.land (file_id file) 0xff;
   Z.of_nat (length (df_name file))] ++ df_name file.

Definition register_df_apdu (c : sc_card) (file : sc_file) : sc_apdu :=
  mk_apdu SC_APDU_CASE_3_SHORT (Z.lor (card_cla c) 0x80) 0x52
    (Z.shiftr (Z.land (file_size file) 0xffff) 8) (Z.land (file_size file) 0xff)
    (Z.of_nat (length (register_df_data file))) 0 (register_df_data file) 0 0.

(** The 25 bytes of CREATE DF: the REGISTER DF data, what the stack held
    from there up to index 18, and the six bytes stored at 19 to 24. *)
Definition create_df_data `{Framework} (file : sc_file) : list Z :=
  let n := length (register_df_data file) in
  register_df_data file ++ map stack_byte (seq n (19 - n))
  ++ [0x00; 0x80; 0x00; 0x00; 0x00; 0x00].

Definition create_df_apdu `{Framework} (c : sc_card) (file : sc_file) : sc_apdu :=
  mk_apdu SC_APDU_CASE_3_SHORT (Z.lor (card_cla c) 0x80) 0xE0 0x01 0x00
    25 0 (create_df_data file) 0 0.

(** The 16 bytes of CREATE EF for a descriptor [d]: FID, nine access
    conditions, SM byte and SID all zero, descriptor. *)
Definition create_ef_apdu (c : sc_card) (file : sc_file) (d : list Z) : sc_apdu :=
  mk_apdu SC_APDU_CASE_3_SHORT (Z.lor (card_cla c) 0x80) 0xE0 0x03 0x00 16 0
    ([Z.shiftr (Z.land (file_id file) 0xffff) 8; Z.land (file_id file) 0x00ff]
     ++ replicate 11 0x00 ++ d) 0 0.

(** The EF structures that [starcos_create_file] has a descriptor for. *)
Definition ef_structure_supported (file : sc_file) : bool :=
  (file_ef_structure file =? SC_FILE_EF_LINEAR_FIXED)
  || (file_ef_structure file =? SC_FILE_EF_CYCLIC)
  || (file_ef_structure file =? SC_FILE_EF_TRANSPARENT).

(** A DF name as [struct sc_file] holds it: 16 bytes, of which at most 16
    are in use. *)
Definition name_in_bounds (file : sc_file) : Prop :=
  length (file_name file) = 16%nat /\ 0 <= file_namelen file <= 16.

(** A host without memory left: every allocation fails.  No command is
    answered. *)
Definition exhausted_host : Framework :=
  {| card_reply := fun _ _ => no_reply;
     iso_check_sw := fun _ _ => SC_ERROR_CARD_CMD_FAILED;
     sc_asn1_find_tag := fun buf tag => tlv_find_tag (length buf) buf tag;
     sc_file_new := None;
     sc_hex_to_bin := hex_to_bin;
     stack_byte := fun _ => 0xCC;
     malloc_mse_state := None |}.
(** ** Properties of the error translator *)

Lemma find_error_none (tbl : list sc_card_error) (sw : Z) :
  (forall e, In e tbl -> SWs e <> sw) -> find_error tbl sw = None.
Proof.
  induction tbl as [|e tbl IH]; intros Hno; simpl; [reflexivity|].
  destruct (Z.eqb_spec (SWs e) sw) as [Heq|_].
  - exfalso. apply (Hno e); [now left|exact Heq].
  - apply IH. intros e' He'. apply Hno. now right.
Qed.

Lemma low_nibble_cases (x : Z) :
  0 <= x < 16 ->
  Z.land (0xC0 + x) (Z.lnot 0x0f) = 0xc0 /\ Z.land (0xC0 + x) 0x0f = x.
Proof.
  intros Hx.
  assert (Hc : x = 0 \/ x = 1 \/ x = 2 \/ x = 3 \/ x = 4 \/ x = 5 \/ x = 6 \/ x = 7 \/
               x = 8 \/ x = 9 \/ x = 10 \/ x = 11 \/ x = 12 \/ x = 13 \/ x = 14 \/
               x = 15) by lia.
  repeat (destruct Hc as [->|Hc]; [split; reflexivity|]).
  subst x. split; reflexivity.
Qed.

(** C9.  The translator of status words: 90xx is success; 63Cx is
    "PIN incorrect" and the low nibble of sw2 is reported as the number of
    tries left; 6A89 is "file already exists"; a word that meets neither
    rule nor any entry of the table gets the verdict of the ISO 7816
    translator. *)
Theorem starcos_check_sw_translates `{Framework} :
  (forall sw2, starcos_check_sw 0x90 sw2 = (SC_NO_ERROR, None)) /\
  (forall x, 0 <= x < 16 ->
     starcos_check_sw 0x63 (0xC0 + x)
     = (SC_ERROR_PIN_CODE_INCORRECT, Some (Verification_failed x))) /\
  fst (starcos_check_sw 0x6A 0x89) = SC_ERROR_FILE_ALREADY_EXISTS /\
  (forall sw1 sw2,
     sw1 <> 0x90 ->
     ~ (sw1 = 0x63 /\ Z.land sw2 (Z.lnot 0x0f) = 0xc0) ->
     (forall e, In e starcos_errors -> SWs e <> Z.lor (Z.shiftl sw1 8) sw2) ->
     starcos_check_sw sw1 sw2 = (iso_check_sw sw1 sw2, None)).
Proof.
  repeat split.
  - intros x Hx. unfold starcos_check_sw.
    destruct (low_nibble_cases x Hx) as [Hhi Hlo].
    rewrite Hhi, Hlo. reflexivity.
  - intros sw1 sw2 H90 H63 Htbl. unfold starcos_check_sw.
    destruct (Z.eqb_spec sw1 0x90) as [?|_]; [contradiction|].
    destruct (Z.eqb_spec sw1 0x63) as [E63|_]; cbn [andb].
    + destruct (Z.eqb_spec (Z.land sw2 (Z.lnot 0x0f)) 0xc0) as [Ec|_].
      * exfalso. apply H63. split; assumption.
      * now rewrite (find_error_none _ _ Htbl).
    + now rewrite (find_error_none _ _ Htbl).
Qed.

Lemma starcos_check_sw_translates_witness :
  @starcos_check_sw (scripted_card []) 0x63 0xC5
  = (SC_ERROR_PIN_CODE_INCORRECT, Some (Verification_failed 5)) /\
  @starcos_check_sw (scripted_card []) 0x6A 0x82 = (SC_ERROR_CARD_CMD_FAILED, None).
Proof.
  split.
  - apply (proj1 (proj2 (@starcos_check_sw_translates (scripted_card []))) 5). lia.
  - apply (proj2 (proj2 (proj2 (@starcos_check_sw_translates (scripted_card [])))) 0x6A 0x82).
    + lia.
    + intros [E _]. discriminate E.
    + intros e He. vm_compute in He.
      repeat (destruct He as [<-|He]; [vm_compute; discriminate|]). destruct He.
Defined.

(** ** Properties of the file descriptor decoder *)

Lemma process_fci_82_fields `{Framework} (file : sc_file) (buf tag : list Z) :
  sc_asn1_find_tag buf 0x82 = Some tag ->
  (file_type (process_fci file buf), file_ef_structure (process_fci file buf),
   file_record_length (process_fci file buf)) = fci_82_fields tag.
Proof.
  intros Htag. unfold process_fci, fci_82_fields. rewrite Htag.
  destruct (sc_asn1_find_tag buf 0x80) as [t80|];
    [destruct (2 <=? Z.of_nat (length t80))|];
    repeat match goal with
           | |- context [if ?b then _ else _] => destruct b
           end; reflexivity.
Qed.

Lemma process_fci_size `{Framework} (file : sc_file) (buf tag : list Z) :
  sc_asn1_find_tag buf 0x80 = Some tag ->
  (2 <= length tag)%nat ->
  file_size (process_fci file buf) = Z.shiftl (at_index tag 0) 8 + at_index tag 1.
Proof.
  intros Htag Hlen. unfold process_fci. rewrite Htag.
  destruct (Z.leb_spec 2 (Z.of_nat (length tag))) as [_|Hlt]; [|lia].
  destruct (sc_asn1_find_tag buf 0x82) as [t82|];
    repeat match goal with
           | |- context [if ?b then _ else _] => destruct b
           end; reflexivity.
Qed.

(** C6, as the code has it.  With tag 0x82 present: a one-byte value 0x01
    or 0x11 gives a transparent working EF.  A three-byte value is decoded
    only when its second byte is 0x21: then the record length is the third
    byte and the first byte gives the structure, 0x02 linear fixed, 0x07
    cyclic, 0x17 unknown with the record length kept; any other first byte
    gives unknown with record length 0.  A three-byte value with another
    second byte leaves the defaults, unknown and record length 0. *)
Theorem process_fci_file_descriptor `{Framework} (file : sc_file) (buf tag : list Z) :
  sc_asn1_find_tag buf 0x82 = Some tag ->
  let f := process_fci file buf in
  (length tag = 1%nat -> at_index tag 0 = 0x01 \/ at_index tag 0 = 0x11 ->
     file_type f = SC_FILE_TYPE_WORKING_EF /\
     file_ef_structure f = SC_FILE_EF_TRANSPARENT) /\
  (length tag = 3%nat -> at_index tag 1 = 0x21 ->
     file_type f = SC_FILE_TYPE_WORKING_EF /\
     (at_index tag 0 = 0x02 ->
        file_ef_structure f = SC_FILE_EF_LINEAR_FIXED /\
        file_record_length f = at_index tag 2) /\
     (at_index tag 0 = 0x07 ->
        file_ef_structure f = SC_FILE_EF_CYCLIC /\
        file_record_length f = at_index tag 2) /\
     (at_index tag 0 = 0x17 ->
        file_ef_structure f = SC_FILE_EF_UNKNOWN /\
        file_record_length f = at_index tag 2) /\
     (at_index tag 0 <> 0x02 -> at_index tag 0 <> 0x07 -> at_index tag 0 <> 0x17 ->
        file_ef_structure f = SC_FILE_EF_UNKNOWN /\ file_record_length f = 0)) /\
  (length tag = 3%nat -> at_index tag 1 <> 0x21 ->
     file_ef_structure f = SC_FILE_EF_UNKNOWN /\ file_record_length f = 0).
Proof.
  intros Htag f.
  pose proof (process_fci_82_fields file buf tag Htag) as Hf. fold f in Hf.
  unfold fci_82_fields in Hf.
  repeat split; intros;
    repeat match goal with
           | E : length tag = _ |- _ => rewrite E in Hf; clear E
           | E : at_index tag _ = _ |- _ => rewrite E in Hf; clear E
           | E : _ \/ _ |- _ => destruct E
           end;
    cbn [Z.of_nat Pos.of_succ_nat Pos.succ Z.eqb Pos.eqb andb] in Hf;
    repeat match type of Hf with
           | context [?a =? ?b] =>
               destruct (Z.eqb_spec a b); try contradiction; try lia; cbn [andb] in Hf
           end;
    congruence.
Qed.

(** The example of the spec: TLV bytes 82 03 02 21 0A decode to a linear
    fixed EF with records of 10 bytes. *)
Lemma process_fci_file_descriptor_witness :
  let f := @process_fci (scripted_card []) blank_file [0x82; 0x03; 0x02; 0x21; 0x0A] in
  file_ef_structure f = SC_FILE_EF_LINEAR_FIXED /\ file_record_length f = 0x0A.
Proof.
  assert (Htag : @sc_asn1_find_tag (scripted_card []) [0x82; 0x03; 0x02; 0x21; 0x0A] 0x82
                 = Some [0x02; 0x21; 0x0A]) by reflexivity.
  pose proof (@process_fci_file_descriptor (scripted_card []) blank_file _ _ Htag) as Hspec.
  destruct Hspec as (_ & H3 & _).
  destruct (H3 eq_refl eq_refl) as (_ & Hlin & _).
  exact (Hlin eq_refl).
Defined.

(** C6, where the claim as it is written fails.  First byte 0x17 does not
    reset the record length, and without 0x21 as second byte the value is
    not decoded at all, whatever the first byte. *)
Lemma process_fci_three_bytes_counterexample :
  (let buf := [0x82; 0x03; 0x17; 0x21; 0x0A] in
   @sc_asn1_find_tag (scripted_card []) buf 0x82 = Some [0x17; 0x21; 0x0A] /\
   file_record_length (@process_fci (scripted_card []) blank_file buf) = 0x0A /\
   file_record_length (@process_fci (scripted_card []) blank_file buf) <> 0) /\
  (let buf := [0x82; 0x03; 0x02; 0x20; 0x0A] in
   @sc_asn1_find_tag (scripted_card []) buf 0x82 = Some [0x02; 0x20; 0x0A] /\
   file_ef_structure (@process_fci (scripted_card []) blank_file buf)
     <> SC_FILE_EF_LINEAR_FIXED /\
   file_record_length (@process_fci (scripted_card []) blank_file buf) <> 0x0A).
Proof.
  repeat split; try reflexivity; vm_compute; discriminate.
Qed.

(** ** Properties of the selection engine *)

Ltac run_monad :=
  unfold mbind, M_bind, mret, M_ret, fmap, M_fmap, get_card, modify_card,
    sc_transmit_apdu in *; cbn beta iota in *.

(** The card structure after [starcos_select_fid]: at most the cache and
    the log differ; the cache is rewritten only for a DF; one to two
    commands were sent, the first being the SELECT for the FID. *)
Lemma select_fid_card `{Framework} (id_hi id_lo : Z) (file_out : file_slot) (c : sc_card) :
  exists p l,
    snd (starcos_select_fid id_hi id_lo file_out c)
    = mk_card (card_atr c) (card_cla c) (card_max_le c) (card_algorithms c)
        (cache_valid c) p (drv_data c)
        (apdu_log c ++ select_fid_apdu c id_hi id_lo :: l) /\
    (p = cache_current_path c \/
     (fid_is_df id_hi id_lo c = true /\ p = cache_df id_hi id_lo (cache_current_path c))) /\
    (l = [] \/ l = [reselect_fid_apdu (select_fid_apdu c id_hi id_lo)]
     \/ l = [read_binary_apdu c]).
Proof.
  unfold starcos_select_fid, select_fid_finish, fid_is_df. run_monad.
  change (apdu_p2 (select_fid_apdu c id_hi id_lo) =? 0x00) with true. cbn [andb].
  destruct c as [atr cla le algs valid cur mse log]; cbn [apdu_log set_apdu_log
    card_atr card_cla card_max_le card_algorithms cache_valid cache_current_path
    drv_data set_cache].
  repeat case_match; cbn [snd set_cache apdu_log set_apdu_log
    card_atr card_cla card_max_le card_algorithms cache_valid cache_current_path
    drv_data]; rewrite <- ?app_assoc; cbn [app];
  eexists _, _; (split; [reflexivity|]); split; auto; congruence.
Qed.

Lemma resp_buffer_received `{Framework} (resp : list Z) (i : Z) :
  0 <= i < Z.of_nat (length resp) -> at_index (resp_buffer resp) i = at_index resp i.
Proof.
  intros Hi. unfold at_index, resp_buffer.
  rewrite !list_lookup_total_alt, lookup_app_l by lia. reflexivity.
Qed.

Lemma apdu_log_set (l : list sc_apdu) (c : sc_card) : apdu_log (set_apdu_log l c) = l.
Proof. reflexivity. Qed.

Lemma size_t_sub_le (a b : Z) : 0 <= a - b -> size_t_sub a b <= a - b.
Proof. intros Hab. unfold size_t_sub. apply Z.mod_le; [exact Hab|reflexivity]. Qed.

Lemma size_t_sub_small (a b : Z) :
  0 <= a - b < size_t_modulus -> size_t_sub a b = a - b.
Proof. intros Hab. unfold size_t_sub. now apply Z.mod_small. Qed.

(** C10.  A response that is taken for an EF, starts with the FCI tag 0x6F
    and announces in its second byte more FCI bytes than the response has
    left: the FID-select returns SC_SUCCESS; the descriptor is the new one
    with only its id and path filled in, nothing of the FCI is decoded,
    and neither cache nor security environment change. *)
Theorem select_fid_overlong_fci `{Framework} (id_hi id_lo : Z) (slot : option sc_file)
    (c : sc_card) (file0 : sc_file) :
  let apdu := select_fid_apdu c id_hi id_lo in
  let rep := card_reply (apdu_log c) apdu in
  let rep2 := card_reply (apdu_log c ++ [apdu]) (read_binary_apdu c) in
  let resp := reply_resp rep in
  0 <= reply_r rep ->
  reply_sw1 rep = 0x61 \/ (reply_sw1 rep = 0x90 /\ reply_sw2 rep = 0x00) ->
  0 <= reply_r rep2 ->
  ~ (reply_sw1 rep2 = 0x69 /\ reply_sw2 rep2 = 0x86) ->
  (2 <= length resp)%nat ->
  at_index resp 0 = 0x6F ->
  Z.of_nat (length resp) - 2 < at_index resp 1 ->
  sc_file_new = Some file0 ->
  starcos_select_fid id_hi id_lo (Some slot) c
  = (SC_SUCCESS,
     Some (Some (set_file_path (copy_path (file_path file0) (cache_current_path c))
                   (set_file_id (Z.shiftl id_hi 8 + id_lo) file0))),
     set_apdu_log (apdu_log c ++ [apdu; read_binary_apdu c]) c).
Proof.
  intros apdu rep rep2 resp Hr Hsw Hr2 Hprobe Hlen Htag Hover Hnew.
  assert (Hdf : (reply_sw1 rep2 =? 0x69) && (reply_sw2 rep2 =? 0x86) = false).
  { apply andb_false_iff.
    destruct (Z.eqb_spec (reply_sw1 rep2) 0x69), (Z.eqb_spec (reply_sw2 rep2) 0x86);
      auto. exfalso. apply Hprobe. now split. }
  assert (H6284 : (reply_sw1 rep =? 0x62) && (reply_sw2 rep =? 0x84) = false).
  { destruct Hsw as [->|[-> _]]; reflexivity. }
  assert (Hdata : (reply_sw1 rep =? 0x61)
                  || ((reply_sw1 rep =? 0x90) && (reply_sw2 rep =? 0x00)) = true).
  { destruct Hsw as [->|[-> ->]]; reflexivity. }
  assert (Hbad : negb (reply_sw1 rep =? 0x61)
                 && (negb (reply_sw1 rep =? 0x90) || negb (reply_sw2 rep =? 0x00)) = false).
  { destruct Hsw as [->|[-> ->]]; reflexivity. }
  assert (H0 : (at_index (resp_buffer resp) 0 =? 0x6F) = true).
  { rewrite resp_buffer_received by lia. now apply Z.eqb_eq. }
  assert (H1 : (at_index (resp_buffer resp) 1 <=? size_t_sub (Z.of_nat (length resp)) 2)
               = false).
  { rewrite resp_buffer_received by lia. apply Z.leb_gt.
    pose proof (size_t_sub_le (Z.of_nat (length resp)) 2). lia. }
  unfold starcos_select_fid, select_fid_finish. run_monad.
  cbn [store_slot apdu_log set_apdu_log].
  fold apdu. fold rep.
  replace (reply_r rep <? 0) with false by (symmetry; apply Z.ltb_ge; lia).
  change (apdu_p2 apdu =? 0x00) with true. cbn [andb].
  rewrite H6284, Hdata, !apdu_log_set. fold rep2.
  replace (reply_r rep2 <? 0) with false by (symmetry; apply Z.ltb_ge; lia).
  rewrite Hbad, Hdf, Hnew. fold resp. rewrite H0, H1. cbn [negb].
  destruct c; unfold set_apdu_log; cbn. rewrite <- app_assoc. reflexivity.
Qed.

Lemma select_fid_overlong_fci_witness :
  let card := scripted_card [with_data [0x6F; 0x20; 0x80; 0x02; 0x00; 0x64];
                             sw_only 0x90 0x00] in
  fst (@starcos_select_fid card 0x56 0x78 (Some None) (fresh_card []))
  = (SC_SUCCESS,
     Some (Some (set_file_path (copy_path (file_path blank_file)
                                          (cache_current_path (fresh_card [])))
                   (set_file_id 0x5678 blank_file)))).
Proof.
  intros card.
  rewrite (@select_fid_overlong_fci card 0x56 0x78 None (fresh_card []) blank_file).
  - reflexivity.
  - vm_compute. discriminate.
  - right. split; reflexivity.
  - vm_compute. discriminate.
  - intros [E _]. vm_compute in E. discriminate E.
  - vm_compute. lia.
  - reflexivity.
  - reflexivity.
  - reflexivity.
Defined.

Lemma fid_selects_app (l1 l2 : list sc_apdu) :
  fid_selects (l1 ++ l2) = fid_selects l1 ++ fid_selects l2.
Proof. unfold fid_selects. now rewrite List.filter_app, map_app. Qed.

(** Every [starcos_select_fid] adds one FID-select to the log, for its FID. *)
Lemma select_fid_selects `{Framework} (id_hi id_lo : Z) (file_out : file_slot)
    (c : sc_card) :
  fid_selects (apdu_log (snd (starcos_select_fid id_hi id_lo file_out c)))
  = fid_selects (apdu_log c) ++ [(id_hi, id_lo)].
Proof.
  destruct (select_fid_card id_hi id_lo file_out c) as (p & l & -> & _ & Hl).
  cbn [apdu_log]. rewrite fid_selects_app. f_equal.
  destruct Hl as [->|[->| ->]]; reflexivity.
Qed.



Lemma memcmp_eq_spec (a b : list Z) (n : Z) :
  memcmp_eq a b n = true <-> (forall i, 0 <= i < n -> at_index a i = at_index b i).
Proof.
  unfold memcmp_eq. rewrite forallb_forall. split.
  - intros Hall i Hi. apply Z.eqb_eq.
    rewrite <- (Z2Nat.id i) by lia. apply Hall, in_seq. lia.
  - intros Hall k Hk. apply in_seq in Hk. apply Z.eqb_eq, Hall. lia.
Qed.



(** *** The cache keeps a directory location *)











Lemma fmap_Some_run {A : Type} (m : M A) (c : sc_card) :
  (Some <$> m) c = (Some (fst (m c)), snd (m c)).
Proof. unfold fmap, M_fmap. now destruct (m c). Qed.

Ltac run_bind :=
  unfold mbind, M_bind, mret, M_ret, get_card, modify_card in *; cbn beta iota in *.




Lemma pathbuf_length (p : sc_path) :
  wf_path p -> length (take (Z.to_nat (path_len p)) (path_value p)) = Z.to_nat (path_len p).
Proof.
  intros [Hlen Hrange]. rewrite length_take, Hlen. unfold SC_MAX_PATH_SIZE in *. lia.
Qed.







(** A response taken for an EF whose FCI fits in the bytes received: the
    descriptor is decoded from the FCI. *)
Lemma select_fid_ef `{Framework} (id_hi id_lo : Z) (slot : option sc_file)
    (c : sc_card) (file0 : sc_file) :
  let apdu := select_fid_apdu c id_hi id_lo in
  let rep := card_reply (apdu_log c) apdu in
  let rep2 := card_reply (apdu_log c ++ [apdu]) (read_binary_apdu c) in
  let resp := reply_resp rep in
  0 <= reply_r rep ->
  reply_sw1 rep = 0x61 \/ (reply_sw1 rep = 0x90 /\ reply_sw2 rep = 0x00) ->
  0 <= reply_r rep2 ->
  ~ (reply_sw1 rep2 = 0x69 /\ reply_sw2 rep2 = 0x86) ->
  Z.of_nat (length resp) <= SC_MAX_APDU_BUFFER_SIZE ->
  at_index resp 0 = 0x6F ->
  0 <= at_index resp 1 <= Z.of_nat (length resp) - 2 ->
  sc_file_new = Some file0 ->
  starcos_select_fid id_hi id_lo (Some slot) c
  = (SC_SUCCESS,
     Some (Some (process_fci
                   (set_file_path (copy_path (file_path file0) (cache_current_path c))
                      (set_file_id (Z.shiftl id_hi 8 + id_lo) file0))
                   (take (Z.to_nat (at_index resp 1)) (drop 2 (resp_buffer resp))))),
     set_apdu_log (apdu_log c ++ [apdu; read_binary_apdu c]) c).
Proof.
  intros apdu rep rep2 resp Hr Hsw Hr2 Hprobe Hmax Htag Hfits Hnew.
  assert (Hdf : (reply_sw1 rep2 =? 0x69) && (reply_sw2 rep2 =? 0x86) = false).
  { apply andb_false_iff.
    destruct (Z.eqb_spec (reply_sw1 rep2) 0x69), (Z.eqb_spec (reply_sw2 rep2) 0x86);
      auto. exfalso. apply Hprobe. now split. }
  assert (H6284 : (reply_sw1 rep =? 0x62) && (reply_sw2 rep =? 0x84) = false).
  { destruct Hsw as [->|[-> _]]; reflexivity. }
  assert (Hdata : (reply_sw1 rep =? 0x61)
                  || ((reply_sw1 rep =? 0x90) && (reply_sw2 rep =? 0x00)) = true).
  { destruct Hsw as [->|[-> ->]]; reflexivity. }
  assert (Hbad : negb (reply_sw1 rep =? 0x61)
                 && (negb (reply_sw1 rep =? 0x90) || negb (reply_sw2 rep =? 0x00)) = false).
  { destruct Hsw as [->|[-> ->]]; reflexivity. }
  assert (H0 : (at_index (resp_buffer resp) 0 =? 0x6F) = true).
  { rewrite resp_buffer_received by lia. now apply Z.eqb_eq. }
  assert (H1 : (at_index (resp_buffer resp) 1 <=? size_t_sub (Z.of_nat (length resp)) 2)
               = true).
  { rewrite resp_buffer_received by lia. apply Z.leb_le.
    rewrite size_t_sub_small; [lia|].
    unfold SC_MAX_APDU_BUFFER_SIZE, size_t_modulus in *. lia. }
  assert (Hat1 : at_index (resp_buffer resp) 1 = at_index resp 1)
    by (apply resp_buffer_received; lia).
  unfold starcos_select_fid, select_fid_finish. run_monad.
  cbn [store_slot apdu_log set_apdu_log].
  fold apdu. fold rep.
  replace (reply_r rep <? 0) with false by (symmetry; apply Z.ltb_ge; lia).
  change (apdu_p2 apdu =? 0x00) with true. cbn [andb].
  rewrite H6284, Hdata, !apdu_log_set. fold rep2.
  replace (reply_r rep2 <? 0) with false by (symmetry; apply Z.ltb_ge; lia).
  rewrite Hbad, Hdf, Hnew. fold resp. rewrite H0, H1, Hat1. cbn [negb].
  destruct c; unfold set_apdu_log; cbn. rewrite <- app_assoc. reflexivity.
Qed.

Lemma select_walk_step `{Framework} (steps : nat) (path : list Z) (pathlen i : Z) :
  select_walk (S steps) path pathlen i
  = if i <? size_t_sub pathlen 2 then
      '(r, _) ← starcos_select_fid (at_index path i) (at_index path (i + 1)) None;
      if r <? 0 then mret r else select_walk steps path pathlen (i + 2)
    else mret 0.
Proof. reflexivity. Qed.

(** C4, as the code has it.  With no valid cache the path 3F00/1234/5678 is
    walked from the MF: three FID-selects, for 3F00 and 1234 without a
    descriptor and for 5678 with one.  When the first two succeed and the
    card answers the third with an FCI that carries tag 0x80 = {0,100} and
    tag 0x82 = {0x01} (and is taken for an EF), the result is a
    transparent working EF of size 100. *)
Theorem select_full_path_from_root `{Framework} (fuel : nat) (in_path : sc_path)
    (slot : option sc_file) (c : sc_card) (r1 r2 : Z) (s1 s2 : file_slot)
    (c1 c2 : sc_card) (fci rest : list Z) (file0 : sc_file) :
  path_type in_path = SC_PATH_TYPE_PATH ->
  path_len in_path = 6 ->
  take 6 (path_value in_path) = [0x3F; 0x00; 0x12; 0x34; 0x56; 0x78] ->
  cache_valid c = false ->
  starcos_select_fid 0x3F 0x00 None c = (r1, s1, c1) -> 0 <= r1 ->
  starcos_select_fid 0x12 0x34 None c1 = (r2, s2, c2) -> 0 <= r2 ->
  let apdu := select_fid_apdu c2 0x56 0x78 in
  let rep := card_reply (apdu_log c2) apdu in
  let rep2 := card_reply (apdu_log c2 ++ [apdu]) (read_binary_apdu c2) in
  0 <= reply_r rep ->
  reply_sw1 rep = 0x61 \/ (reply_sw1 rep = 0x90 /\ reply_sw2 rep = 0x00) ->
  0 <= reply_r rep2 ->
  ~ (reply_sw1 rep2 = 0x69 /\ reply_sw2 rep2 = 0x86) ->
  reply_resp rep = 0x6F :: Z.of_nat (length fci) :: fci ++ rest ->
  Z.of_nat (length (reply_resp rep)) <= SC_MAX_APDU_BUFFER_SIZE ->
  sc_asn1_find_tag fci 0x80 = Some [0; 100] ->
  sc_asn1_find_tag fci 0x82 = Some [0x01] ->
  sc_file_new = Some file0 ->
  starcos_select_file (S fuel) in_path (Some slot) c
  = (Some <$> starcos_select_fid 0x56 0x78 (Some slot)) c2 /\
  exists f c',
    starcos_select_file (S fuel) in_path (Some slot) c
    = (Some (SC_SUCCESS, Some (Some f)), c') /\
    file_type f = SC_FILE_TYPE_WORKING_EF /\
    file_ef_structure f = SC_FILE_EF_TRANSPARENT /\
    file_size f = 100 /\
    fid_selects (apdu_log c')
    = fid_selects (apdu_log c) ++ [(0x3F, 0x00); (0x12, 0x34); (0x56, 0x78)].
Proof.
  intros Hty Hlen Hbytes Hvalid Hs1 Hr1 Hs2 Hr2 apdu rep rep2
    Hr Hsw Hrp Hprobe Hresp Hmax H80 H82 Hnew.
  assert (Hcall : starcos_select_file (S fuel) in_path (Some slot) c
                  = (Some <$> starcos_select_fid 0x56 0x78 (Some slot)) c2).
  { cbn [starcos_select_file]. run_bind.
    rewrite Hty, Hlen, Hvalid. change (Z.to_nat 6) with 6%nat. rewrite Hbytes.
    change (SC_PATH_TYPE_PATH =? SC_PATH_TYPE_FILE_ID) with false.
    change (SC_PATH_TYPE_PATH =? SC_PATH_TYPE_DF_NAME) with false.
    change (SC_PATH_TYPE_PATH =? SC_PATH_TYPE_PATH) with true.
    change (negb (6 mod 2 =? 0) || (6 <? 6) || (6 <=? 0)) with false.
    change (at_index [0x3F; 0x00; 0x12; 0x34; 0x56; 0x78] 0) with 0x3F.
    change (at_index [0x3F; 0x00; 0x12; 0x34; 0x56; 0x78] 1) with 0x00.
    cbn [Z.eqb Pos.eqb negb orb andb]. cbv beta iota.
    change (at_index [0x3F; 0x00; 0x12; 0x34; 0x56; 0x78] (6 - 2)) with 0x56.
    change (at_index [0x3F; 0x00; 0x12; 0x34; 0x56; 0x78] (6 - 1)) with 0x78.
    change (Z.to_nat 6) with 6%nat.
    rewrite !select_walk_step. run_bind.
    change (0 <? size_t_sub 6 2) with true. change (0 + 2 <? size_t_sub 6 2) with true.
    change (0 + 2 + 2 <? size_t_sub 6 2) with false. cbv beta iota.
    change (at_index [0x3F; 0x00; 0x12; 0x34; 0x56; 0x78] 0) with 0x3F.
    change (at_index [0x3F; 0x00; 0x12; 0x34; 0x56; 0x78] (0 + 1)) with 0x00.
    change (at_index [0x3F; 0x00; 0x12; 0x34; 0x56; 0x78] (0 + 2)) with 0x12.
    change (at_index [0x3F; 0x00; 0x12; 0x34; 0x56; 0x78] (0 + 2 + 1)) with 0x34.
    rewrite Hs1. cbv beta iota.
    replace (r1 <? 0) with false by (symmetry; apply Z.ltb_ge; lia).
    rewrite Hs2. cbv beta iota.
    replace (r2 <? 0) with false by (symmetry; apply Z.ltb_ge; lia).
    reflexivity. }
  split; [exact Hcall|].
  rewrite Hcall, fmap_Some_run.
  assert (Hfci : take (Z.to_nat (at_index (reply_resp rep) 1))
                      (drop 2 (resp_buffer (reply_resp rep))) = fci).
  { rewrite Hresp. unfold resp_buffer.
    change (at_index (0x6F :: Z.of_nat (length fci) :: fci ++ rest) 1)
      with (Z.of_nat (length fci)).
    rewrite Nat2Z.id. cbn [app drop]. rewrite <- app_assoc. apply take_app_length. }
  pose proof (select_fid_ef 0x56 0x78 slot c2 file0 Hr Hsw Hrp Hprobe Hmax) as Hef.
  cbv zeta in Hef. fold apdu rep in Hef. rewrite Hfci in Hef.
  rewrite Hef.
  - cbn [fst snd]. eexists _, _. split; [reflexivity|].
    pose proof (process_fci_82_fields
                  (set_file_path (copy_path (file_path file0) (cache_current_path c2))
                     (set_file_id (Z.shiftl 0x56 8 + 0x78) file0)) fci _ H82) as Hf.
    change (fci_82_fields [0x01])
      with (SC_FILE_TYPE_WORKING_EF, SC_FILE_EF_TRANSPARENT, 0) in Hf.
    injection Hf as Hft Hfs _.
    repeat split; [exact Hft|exact Hfs| |].
    + rewrite (process_fci_size _ fci [0; 100] H80); [reflexivity|cbn; lia].
    + rewrite apdu_log_set, fid_selects_app.
      pose proof (select_fid_selects 0x3F 0x00 None c) as Hl1. rewrite Hs1 in Hl1.
      pose proof (select_fid_selects 0x12 0x34 None c1) as Hl2. rewrite Hs2 in Hl2.
      cbn [snd] in Hl1, Hl2. rewrite Hl2, Hl1, <- !app_assoc. reflexivity.
  - rewrite Hresp. reflexivity.
  - rewrite Hresp.
    change (at_index (0x6F :: Z.of_nat (length fci) :: fci ++ rest) 1)
      with (Z.of_nat (length fci)).
    cbn [length]. rewrite length_app. lia.
  - exact Hnew.
Qed.

Lemma select_full_path_from_root_witness :
  exists f c',
    @starcos_select_file (scripted_card full_path_script) 1
      (path_of SC_PATH_TYPE_PATH [0x3F; 0x00; 0x12; 0x34; 0x56; 0x78]) (Some None)
      (fresh_card [])
    = (Some (SC_SUCCESS, Some (Some f)), c') /\
    file_type f = SC_FILE_TYPE_WORKING_EF /\
    file_ef_structure f = SC_FILE_EF_TRANSPARENT /\
    file_size f = 100 /\
    fid_selects (apdu_log c') = [(0x3F, 0x00); (0x12, 0x34); (0x56, 0x78)].
Proof.
  refine (proj2 (@select_full_path_from_root (scripted_card full_path_script) 0
                   (path_of SC_PATH_TYPE_PATH [0x3F; 0x00; 0x12; 0x34; 0x56; 0x78])
                   None (fresh_card [])
                   (fst (fst (@starcos_select_fid (scripted_card full_path_script)
                                0x3F 0x00 None (fresh_card []))))
                   _ _ _ _ _
                   [0x80; 0x02; 0x00; 0x64; 0x82; 0x01; 0x01] [] blank_file
                   eq_refl eq_refl eq_refl eq_refl eq_refl _ eq_refl _ _ _ _ _ _ _ _ _ _)).
  - vm_compute. discriminate.
  - vm_compute. discriminate.
  - vm_compute. discriminate.
  - right. split; reflexivity.
  - vm_compute. discriminate.
  - intros [E _]. vm_compute in E. discriminate E.
  - reflexivity.
  - vm_compute. discriminate.
  - reflexivity.
  - reflexivity.
  - reflexivity.
Defined.

(** C4, where the claim as it is written fails: the walk starts with a
    FID-select for the MF, so three are issued, not two, and the first is
    not the one for 1234. *)
Lemma select_full_path_counterexample :
  let res := @starcos_select_file (scripted_card full_path_script) 1
               (path_of SC_PATH_TYPE_PATH [0x3F; 0x00; 0x12; 0x34; 0x56; 0x78])
               (Some None) (fresh_card []) in
  cache_valid (fresh_card []) = false /\
  (exists f, fst res = Some (SC_SUCCESS, Some (Some f)) /\
             file_ef_structure f = SC_FILE_EF_TRANSPARENT /\ file_size f = 100) /\
  fid_selects (apdu_log (snd res)) = [(0x3F, 0x00); (0x12, 0x34); (0x56, 0x78)] /\
  length (fid_selects (apdu_log (snd res))) <> 2%nat /\
  fid_selects (apdu_log (snd res)) <> [(0x12, 0x34); (0x56, 0x78)].
Proof.
  vm_compute. repeat split.
  - eexists. repeat split.
  - discriminate.
  - discriminate.
Qed.

(** ** Properties of the crypto operations *)

Ltac run_crypto :=
  unfold starcos_compute_signature, starcos_decipher, copy_out; run_monad.

(** Whenever [starcos_compute_signature] hands out data, it returns before
    the statement that clears the security environment. *)
Lemma compute_signature_data_keeps_state `{Framework} (data : list Z) (datalen outlen : Z)
    (c c' : sc_card) (r : Z) (out : list Z) :
  starcos_compute_signature data datalen outlen c = (r, Some out, c') ->
  drv_data c' = drv_data c.
Proof.
  run_crypto. destruct c as [atr cla le algs valid cur mse log].
  cbn [drv_data apdu_log set_apdu_log set_drv_data].
  repeat case_match; intros E; inversion E; subst; reflexivity.
Qed.

Lemma decipher_data_keeps_state `{Framework} (crgram : list Z) (crgram_len outlen : Z)
    (c c' : sc_card) (r : Z) (out : list Z) :
  starcos_decipher crgram crgram_len outlen c = (r, Some out, c') ->
  drv_data c' = drv_data c.
Proof.
  run_crypto. destruct c as [atr cla le algs valid cur mse log].
  cbn [drv_data apdu_log set_apdu_log set_drv_data].
  repeat case_match; intros E; inversion E; subst; reflexivity.
Qed.

(** C1, what the code does.  After a signature that succeeded the recorded
    environment is still there, and a second call without a new
    [starcos_set_security_env] runs the exchange again instead of failing
    with SC_ERROR_INVALID_ARGUMENTS.  The same holds after a decipher that
    succeeded, and a failed MSE command does not clear the state either. *)
Lemma sequencer_state_not_cleared :
  (let F := scripted_card [sw_only 0x90 0x00; sw_only 0x90 0x00; with_data [1; 2; 3];
                           sw_only 0x90 0x00; sw_only 0x90 0x00; with_data [4; 5; 6]] in
   let c0 := configured SC_SEC_OPERATION_SIGN in
   let first := @starcos_compute_signature F digest 20 128 c0 in
   let second := @starcos_compute_signature F digest 20 128 (snd first) in
   fst first = (3, Some [1; 2; 3]) /\
   drv_data (snd first) = drv_data c0 /\
   sec_ops (drv_data (snd first)) = SC_SEC_OPERATION_SIGN /\
   fst second = (3, Some [4; 5; 6]) /\
   fst (fst second) <> SC_ERROR_INVALID_ARGUMENTS) /\
  (let F := scripted_card [sw_only 0x90 0x00; with_data [0x41; 0x42];
                           sw_only 0x90 0x00; with_data [0x43; 0x44]] in
   let c0 := configured SC_SEC_OPERATION_DECIPHER in
   let first := @starcos_decipher F [1; 2; 3] 3 128 c0 in
   let second := @starcos_decipher F [1; 2; 3] 3 128 (snd first) in
   fst first = (2, Some [0x41; 0x42]) /\
   drv_data (snd first) = drv_data c0 /\
   fst second = (2, Some [0x43; 0x44]) /\
   fst (fst second) <> SC_ERROR_INVALID_ARGUMENTS) /\
  (let F := scripted_card [sw_only 0x6F 0x05] in
   let c0 := configured SC_SEC_OPERATION_SIGN in
   let first := @starcos_compute_signature F digest 20 128 c0 in
   fst first = (SC_ERROR_CARD_CMD_FAILED, None) /\
   drv_data (snd first) = drv_data c0 /\
   sec_ops (drv_data (snd first)) <> 0).
Proof.
  repeat split; try reflexivity; vm_compute; discriminate.
Qed.

(** C5, what the code does.  In the authenticate branch the status word of
    INTERNAL AUTHENTICATE is not looked at: the card answers 6F 08
    ("signature failed"), and the function returns the number of response
    bytes and copies them out, where the translator would give
    SC_ERROR_CARD_CMD_FAILED. *)
Lemma internal_authenticate_status_ignored :
  let F := scripted_card [sw_only 0x90 0x00; mk_reply 0 [0xDE; 0xAD] 0x6F 0x08] in
  let res := @starcos_compute_signature F digest 20 128
               (configured SC_SEC_OPERATION_AUTHENTICATE) in
  fst res = (2, Some [0xDE; 0xAD]) /\
  @sc_check_sw F 0x6F 0x08 = SC_ERROR_CARD_CMD_FAILED /\
  fst (fst res) <> @sc_check_sw F 0x6F 0x08.
Proof.
  repeat split; try reflexivity; vm_compute; discriminate.
Qed.

(** In the sign branch the same status word ends the operation with the
    translated error and no data. *)
Lemma compute_signature_status_checked :
  let F := scripted_card [sw_only 0x90 0x00; sw_only 0x90 0x00;
                          mk_reply 0 [0xDE; 0xAD] 0x6F 0x08] in
  fst (@starcos_compute_signature F digest 20 128 (configured SC_SEC_OPERATION_SIGN))
  = (SC_ERROR_CARD_CMD_FAILED, None).
Proof. reflexivity. Qed.

(** What [starcos_set_security_env] records for signing and for
    authentication. *)
Lemma set_security_env_signing (env : sc_security_env) (se_num : Z) (c : sc_card) :
  env_operation env = SC_SEC_OPERATION_SIGN \/
  env_operation env = SC_SEC_OPERATION_AUTHENTICATE ->
  let c1 := snd (starcos_set_security_env env se_num c) in
  sec_ops (drv_data c1) = env_operation env /\
  (mse_p1 (drv_data c1), mse_p2 (drv_data c1))
  = (if env_operation env =? SC_SEC_OPERATION_SIGN then (0x41, 0xB6) else (0x41, 0xA4)) /\
  apdu_log c1 = apdu_log c /\ card_cla c1 = card_cla c.
Proof.
  intros Hop c1. subst c1. unfold starcos_set_security_env. run_monad.
  destruct Hop as [-> | ->]; cbn; repeat split.
Qed.

(** [starcos_decipher] under any recorded environment, on a card that
    accepts both commands. *)
Lemma decipher_runs `{Framework} (crgram : list Z) (crgram_len outlen : Z) (c : sc_card) :
  crgram_len <= 255 -> sec_ops (drv_data c) <> 0 ->
  let mse := mse_apdu c in
  let pso := decipher_apdu c crgram crgram_len in
  let rep := card_reply (apdu_log c) mse in
  let rep2 := card_reply (apdu_log c ++ [mse]) pso in
  0 <= reply_r rep -> reply_sw1 rep = 0x90 -> reply_sw2 rep = 0x00 ->
  0 <= reply_r rep2 -> reply_sw1 rep2 = 0x90 -> reply_sw2 rep2 = 0x00 ->
  starcos_decipher crgram crgram_len outlen c
  = (copy_out rep2 outlen, set_apdu_log (apdu_log c ++ [mse; pso]) c).
Proof.
  intros Hlen Hops mse pso rep rep2 Hr H1 H2 Hr2 H21 H22.
  unfold starcos_decipher. run_monad.
  replace (255 <? crgram_len) with false by (symmetry; apply Z.ltb_ge; lia). cbv beta.
  destruct (Z.eqb_spec (sec_ops (drv_data c)) 0) as [?|_]; [contradiction|].
  fold mse. fold rep.
  replace (reply_r rep <? 0) with false by (symmetry; apply Z.ltb_ge; lia).
  rewrite H1, H2. cbn [Z.eqb Pos.eqb negb orb].
  destruct c as [atr cla le algs valid cur st log].
  cbn [apdu_log set_apdu_log drv_data card_cla] in *.
  change (mk_apdu _ _ _ _ _ (crgram_len + 1) 256 _ _ 1) with pso.
  fold rep2.
  replace (reply_r rep2 <? 0) with false by (symmetry; apply Z.ltb_ge; lia).
  rewrite H21, H22. cbn [Z.eqb Pos.eqb andb]. unfold set_apdu_log.
  cbn [apdu_log card_atr card_cla card_max_le card_algorithms cache_valid
       cache_current_path drv_data]. rewrite <- app_assoc. reflexivity.
Qed.

(** C3, what the code does.  Without a recorded environment both entry
    points fail with SC_ERROR_INVALID_ARGUMENTS and send nothing.
    [starcos_compute_signature] answers an environment that is neither for
    signing nor for authentication with SC_ERROR_INVALID_ARGUMENTS, once
    the MSE command has been sent and accepted.  [starcos_decipher] has no
    such test: after [starcos_set_security_env] for signing or for
    authentication it sends the MSE command of that operation (P1/P2 41 B6
    or 41 A4) and the decipher command, and returns the data of the card
    where the operation kind calls for SC_ERROR_INVALID_ARGUMENTS. *)
Theorem decipher_kind_not_checked `{Framework} :
  (forall data datalen outlen c,
     sec_ops (drv_data c) = 0 ->
     starcos_compute_signature data datalen outlen c
     = (SC_ERROR_INVALID_ARGUMENTS, None, c)) /\
  (forall crgram crgram_len outlen c,
     sec_ops (drv_data c) = 0 ->
     starcos_decipher crgram crgram_len outlen c
     = (SC_ERROR_INVALID_ARGUMENTS, None, c)) /\
  (forall data datalen outlen c,
     datalen <= 20 ->
     sec_ops (drv_data c) <> 0 ->
     sec_ops (drv_data c) <> SC_SEC_OPERATION_SIGN ->
     sec_ops (drv_data c) <> SC_SEC_OPERATION_AUTHENTICATE ->
     let rep := card_reply (apdu_log c) (mse_apdu c) in
     0 <= reply_r rep -> reply_sw1 rep = 0x90 -> reply_sw2 rep = 0x00 ->
     starcos_compute_signature data datalen outlen c
     = (SC_ERROR_INVALID_ARGUMENTS, None, set_apdu_log (apdu_log c ++ [mse_apdu c]) c)) /\
  (forall env se_num crgram crgram_len outlen c,
     env_operation env = SC_SEC_OPERATION_SIGN \/
     env_operation env = SC_SEC_OPERATION_AUTHENTICATE ->
     crgram_len <= 255 -> 0 <= outlen ->
     let c1 := snd (starcos_set_security_env env se_num c) in
     let mse := mse_apdu c1 in
     let pso := decipher_apdu c1 crgram crgram_len in
     let rep := card_reply (apdu_log c1) mse in
     let rep2 := card_reply (apdu_log c1 ++ [mse]) pso in
     0 <= reply_r rep -> reply_sw1 rep = 0x90 -> reply_sw2 rep = 0x00 ->
     0 <= reply_r rep2 -> reply_sw1 rep2 = 0x90 -> reply_sw2 rep2 = 0x00 ->
     sec_ops (drv_data c1) = env_operation env /\
     sec_ops (drv_data c1) <> SC_SEC_OPERATION_DECIPHER /\
     (apdu_p1 mse, apdu_p2 mse)
     = (if env_operation env =? SC_SEC_OPERATION_SIGN then (0x41, 0xB6)
        else (0x41, 0xA4)) /\
     starcos_decipher crgram crgram_len outlen c1
     = (copy_out rep2 outlen, set_apdu_log (apdu_log c1 ++ [mse; pso]) c1) /\
     fst (copy_out rep2 outlen)
     = Z.min outlen (Z.of_nat (length (reply_resp rep2))) /\
     fst (fst (starcos_decipher crgram crgram_len outlen c1))
     <> SC_ERROR_INVALID_ARGUMENTS).
Proof.
  repeat apply conj.
  - intros data datalen outlen c Hnone. run_crypto.
    destruct (20 <? datalen); [reflexivity|]. cbv beta. rewrite Hnone. reflexivity.
  - intros crgram crgram_len outlen c Hnone. run_crypto.
    destruct (255 <? crgram_len); [reflexivity|]. cbv beta. rewrite Hnone. reflexivity.
  - intros data datalen outlen c Hlen H0 Hsign Hauth rep Hr Hsw1 Hsw2. run_crypto.
    replace (20 <? datalen) with false by (symmetry; apply Z.ltb_ge; lia). cbv beta.
    destruct (Z.eqb_spec (sec_ops (drv_data c)) 0) as [?|_]; [contradiction|].
    fold rep. replace (reply_r rep <? 0) with false by (symmetry; apply Z.ltb_ge; lia).
    rewrite Hsw1, Hsw2. cbn [Z.eqb Pos.eqb negb orb].
    destruct (Z.eqb_spec (sec_ops (drv_data c)) SC_SEC_OPERATION_SIGN) as [?|_];
      [contradiction|].
    destruct (Z.eqb_spec (sec_ops (drv_data c)) SC_SEC_OPERATION_AUTHENTICATE) as [?|_];
      [contradiction|].
    reflexivity.
  - intros env se_num crgram crgram_len outlen c Hop Hlen Hout c1 mse pso rep rep2
      Hr H1 H2 Hr2 H21 H22.
    destruct (set_security_env_signing env se_num c Hop) as (Hops & Hp & _ & _).
    fold c1 in Hops, Hp.
    assert (Hkind : sec_ops (drv_data c1) <> 0 /\
                    sec_ops (drv_data c1) <> SC_SEC_OPERATION_DECIPHER).
    { rewrite Hops. destruct Hop as [-> | ->]; split; discriminate. }
    destruct Hkind as [Hnz Hnd].
    assert (Hrun := decipher_runs crgram crgram_len outlen c1 Hlen Hnz Hr H1 H2 Hr2 H21 H22).
    assert (Hmin : fst (copy_out rep2 outlen)
                   = Z.min outlen (Z.of_nat (length (reply_resp rep2)))).
    { unfold copy_out. cbn [fst].
      destruct (Z.ltb_spec outlen (Z.of_nat (length (reply_resp rep2)))); lia. }
    repeat split; try assumption.
    rewrite Hrun. change (fst (copy_out rep2 outlen) <> SC_ERROR_INVALID_ARGUMENTS).
    rewrite Hmin. unfold SC_ERROR_INVALID_ARGUMENTS. lia.
Qed.

Lemma decipher_kind_not_checked_witness :
  let F := scripted_card [sw_only 0x90 0x00; with_data [0x41; 0x42]] in
  let c1 := snd (starcos_set_security_env (rsa_env SC_SEC_OPERATION_SIGN) 0 (fresh_card [])) in
  sec_ops (drv_data c1) = SC_SEC_OPERATION_SIGN /\
  @starcos_decipher F [1; 2; 3] 3 128 c1
  = (2, Some [0x41; 0x42],
     set_apdu_log
       [mk_apdu SC_APDU_CASE_3_SHORT 0x00 0x22 0x41 0xB6 6 0
          [0x80; 0x01; 0x12; 0x83; 0x01; 0x91] 0 0;
        mk_apdu SC_APDU_CASE_4_SHORT 0x00 0x2A 0x80 0x86 4 256 [0; 1; 2; 3]
          SC_MAX_APDU_BUFFER_SIZE 1] c1) /\
  fst (fst (@starcos_decipher F [1; 2; 3] 3 128 c1)) <> SC_ERROR_INVALID_ARGUMENTS.
Proof.
  intros F c1.
  destruct (proj2 (proj2 (proj2 (@decipher_kind_not_checked F)))
              (rsa_env SC_SEC_OPERATION_SIGN) 0 [1; 2; 3] 3 128 (fresh_card []))
    as (Hops & _ & _ & Hrun & _ & Hne);
    [left; reflexivity|lia|lia|vm_compute; discriminate|reflexivity|reflexivity
    |vm_compute; discriminate|reflexivity|reflexivity|].
  split; [exact Hops|]. split; [exact Hrun|exact Hne].
Defined.

(** ** Properties of the card recognition *)

(** Whatever the decoder of the table does: when the card's ATR is the
    first entry, the loop is left with [i = 0], and that is the value
    returned. *)
Lemma match_card_first_entry `{Framework} (card : sc_card) (defatr : list Z) :
  sc_hex_to_bin "3B:B7:94:00:c0:24:31:fe:65:53:50:4b:32:33:90:00:b4" SC_MAX_ATR_SIZE
  = Some defatr ->
  length defatr = length (card_atr card) ->
  memcmp_eq (card_atr card) defatr (Z.of_nat (length defatr)) = true ->
  starcos_match_card card = 0.
Proof.
  intros Hdec Hlen Hcmp. unfold starcos_match_card, starcos_atrs.
  cbn [match_loop]. rewrite Hdec, Hlen, Z.eqb_refl. cbn [negb].
  rewrite <- Hlen, Hcmp. reflexivity.
Qed.

(** An ATR that no entry of the table matches is not recognised. *)
Lemma match_card_no_entry `{Framework} (card : sc_card) :
  (forall s defatr,
     In s starcos_atrs -> sc_hex_to_bin s SC_MAX_ATR_SIZE = Some defatr ->
     length defatr <> length (card_atr card) \/
     memcmp_eq (card_atr card) defatr (Z.of_nat (length defatr)) = false) ->
  starcos_match_card card = 0.
Proof.
  intros Hno. unfold starcos_match_card.
  assert (Hloop : forall atrs i,
            (forall s, In s atrs -> In s starcos_atrs) ->
            snd (match_loop atrs i card) = -1).
  { induction atrs as [|s atrs IH]; intros i Hin; cbn [match_loop]; [reflexivity|].
    assert (Hrest : forall s', In s' atrs -> In s' starcos_atrs)
      by (intros s' Hs'; apply Hin; now right).
    destruct (sc_hex_to_bin s SC_MAX_ATR_SIZE) as [defatr|] eqn:Hdec; [|now apply IH].
    destruct (Hno s defatr (Hin s (or_introl eq_refl)) Hdec) as [Hlen|Hcmp].
    - destruct (Z.eqb_spec (Z.of_nat (length defatr)) (Z.of_nat (length (card_atr card))))
        as [E|_]; [lia|]. cbn [negb]. now apply IH.
    - destruct (negb (Z.of_nat (length defatr) =? Z.of_nat (length (card_atr card))));
        [now apply IH|]. rewrite Hcmp. cbn [negb]. now apply IH. }
  specialize (Hloop starcos_atrs 0 (fun s Hs => Hs)).
  destruct (match_loop starcos_atrs 0 card) as [i m]. cbn [snd] in Hloop.
  rewrite Hloop. reflexivity.
Qed.

(** C2, what the code does.  A card whose ATR is the first fingerprint gets
    the answer 0, "no match": the function returns the loop index [i]
    where [match = i + 1] was computed.  [starcos_init], which accepts the
    values 1 and 2, then fails with SC_ERROR_INTERNAL.  The second
    fingerprint gets 1, and an ATR that is neither gets 0. *)
Lemma match_card_first_atr_rejected :
  let F := scripted_card [] in
  @sc_hex_to_bin F "3B:B7:94:00:c0:24:31:fe:65:53:50:4b:32:33:90:00:b4" SC_MAX_ATR_SIZE
  = Some atr_spk23_a /\
  @sc_hex_to_bin F "3B:B7:94:00:81:31:fe:65:53:50:4b:32:33:90:00:d1" SC_MAX_ATR_SIZE
  = Some atr_spk23_b /\
  @match_loop F starcos_atrs 0 (fresh_card atr_spk23_a) = (0, 1) /\
  @starcos_match_card F (fresh_card atr_spk23_a) = 0 /\
  fst (@starcos_init F (fresh_card atr_spk23_a)) = SC_ERROR_INTERNAL /\
  @starcos_match_card F (fresh_card atr_spk23_b) = 1 /\
  fst (@starcos_init F (fresh_card atr_spk23_b)) = 0 /\
  @starcos_match_card F (fresh_card [0x3B; 0x00]) = 0.
Proof.
  repeat split; reflexivity.
Qed.

(** ** Further properties: argument checks *)

(** A request by path is refused with SC_ERROR_INVALID_ARGUMENTS, with
    nothing sent and nothing changed, when its length is odd, zero or
    above 6, or is 6 without the MF in front. *)
Theorem select_file_rejects_malformed_path `{Framework} (fuel : nat) (in_path : sc_path)
    (file_out : file_slot) (c : sc_card) :
  path_type in_path = SC_PATH_TYPE_PATH ->
  let pathbuf := take (Z.to_nat (path_len in_path)) (path_value in_path) in
  (path_len in_path mod 2 <> 0 \/ 6 < path_len in_path \/ path_len in_path <= 0 \/
   (path_len in_path = 6 /\ ~ (at_index pathbuf 0 = 0x3f /\ at_index pathbuf 1 = 0x00))) ->
  starcos_select_file (S fuel) in_path file_out c
  = (Some (SC_ERROR_INVALID_ARGUMENTS, file_out), c).
Proof.
  intros Hty pathbuf Hbad. cbn [starcos_select_file]. run_bind. fold pathbuf.
  rewrite Hty.
  change (SC_PATH_TYPE_PATH =? SC_PATH_TYPE_FILE_ID) with false.
  change (SC_PATH_TYPE_PATH =? SC_PATH_TYPE_DF_NAME) with false.
  change (SC_PATH_TYPE_PATH =? SC_PATH_TYPE_PATH) with true. cbv iota.
  destruct (negb (path_len in_path mod 2 =? 0) || (6 <? path_len in_path)
            || (path_len in_path <=? 0)) eqn:Hlen; [reflexivity|].
  apply orb_false_iff in Hlen as [Hlen Hpos]. apply orb_false_iff in Hlen as [Heven H6].
  apply negb_false_iff, Z.eqb_eq in Heven. apply Z.ltb_ge in H6. apply Z.leb_gt in Hpos.
  destruct Hbad as [Hb|[Hb|[Hb|[Hb Hroot]]]]; try lia.
  rewrite Hb. change (6 =? 6) with true. cbn [andb].
  destruct (Z.eqb_spec (at_index pathbuf 0) 0x3f) as [E0|_]; [|reflexivity].
  destruct (Z.eqb_spec (at_index pathbuf 1) 0x00) as [E1|_]; [|reflexivity].
  exfalso. apply Hroot. now split.
Qed.

Lemma select_file_rejects_malformed_path_witness :
  @starcos_select_file (scripted_card []) 1
     (path_of SC_PATH_TYPE_PATH [0x50; 0x15; 0x12; 0x34; 0x56; 0x78]) (Some None)
     (fresh_card [])
  = (Some (SC_ERROR_INVALID_ARGUMENTS, Some None), fresh_card []) /\
  @starcos_select_file (scripted_card []) 1
     (path_of SC_PATH_TYPE_PATH [0x3F; 0x00; 0x12]) (Some None) (fresh_card [])
  = (Some (SC_ERROR_INVALID_ARGUMENTS, Some None), fresh_card []).
Proof.
  split.
  - apply (@select_file_rejects_malformed_path (scripted_card []) 0
             (path_of SC_PATH_TYPE_PATH [0x50; 0x15; 0x12; 0x34; 0x56; 0x78])).
    + reflexivity.
    + right. right. right. split; [reflexivity|]. intros [E _]. vm_compute in E.
      discriminate E.
  - apply (@select_file_rejects_malformed_path (scripted_card []) 0
             (path_of SC_PATH_TYPE_PATH [0x3F; 0x00; 0x12])).
    + reflexivity.
    + left. vm_compute. discriminate.
Defined.

(** A request by file id whose length is not 2 is refused even when the
    cache would answer it, and so is a request of a type that is neither
    file id, nor AID, nor path: SC_ERROR_INVALID_ARGUMENTS, nothing sent,
    nothing changed. *)
Theorem select_file_rejects_other_requests `{Framework} (fuel : nat) (in_path : sc_path)
    (file_out : file_slot) (c : sc_card) :
  (path_type in_path = SC_PATH_TYPE_FILE_ID /\ path_len in_path <> 2) \/
  (path_type in_path <> SC_PATH_TYPE_FILE_ID /\
   path_type in_path <> SC_PATH_TYPE_DF_NAME /\
   path_type in_path <> SC_PATH_TYPE_PATH) ->
  starcos_select_file (S fuel) in_path file_out c
  = (Some (SC_ERROR_INVALID_ARGUMENTS, file_out), c).
Proof.
  intros Hreq. cbn [starcos_select_file]. run_bind.
  destruct Hreq as [[Hty Hlen]|(H0 & H1 & H2)].
  - rewrite Hty. change (SC_PATH_TYPE_FILE_ID =? SC_PATH_TYPE_FILE_ID) with true.
    cbv iota. destruct (Z.eqb_spec (path_len in_path) 2) as [?|_]; [contradiction|].
    reflexivity.
  - destruct (Z.eqb_spec (path_type in_path) SC_PATH_TYPE_FILE_ID) as [?|_];
      [contradiction|].
    destruct (Z.eqb_spec (path_type in_path) SC_PATH_TYPE_DF_NAME) as [?|_];
      [contradiction|].
    destruct (Z.eqb_spec (path_type in_path) SC_PATH_TYPE_PATH) as [?|_];
      [contradiction|].
    reflexivity.
Qed.

Lemma select_file_rejects_other_requests_witness :
  @starcos_select_file (scripted_card []) 1
     (path_of SC_PATH_TYPE_FILE_ID [0x3F; 0x00; 0x12; 0x34]) None
     (cached_card (path_of SC_PATH_TYPE_PATH [0x3F; 0x00]))
  = (Some (SC_ERROR_INVALID_ARGUMENTS, None),
     cached_card (path_of SC_PATH_TYPE_PATH [0x3F; 0x00])).
Proof.
  apply (@select_file_rejects_other_requests (scripted_card []) 0).
  left. split; [reflexivity|]. vm_compute. discriminate.
Defined.

(** A digest of more than 20 bytes and a cryptogram of more than 255 bytes
    are refused before the recorded environment is looked at: nothing is
    sent and the environment stays as it was. *)
Theorem sequencer_rejects_long_input `{Framework} (input : list Z) (len outlen : Z)
    (c : sc_card) :
  (20 < len ->
   starcos_compute_signature input len outlen c = (SC_ERROR_INVALID_ARGUMENTS, None, c)) /\
  (255 < len ->
   starcos_decipher input len outlen c = (SC_ERROR_INVALID_ARGUMENTS, None, c)).
Proof.
  split; intros Hlen; run_crypto.
  - replace (20 <? len) with true by (symmetry; apply Z.ltb_lt; lia). reflexivity.
  - replace (255 <? len) with true by (symmetry; apply Z.ltb_lt; lia). reflexivity.
Qed.

Lemma sequencer_rejects_long_input_witness :
  @starcos_compute_signature (scripted_card []) (replicate 21 0xAB) 21 128
     (configured SC_SEC_OPERATION_SIGN)
  = (SC_ERROR_INVALID_ARGUMENTS, None, configured SC_SEC_OPERATION_SIGN) /\
  @starcos_decipher (scripted_card []) (replicate 256 0x01) 256 128
     (configured SC_SEC_OPERATION_DECIPHER)
  = (SC_ERROR_INVALID_ARGUMENTS, None, configured SC_SEC_OPERATION_DECIPHER).
Proof.
  split.
  - apply (proj1 (@sequencer_rejects_long_input (scripted_card []) (replicate 21 0xAB)
                    21 128 (configured SC_SEC_OPERATION_SIGN))). lia.
  - apply (proj2 (@sequencer_rejects_long_input (scripted_card []) (replicate 256 0x01)
                    256 128 (configured SC_SEC_OPERATION_DECIPHER))). lia.
Defined.

(** ** Further properties: file deletion *)

(** [starcos_delete_file] sends its one DELETE command exactly when the
    first two bytes of the path are 3F 00 and the path is of type file id
    or has length 2; the result is then the transport error or the
    translated status.  In every other case it returns
    SC_ERROR_INVALID_ARGUMENTS and sends nothing. *)
Theorem delete_file_only_mf `{Framework} (path : sc_path) (c : sc_card) :
  let accepted :=
    (path_type path = SC_PATH_TYPE_FILE_ID \/ path_len path = 2) /\
    at_index (path_value path) 0 = 0x3f /\ at_index (path_value path) 1 = 0x00 in
  let apdu := mk_apdu SC_APDU_CASE_3_SHORT (Z.lor (card_cla c) 0x80) 0xE4 0x00 0x00
                      2 0 [0x3f; 0x00] 0 0 in
  let rep := card_reply (apdu_log c) apdu in
  (~ accepted -> starcos_delete_file path c = (SC_ERROR_INVALID_ARGUMENTS, c)) /\
  (accepted ->
   starcos_delete_file path c
   = (if reply_r rep <? 0 then reply_r rep
      else sc_check_sw (reply_sw1 rep) (reply_sw2 rep),
      set_apdu_log (apdu_log c ++ [apdu]) c)).
Proof.
  intros accepted apdu rep. unfold starcos_delete_file. run_monad.
  change (at_index [at_index (path_value path) 0; at_index (path_value path) 1] 0)
    with (at_index (path_value path) 0).
  change (at_index [at_index (path_value path) 0; at_index (path_value path) 1] 1)
    with (at_index (path_value path) 1).
  split.
  - intros Hno.
    destruct (Z.eqb_spec (path_type path) SC_PATH_TYPE_FILE_ID) as [Hty|Hty];
      destruct (Z.eqb_spec (path_len path) 2) as [Hlen|Hlen]; cbn [negb andb];
      try reflexivity;
      destruct (Z.eqb_spec (at_index (path_value path) 0) 0x3f) as [E0|E0];
      try reflexivity;
      destruct (Z.eqb_spec (at_index (path_value path) 1) 0x00) as [E1|E1];
      try reflexivity;
      exfalso; apply Hno; unfold accepted; auto.
  - intros (Hty & E0 & E1). rewrite E0, E1.
    replace (negb (path_type path =? SC_PATH_TYPE_FILE_ID) && negb (path_len path =? 2))
      with false.
    + cbn [Z.eqb Pos.eqb negb orb]. unfold sc_format_apdu.
      cbn [apdu_cse apdu_cla apdu_ins apdu_p1 apdu_p2 apdu_le apdu_resplen
           apdu_sensitive].
      fold apdu. fold rep. destruct (reply_r rep <? 0); reflexivity.
    + symmetry. apply andb_false_iff.
      destruct Hty as [->| ->]; [left|right]; reflexivity.
Qed.

Lemma delete_file_only_mf_witness :
  @starcos_delete_file (scripted_card [sw_only 0x90 0x00])
     (path_of SC_PATH_TYPE_FILE_ID [0x12; 0x34]) (fresh_card [])
  = (SC_ERROR_INVALID_ARGUMENTS, fresh_card []) /\
  fst (@starcos_delete_file (scripted_card [sw_only 0x90 0x00])
         (path_of SC_PATH_TYPE_FILE_ID [0x3F; 0x00]) (fresh_card [])) = SC_SUCCESS.
Proof.
  split.
  - apply (proj1 (@delete_file_only_mf (scripted_card [sw_only 0x90 0x00])
                    (path_of SC_PATH_TYPE_FILE_ID [0x12; 0x34]) (fresh_card []))).
    intros (_ & E & _). vm_compute in E. discriminate E.
  - rewrite (proj2 (@delete_file_only_mf (scripted_card [sw_only 0x90 0x00])
                      (path_of SC_PATH_TYPE_FILE_ID [0x3F; 0x00]) (fresh_card []))).
    + reflexivity.
    + split; [left; reflexivity|split; reflexivity].
Defined.

(** ** Further properties: the security environment *)

(** [starcos_set_security_env] sends nothing and touches nothing but the
    recorded environment.  It succeeds exactly for the operations
    decipher, sign and authenticate; then the kind recorded is the
    operation (so not 0) with its instruction parameters.  For any other
    operation it returns SC_ERROR_INVALID_ARGUMENTS and what was recorded
    before stays. *)
Theorem set_security_env_outcome (env : sc_security_env) (se_num : Z) (c : sc_card) :
  let res := starcos_set_security_env env se_num c in
  let known := env_operation env = SC_SEC_OPERATION_DECIPHER \/
               env_operation env = SC_SEC_OPERATION_SIGN \/
               env_operation env = SC_SEC_OPERATION_AUTHENTICATE in
  snd res = set_drv_data (drv_data (snd res)) c /\
  (known ->
   fst res = SC_SUCCESS /\
   sec_ops (drv_data (snd res)) = env_operation env /\
   sec_ops (drv_data (snd res)) <> 0 /\
   (mse_p1 (drv_data (snd res)), mse_p2 (drv_data (snd res)))
   = (if env_operation env =? SC_SEC_OPERATION_DECIPHER then (0x81, 0xB8)
      else if env_operation env =? SC_SEC_OPERATION_SIGN then (0x41, 0xB6)
      else (0x41, 0xA4))) /\
  (~ known -> res = (SC_ERROR_INVALID_ARGUMENTS, c)).
Proof.
  intros res known. subst res. unfold starcos_set_security_env. run_monad.
  destruct c as [atr cla le algs valid cur mse log].
  destruct (Z.eqb_spec (env_operation env) SC_SEC_OPERATION_DECIPHER) as [Hd|Hd];
    [|destruct (Z.eqb_spec (env_operation env) SC_SEC_OPERATION_SIGN) as [Hs|Hs];
      [|destruct (Z.eqb_spec (env_operation env) SC_SEC_OPERATION_AUTHENTICATE)
          as [Ha|Ha]]];
    cbn [fst snd set_drv_data drv_data sec_ops mse_p1 mse_p2 card_atr card_cla
         card_max_le card_algorithms cache_valid cache_current_path apdu_log];
    (split; [reflexivity|]); split; intros Hk;
    try (exfalso; apply Hk; unfold known; auto; fail);
    try (unfold known in Hk; exfalso; intuition congruence);
    try reflexivity;
    repeat split; try congruence; try (rewrite ?Hd, ?Hs, ?Ha; discriminate).
Qed.

Lemma set_security_env_outcome_witness :
  fst (starcos_set_security_env (rsa_env SC_SEC_OPERATION_SIGN) 0 (fresh_card []))
  = SC_SUCCESS /\
  starcos_set_security_env (rsa_env 0x0004) 0 (configured SC_SEC_OPERATION_SIGN)
  = (SC_ERROR_INVALID_ARGUMENTS, configured SC_SEC_OPERATION_SIGN).
Proof.
  split.
  - apply (proj1 (proj2 (set_security_env_outcome (rsa_env SC_SEC_OPERATION_SIGN) 0
                           (fresh_card [])))).
    right. left. reflexivity.
  - apply (proj2 (proj2 (set_security_env_outcome (rsa_env 0x0004) 0
                           (configured SC_SEC_OPERATION_SIGN)))).
    intros [E|[E|E]]; vm_compute in E; discriminate E.
Defined.

(** The reference block never outgrows its parts: three bytes for the
    algorithm object when one is stored, two bytes and the key reference
    when a key reference is given.  With no flag set the block is empty. *)
Theorem set_security_env_block_length (env : sc_security_env) (se_num : Z) (c : sc_card) :
  0 <= env_key_ref_len env <= Z.of_nat (length (env_key_ref env)) ->
  fst (starcos_set_security_env env se_num c) = SC_SUCCESS ->
  let buf := mse_buf (drv_data (snd (starcos_set_security_env env se_num c))) in
  Z.of_nat (length buf)
  = (if env_has_alg env then 3 else 0)
    + (if has_flag (env_flags env) SC_SEC_ENV_KEY_REF_PRESENT
       then 2 + env_key_ref_len env else 0) /\
  Z.of_nat (length buf) <= 5 + env_key_ref_len env.
Proof.
  intros Hlen. unfold starcos_set_security_env, env_has_alg. run_monad.
  assert (Htake : Z.of_nat (length (take (Z.to_nat (env_key_ref_len env)) (env_key_ref env)))
                  = env_key_ref_len env).
  { rewrite length_take. lia. }
  destruct (Z.eqb_spec (env_operation env) SC_SEC_OPERATION_DECIPHER) as [Hd|Hd];
    [|destruct (Z.eqb_spec (env_operation env) SC_SEC_OPERATION_SIGN) as [Hs|Hs];
      [|destruct (Z.eqb_spec (env_operation env) SC_SEC_OPERATION_AUTHENTICATE)
          as [Ha|Ha]]];
    cbn [fst snd set_drv_data drv_data mse_buf orb];
    try (intros E; discriminate E); intros _;
    destruct (has_flag (env_flags env) SC_SEC_ENV_ALG_REF_PRESENT);
    destruct (has_flag (env_flags env) SC_SEC_ENV_ALG_PRESENT);
    destruct (env_algorithm env =? SC_ALGORITHM_RSA);
    destruct (has_flag (env_algorithm_flags env) SC_ALGORITHM_RSA_PAD_PKCS1);
    destruct (has_flag (env_flags env) SC_SEC_ENV_KEY_REF_PRESENT);
    cbn [andb orb app]; rewrite ?length_app; cbn [length app];
    rewrite ?Nat2Z.inj_add, ?Nat2Z.inj_succ, ?Htake; cbn [length Z.of_nat]; lia.
Qed.

Lemma set_security_env_block_length_witness :
  Z.of_nat (length (mse_buf (drv_data (configured SC_SEC_OPERATION_DECIPHER)))) = 6.
Proof.
  refine (proj1 (set_security_env_block_length (rsa_env SC_SEC_OPERATION_DECIPHER) 0
                   (fresh_card []) _ _)).
  - vm_compute. split; discriminate.
  - reflexivity.
Defined.

(** ** Further properties: the crypto operations *)

(** What [starcos_set_security_env] recorded is what the next crypto call
    sends first: a MANAGE SECURITY ENVIRONMENT command (INS 0x22) with the
    parameters of the operation and the reference block as data. *)
Theorem configure_then_mse `{Framework} (env : sc_security_env) (se_num : Z)
    (input : list Z) (len outlen : Z) (c c1 : sc_card) :
  starcos_set_security_env env se_num c = (SC_SUCCESS, c1) ->
  (len <= 20 ->
   exists rest, apdu_log (snd (starcos_compute_signature input len outlen c1))
                = apdu_log c ++ mse_apdu c1 :: rest) /\
  (len <= 255 ->
   exists rest, apdu_log (snd (starcos_decipher input len outlen c1))
                = apdu_log c ++ mse_apdu c1 :: rest) /\
  apdu_ins (mse_apdu c1) = 0x22 /\
  apdu_data (mse_apdu c1) = mse_buf (drv_data c1) /\
  apdu_lc (mse_apdu c1) = Z.of_nat (length (mse_buf (drv_data c1))) /\
  (apdu_p1 (mse_apdu c1), apdu_p2 (mse_apdu c1))
  = (if env_operation env =? SC_SEC_OPERATION_DECIPHER then (0x81, 0xB8)
     else if env_operation env =? SC_SEC_OPERATION_SIGN then (0x41, 0xB6)
     else (0x41, 0xA4)).
Proof.
  intros Hset.
  assert (Hops : sec_ops (drv_data c1) <> 0 /\ apdu_log c1 = apdu_log c /\
                 (mse_p1 (drv_data c1), mse_p2 (drv_data c1))
                 = (if env_operation env =? SC_SEC_OPERATION_DECIPHER then (0x81, 0xB8)
                    else if env_operation env =? SC_SEC_OPERATION_SIGN then (0x41, 0xB6)
                    else (0x41, 0xA4))).
  { revert Hset. unfold starcos_set_security_env. run_monad.
    destruct (env_operation env =? SC_SEC_OPERATION_DECIPHER);
      [|destruct (env_operation env =? SC_SEC_OPERATION_SIGN);
        [|destruct (env_operation env =? SC_SEC_OPERATION_AUTHENTICATE)]];
      intros E; inversion E; subst; cbn; repeat split; discriminate. }
  destruct Hops as (Hnz & Hlog & Hp).
  repeat apply conj; try reflexivity; try exact Hp.
  - intros Hlen. run_crypto.
    replace (20 <? len) with false by (symmetry; apply Z.ltb_ge; lia). cbv beta.
    destruct (Z.eqb_spec (sec_ops (drv_data c1)) 0) as [?|_]; [contradiction|].
    rewrite <- Hlog. destruct c1 as [atr cla le algs valid cur mse log1].
    cbn [apdu_log set_apdu_log drv_data set_drv_data].
    repeat (cbn [apdu_log snd set_drv_data set_apdu_log]; case_match);
      cbn [apdu_log snd set_drv_data set_apdu_log]; rewrite <- ?app_assoc;
      eexists; reflexivity.
  - intros Hlen. run_crypto.
    replace (255 <? len) with false by (symmetry; apply Z.ltb_ge; lia). cbv beta.
    destruct (Z.eqb_spec (sec_ops (drv_data c1)) 0) as [?|_]; [contradiction|].
    rewrite <- Hlog. destruct c1 as [atr cla le algs valid cur mse log1].
    cbn [apdu_log set_apdu_log drv_data set_drv_data].
    repeat (cbn [apdu_log snd set_drv_data set_apdu_log]; case_match);
      cbn [apdu_log snd set_drv_data set_apdu_log]; rewrite <- ?app_assoc;
      eexists; reflexivity.
Qed.

Lemma configure_then_mse_witness :
  exists rest,
    apdu_log (snd (@starcos_decipher (scripted_card [sw_only 0x90 0x00; with_data [0x41]])
                     [1; 2; 3] 3 128 (configured SC_SEC_OPERATION_DECIPHER)))
    = [] ++ mse_apdu (configured SC_SEC_OPERATION_DECIPHER) :: rest.
Proof.
  refine (proj1 (proj2 (@configure_then_mse
                          (scripted_card [sw_only 0x90 0x00; with_data [0x41]])
                          (rsa_env SC_SEC_OPERATION_DECIPHER) 0 [1; 2; 3] 3 128
                          (fresh_card []) (configured SC_SEC_OPERATION_DECIPHER) eq_refl))
                _).
  lia.
Defined.

(** Neither crypto operation repeats a command or touches anything but the
    log and the recorded environment: a signature takes at most three
    commands, a decipher at most two, and the environment afterwards is
    the one recorded before or the cleared one. *)
Theorem sequencer_never_retries `{Framework} (input : list Z) (len outlen : Z)
    (c : sc_card) :
  (exists sent m,
     snd (starcos_compute_signature input len outlen c)
     = set_drv_data m (set_apdu_log (apdu_log c ++ sent) c) /\
     (length sent <= 3)%nat /\ (m = drv_data c \/ m = mse_zero)) /\
  (exists sent m,
     snd (starcos_decipher input len outlen c)
     = set_drv_data m (set_apdu_log (apdu_log c ++ sent) c) /\
     (length sent <= 2)%nat /\ (m = drv_data c \/ m = mse_zero)).
Proof.
  split; run_crypto; destruct c as [atr cla le algs valid cur mse log];
    repeat (unfold set_apdu_log, set_drv_data;
            cbn [apdu_log snd drv_data card_atr card_cla
                 card_max_le card_algorithms cache_valid cache_current_path];
            case_match);
    unfold set_apdu_log, set_drv_data;
    cbn [apdu_log snd drv_data card_atr card_cla
         card_max_le card_algorithms cache_valid cache_current_path];
    rewrite <- ?app_assoc;
    first [ exists [], mse; rewrite app_nil_r; repeat split; auto; cbn; lia
          | eexists _, _; split; [reflexivity|]; split; [cbn; lia|auto] ].
Qed.

Lemma copy_out_bounded (resp : list Z) (outlen : Z) :
  0 <= outlen ->
  let len := if outlen <? Z.of_nat (length resp) then outlen else Z.of_nat (length resp) in
  len = Z.of_nat (length (take (Z.to_nat len) resp)) /\ 0 <= len <= outlen.
Proof.
  intros Hout. cbv zeta.
  destruct (Z.ltb_spec outlen (Z.of_nat (length resp))) as [Hlt|Hge];
    rewrite length_take; lia.
Qed.

(** The data handed out never exceeds the caller's buffer: whenever a
    crypto operation writes to [out], the value returned is the number of
    bytes written and is at most [outlen]. *)
Theorem sequencer_output_bounded `{Framework} (input : list Z) (len outlen r : Z)
    (out : list Z) (c c' : sc_card) :
  0 <= outlen ->
  starcos_compute_signature input len outlen c = (r, Some out, c') \/
  starcos_decipher input len outlen c = (r, Some out, c') ->
  r = Z.of_nat (length out) /\ 0 <= r <= outlen.
Proof.
  intros Hout [Hrun|Hrun]; revert Hrun;
    unfold starcos_compute_signature, starcos_decipher; run_monad;
    repeat case_match; intros E; inversion E; subst;
    apply copy_out_bounded; exact Hout.
Qed.

Lemma sequencer_output_bounded_witness :
  4 = Z.of_nat (length [0x41; 0x42; 0x43; 0x44]) /\ 0 <= 4 <= 4.
Proof.
  refine (@sequencer_output_bounded
            (scripted_card [sw_only 0x90 0x00;
                            with_data [0x41; 0x42; 0x43; 0x44; 0x45; 0x46]])
            [1; 2; 3] 3 4 4 [0x41; 0x42; 0x43; 0x44]
            (configured SC_SEC_OPERATION_DECIPHER)
            (snd (@starcos_decipher
                    (scripted_card [sw_only 0x90 0x00;
                                    with_data [0x41; 0x42; 0x43; 0x44; 0x45; 0x46]])
                    [1; 2; 3] 3 4 (configured SC_SEC_OPERATION_DECIPHER))) _ _).
  - lia.
  - right. reflexivity.
Defined.


(** When the MSE command fails, by a transport error or by any status
    other than 90 00, the operation ends there: one command was sent, the
    result is the transport error or the translated status, and nothing is
    written to [out]. *)
Theorem sequencer_stops_at_mse_failure `{Framework} (input : list Z) (len outlen : Z)
    (c : sc_card) :
  sec_ops (drv_data c) <> 0 ->
  let rep := card_reply (apdu_log c) (mse_apdu c) in
  reply_r rep < 0 \/ reply_sw1 rep <> 0x90 \/ reply_sw2 rep <> 0x00 ->
  let r := if reply_r rep <? 0 then reply_r rep
           else sc_check_sw (reply_sw1 rep) (reply_sw2 rep) in
  (len <= 20 ->
   starcos_compute_signature input len outlen c
   = (r, None, set_apdu_log (apdu_log c ++ [mse_apdu c]) c)) /\
  (len <= 255 ->
   starcos_decipher input len outlen c
   = (r, None, set_apdu_log (apdu_log c ++ [mse_apdu c]) c)).
Proof.
  intros Hops rep Hfail r.
  assert (Hstop : (reply_r rep <? 0) = false ->
                  negb (reply_sw1 rep =? 0x90) || negb (reply_sw2 rep =? 0x00) = true).
  { intros Hr. apply Z.ltb_ge in Hr. destruct Hfail as [Hf|[Hf|Hf]]; [lia| |].
    - destruct (Z.eqb_spec (reply_sw1 rep) 0x90); [contradiction|reflexivity].
    - destruct (Z.eqb_spec (reply_sw2 rep) 0x00); [contradiction|].
      apply orb_true_r. }
  split; intros Hlen; run_crypto.
  - replace (20 <? len) with false by (symmetry; apply Z.ltb_ge; lia). cbv beta.
    destruct (Z.eqb_spec (sec_ops (drv_data c)) 0) as [?|_]; [contradiction|].
    fold rep. subst r. destruct (reply_r rep <? 0) eqn:Hr; [reflexivity|].
    rewrite (Hstop eq_refl). reflexivity.
  - replace (255 <? len) with false by (symmetry; apply Z.ltb_ge; lia). cbv beta.
    destruct (Z.eqb_spec (sec_ops (drv_data c)) 0) as [?|_]; [contradiction|].
    fold rep. subst r. destruct (reply_r rep <? 0) eqn:Hr; [reflexivity|].
    rewrite (Hstop eq_refl). reflexivity.
Qed.

Lemma sequencer_stops_at_mse_failure_witness :
  fst (@starcos_compute_signature (scripted_card [sw_only 0x6F 0x05; with_data [1; 2]])
         digest 20 128 (configured SC_SEC_OPERATION_AUTHENTICATE))
  = (SC_ERROR_CARD_CMD_FAILED, None).
Proof.
  destruct (@sequencer_stops_at_mse_failure
              (scripted_card [sw_only 0x6F 0x05; with_data [1; 2]]) digest 20 128
              (configured SC_SEC_OPERATION_AUTHENTICATE)) as [Hsig _].
  - vm_compute. discriminate.
  - right. left. vm_compute. discriminate.
  - rewrite Hsig by lia. reflexivity.
Defined.

(** ** Further properties: the low-level selects *)

(** A SELECT that the card answers with a status other than 62 84, 61 xx
    and 90 00 ends the FID-select: one command was sent, the result is the
    translated status, the caller's slot holds NULL and the cache is as it
    was. *)
Theorem select_fid_status_error `{Framework} (id_hi id_lo : Z) (file_out : file_slot)
    (c : sc_card) :
  let apdu := select_fid_apdu c id_hi id_lo in
  let rep := card_reply (apdu_log c) apdu in
  0 <= reply_r rep ->
  ~ (reply_sw1 rep = 0x62 /\ reply_sw2 rep = 0x84) ->
  reply_sw1 rep <> 0x61 ->
  ~ (reply_sw1 rep = 0x90 /\ reply_sw2 rep = 0x00) ->
  starcos_select_fid id_hi id_lo file_out c
  = (sc_check_sw (reply_sw1 rep) (reply_sw2 rep), store_slot file_out None,
     set_apdu_log (apdu_log c ++ [apdu]) c).
Proof.
  intros apdu rep Hr H6284 H61 H9000.
  unfold starcos_select_fid, select_fid_finish. run_monad. fold apdu. fold rep.
  replace (reply_r rep <? 0) with false by (symmetry; apply Z.ltb_ge; lia).
  change (apdu_p2 apdu =? 0x00) with true. cbn [andb].
  destruct (Z.eqb_spec (reply_sw1 rep) 0x61) as [?|_]; [contradiction|].
  destruct (Z.eqb_spec (reply_sw1 rep) 0x62) as [E62|_];
    destruct (Z.eqb_spec (reply_sw2 rep) 0x84) as [E84|_];
    destruct (Z.eqb_spec (reply_sw1 rep) 0x90) as [E90|_];
    destruct (Z.eqb_spec (reply_sw2 rep) 0x00) as [E00|_];
    cbn [andb orb negb]; try reflexivity; try tauto; try congruence.
Qed.

Lemma select_fid_status_error_witness :
  @starcos_select_fid (scripted_card [sw_only 0x6F 0x07]) 0x12 0x34 (Some None)
     (fresh_card [])
  = (SC_ERROR_FILE_NOT_FOUND, Some None,
     set_apdu_log [select_fid_apdu (fresh_card []) 0x12 0x34] (fresh_card [])).
Proof.
  apply (@select_fid_status_error (scripted_card [sw_only 0x6F 0x07]) 0x12 0x34
           (Some None) (fresh_card [])).
  - vm_compute. discriminate.
  - intros [E _]. vm_compute in E. discriminate E.
  - vm_compute. discriminate.
  - intros [E _]. vm_compute in E. discriminate E.
Defined.



(** The response of an EF is looked at only when a descriptor is asked
    for.  If it does not begin with the FCI tag 0x6F, a caller who passed
    a slot gets SC_ERROR_UNKNOWN_DATA_RECEIVED and NULL in the slot; a
    caller who passed no slot gets SC_SUCCESS.  The card has selected the
    file either way, and the cache is as it was. *)
Theorem select_fid_missing_fci_tag `{Framework} (id_hi id_lo : Z) (c : sc_card) :
  let apdu := select_fid_apdu c id_hi id_lo in
  let rep := card_reply (apdu_log c) apdu in
  let rep2 := card_reply (apdu_log c ++ [apdu]) (read_binary_apdu c) in
  let c' := set_apdu_log (apdu_log c ++ [apdu; read_binary_apdu c]) c in
  0 <= reply_r rep ->
  reply_sw1 rep = 0x61 \/ (reply_sw1 rep = 0x90 /\ reply_sw2 rep = 0x00) ->
  0 <= reply_r rep2 ->
  ~ (reply_sw1 rep2 = 0x69 /\ reply_sw2 rep2 = 0x86) ->
  at_index (resp_buffer (reply_resp rep)) 0 <> 0x6F ->
  (forall slot file0,
     sc_file_new = Some file0 ->
     starcos_select_fid id_hi id_lo (Some slot) c
     = (SC_ERROR_UNKNOWN_DATA_RECEIVED, Some None, c')) /\
  starcos_select_fid id_hi id_lo None c = (SC_SUCCESS, None, c').
Proof.
  intros apdu rep rep2 c' Hr Hsw Hr2 Hprobe Htag.
  assert (Hdf : (reply_sw1 rep2 =? 0x69) && (reply_sw2 rep2 =? 0x86) = false).
  { apply andb_false_iff.
    destruct (Z.eqb_spec (reply_sw1 rep2) 0x69), (Z.eqb_spec (reply_sw2 rep2) 0x86);
      auto. exfalso. apply Hprobe. now split. }
  assert (H6284 : (reply_sw1 rep =? 0x62) && (reply_sw2 rep =? 0x84) = false).
  { destruct Hsw as [->|[-> _]]; reflexivity. }
  assert (Hdata : (reply_sw1 rep =? 0x61)
                  || ((reply_sw1 rep =? 0x90) && (reply_sw2 rep =? 0x00)) = true).
  { destruct Hsw as [->|[-> ->]]; reflexivity. }
  assert (Hbad : negb (reply_sw1 rep =? 0x61)
                 && (negb (reply_sw1 rep =? 0x90) || negb (reply_sw2 rep =? 0x00)) = false).
  { destruct Hsw as [->|[-> ->]]; reflexivity. }
  assert (H0 : (at_index (resp_buffer (reply_resp rep)) 0 =? 0x6F) = false)
    by (now apply Z.eqb_neq).
  split; [intros slot file0 Hnew|];
    unfold starcos_select_fid, select_fid_finish; run_monad;
    cbn [store_slot apdu_log set_apdu_log]; fold apdu; fold rep;
    replace (reply_r rep <? 0) with false by (symmetry; apply Z.ltb_ge; lia);
    change (apdu_p2 apdu =? 0x00) with true; cbn [andb];
    rewrite H6284, Hdata, !apdu_log_set; fold rep2;
    replace (reply_r rep2 <? 0) with false by (symmetry; apply Z.ltb_ge; lia);
    rewrite Hbad, Hdf; rewrite ?Hnew, ?H0; cbn [negb];
    subst c'; destruct c; unfold set_apdu_log; cbn; rewrite <- app_assoc; reflexivity.
Qed.

Lemma select_fid_missing_fci_tag_witness :
  let F := scripted_card [with_data [0x62; 0x02; 0x01; 0x02]; sw_only 0x90 0x00] in
  fst (@starcos_select_fid F 0x56 0x78 (Some None) (fresh_card []))
  = (SC_ERROR_UNKNOWN_DATA_RECEIVED, Some None) /\
  fst (@starcos_select_fid F 0x56 0x78 None (fresh_card [])) = (SC_SUCCESS, None).
Proof.
  intros F.
  destruct (@select_fid_missing_fci_tag F 0x56 0x78 (fresh_card [])) as [Hslot Hnull].
  - vm_compute. discriminate.
  - right. split; reflexivity.
  - vm_compute. discriminate.
  - intros [E _]. vm_compute in E. discriminate E.
  - vm_compute. discriminate.
  - rewrite (Hslot None blank_file eq_refl), Hnull. split; reflexivity.
Defined.

(** A status 90 xx with xx other than 00 is not taken as success by the
    FID-select, but the translator maps it to 0: the call returns
    SC_SUCCESS although no descriptor is built and the cache is not
    updated. *)
Theorem select_fid_warning_status `{Framework} (id_hi id_lo : Z) (file_out : file_slot)
    (c : sc_card) :
  let apdu := select_fid_apdu c id_hi id_lo in
  let rep := card_reply (apdu_log c) apdu in
  0 <= reply_r rep -> reply_sw1 rep = 0x90 -> reply_sw2 rep <> 0x00 ->
  starcos_select_fid id_hi id_lo file_out c
  = (SC_SUCCESS, store_slot file_out None, set_apdu_log (apdu_log c ++ [apdu]) c).
Proof.
  intros apdu rep Hr H90 Hsw2.
  unfold starcos_select_fid, select_fid_finish. run_monad. fold apdu. fold rep.
  replace (reply_r rep <? 0) with false by (symmetry; apply Z.ltb_ge; lia).
  change (apdu_p2 apdu =? 0x00) with true. rewrite H90.
  destruct (Z.eqb_spec (reply_sw2 rep) 0x00) as [?|_]; [contradiction|].
  cbn [andb orb negb Z.eqb Pos.eqb]. reflexivity.
Qed.

Lemma select_fid_warning_status_witness :
  @starcos_select_fid (scripted_card [sw_only 0x90 0x01]) 0x12 0x34 (Some None)
     (fresh_card [])
  = (SC_SUCCESS, Some None,
     set_apdu_log [select_fid_apdu (fresh_card []) 0x12 0x34] (fresh_card [])).
Proof.
  apply (@select_fid_warning_status (scripted_card [sw_only 0x90 0x01]) 0x12 0x34
           (Some None) (fresh_card [])).
  - vm_compute. discriminate.
  - reflexivity.
  - vm_compute. discriminate.
Defined.



(** ** Further properties: selections and the cache *)

Ltac is_pos p :=
  lazymatch p with
  | xH => idtac
  | xO ?q => is_pos q
  | xI ?q => is_pos q
  end.

Ltac is_num z :=
  lazymatch z with
  | Z0 => idtac
  | Zpos ?p => is_pos p
  | Zneg ?p => is_pos p
  end.

(* Evaluates the arithmetic and the comparisons whose operands are numerals. *)
Ltac eval_closed :=
  repeat match goal with
         | |- context [Z.add ?a ?b] =>
             is_num a; is_num b;
             let v := eval vm_compute in (Z.add a b) in change (Z.add a b) with v
         | |- context [Z.sub ?a ?b] =>
             is_num a; is_num b;
             let v := eval vm_compute in (Z.sub a b) in change (Z.sub a b) with v
         | |- context [Z.modulo ?a ?b] =>
             is_num a; is_num b;
             let v := eval vm_compute in (Z.modulo a b) in change (Z.modulo a b) with v
         | |- context [size_t_sub ?a ?b] =>
             is_num a; is_num b;
             let v := eval vm_compute in (size_t_sub a b) in
             change (size_t_sub a b) with v
         | |- context [Z.eqb ?a ?b] =>
             is_num a; is_num b;
             let v := eval vm_compute in (Z.eqb a b) in change (Z.eqb a b) with v
         | |- context [Z.ltb ?a ?b] =>
             is_num a; is_num b;
             let v := eval vm_compute in (Z.ltb a b) in change (Z.ltb a b) with v
         | |- context [Z.leb ?a ?b] =>
             is_num a; is_num b;
             let v := eval vm_compute in (Z.leb a b) in change (Z.leb a b) with v
         end.

Lemma memcmp_memcpy (dest src : list Z) (n : Z) :
  length src = Z.to_nat n -> memcmp_eq (memcpy dest src n) src n = true.
Proof.
  intros Hlen. apply memcmp_eq_spec. intros i Hi. unfold memcpy, at_index.
  rewrite <- Hlen, firstn_all. apply lookup_total_app_l. lia.
Qed.

(** The card structure after an accepted AID-select. *)
Lemma select_aid_accepted_card `{Framework} (aid : list Z) (len : Z) (file_out : file_slot)
    (c : sc_card) :
  let apdu := select_aid_apdu c aid len in
  let rep := card_reply (apdu_log c) apdu in
  0 <= reply_r rep ->
  (reply_sw1 rep = 0x90 /\ reply_sw2 rep = 0x00) \/ reply_sw1 rep = 0x61 ->
  snd (starcos_select_aid aid len file_out c)
  = set_cache (mk_path (memcpy (path_value (cache_current_path c)) aid len) len
                       (path_index (cache_current_path c)) SC_PATH_TYPE_DF_NAME)
              (set_apdu_log (apdu_log c ++ [apdu]) c).
Proof.
  intros apdu rep Hr Hacc. unfold starcos_select_aid. run_monad. fold apdu. fold rep.
  replace (reply_r rep <? 0) with false by (symmetry; apply Z.ltb_ge; lia).
  replace (negb ((reply_sw1 rep =? 0x90) && (reply_sw2 rep =? 0x00))
           && negb (reply_sw1 rep =? 0x61)) with false.
  - destruct file_out; [destruct sc_file_new|]; reflexivity.
  - symmetry. destruct Hacc as [[-> ->]| ->]; [reflexivity|]. apply andb_false_r.
Qed.

(** Selecting an application twice: once the card has accepted the
    AID-select (or the cache already held the AID), the same request is
    answered from the cache, with no command sent. *)
Theorem select_aid_then_cache_hit `{Framework} (fuel : nat) (in_path : sc_path)
    (file_out file_out' : file_slot) (c : sc_card) :
  path_type in_path = SC_PATH_TYPE_DF_NAME ->
  wf_path in_path ->
  cache_valid c = true ->
  let aid := take (Z.to_nat (path_len in_path)) (path_value in_path) in
  let rep := card_reply (apdu_log c) (select_aid_apdu c aid (path_len in_path)) in
  0 <= reply_r rep ->
  (reply_sw1 rep = 0x90 /\ reply_sw2 rep = 0x00) \/ reply_sw1 rep = 0x61 ->
  let c1 := snd (starcos_select_file (S fuel) in_path file_out c) in
  starcos_select_file (S fuel) in_path file_out' c1 = (Some (SC_SUCCESS, file_out'), c1).
Proof.
  intros Hty Hwf Hvalid aid rep Hr Hacc c1.
  pose proof (pathbuf_length in_path Hwf) as Hbuflen. fold aid in Hbuflen.
  assert (Hstep : forall fo c0,
            starcos_select_file (S fuel) in_path fo c0
            = if cache_valid c0
                 && (path_type (cache_current_path c0) =? SC_PATH_TYPE_DF_NAME)
                 && (path_len (cache_current_path c0) =? path_len in_path)
                 && memcmp_eq (path_value (cache_current_path c0)) aid (path_len in_path)
              then (Some (SC_SUCCESS, fo), c0)
              else (Some <$> starcos_select_aid aid (path_len in_path) fo) c0).
  { intros fo c0. cbn [starcos_select_file]. run_bind. fold aid. rewrite Hty.
    change (SC_PATH_TYPE_DF_NAME =? SC_PATH_TYPE_FILE_ID) with false.
    change (SC_PATH_TYPE_DF_NAME =? SC_PATH_TYPE_DF_NAME) with true. cbv iota.
    match goal with |- context [if ?b then _ else _] => destruct b end; reflexivity. }
  assert (Hhit : cache_valid c1
                 && (path_type (cache_current_path c1) =? SC_PATH_TYPE_DF_NAME)
                 && (path_len (cache_current_path c1) =? path_len in_path)
                 && memcmp_eq (path_value (cache_current_path c1)) aid (path_len in_path)
                 = true).
  { subst c1. rewrite Hstep.
    match goal with |- context [if ?b then _ else _] => destruct b eqn:Hb end.
    - exact Hb.
    - rewrite fmap_Some_run. cbn [snd].
      rewrite (select_aid_accepted_card aid (path_len in_path) file_out c Hr Hacc).
      destruct c as [atr cla le algs valid cur mse log]. cbn in Hvalid. subst valid.
      cbn [set_cache set_apdu_log cache_valid cache_current_path path_type path_len
           path_value apdu_log card_atr card_cla card_max_le card_algorithms drv_data].
      change (SC_PATH_TYPE_DF_NAME =? SC_PATH_TYPE_DF_NAME) with true.
      rewrite Z.eqb_refl, memcmp_memcpy by exact Hbuflen. reflexivity. }
  rewrite Hstep, Hhit. reflexivity.
Qed.

Lemma select_aid_then_cache_hit_witness :
  let F := scripted_card [sw_only 0x90 0x00] in
  let req := path_of SC_PATH_TYPE_DF_NAME [0xA0; 0x00; 0x00; 0x00; 0x63] in
  let c1 := snd (@starcos_select_file F 1 req (Some None)
                   (cached_card (path_of SC_PATH_TYPE_PATH [0x3F; 0x00]))) in
  @starcos_select_file F 1 req None c1 = (Some (SC_SUCCESS, None), c1).
Proof.
  intros F req c1.
  apply (@select_aid_then_cache_hit F 0 req (Some None) None
           (cached_card (path_of SC_PATH_TYPE_PATH [0x3F; 0x00]))).
  - reflexivity.
  - split; [reflexivity|]. vm_compute. split; discriminate.
  - reflexivity.
  - vm_compute. discriminate.
  - left. split; reflexivity.
Defined.

(** The card structure after a FID-select that found a DF. *)
Lemma select_fid_df_card `{Framework} (id_hi id_lo : Z) (file_out : file_slot)
    (c : sc_card) :
  fid_select_df_accepted id_hi id_lo c ->
  cache_current_path (snd (starcos_select_fid id_hi id_lo file_out c))
  = cache_df id_hi id_lo (cache_current_path c) /\
  cache_valid (snd (starcos_select_fid id_hi id_lo file_out c)) = cache_valid c.
Proof.
  unfold fid_select_df_accepted, select_accepted.
  set (apdu := select_fid_apdu c id_hi id_lo).
  set (rep := card_reply (apdu_log c) apdu).
  set (rep' := card_reply (apdu_log c ++ [apdu]) (reselect_fid_apdu apdu)).
  set (rep2 := card_reply (apdu_log c ++ [apdu]) (read_binary_apdu c)).
  intros [Hr Hroute].
  unfold starcos_select_fid, select_fid_finish. run_monad. fold apdu. fold rep.
  replace (reply_r rep <? 0) with false by (symmetry; apply Z.ltb_ge; lia).
  change (apdu_p2 apdu =? 0x00) with true. cbn [andb].
  destruct Hroute as [(H62 & H84 & Hr' & Hacc)|(Hacc & Hr2 & H69 & H86)].
  - rewrite H62, H84. cbn [Z.eqb Pos.eqb andb]. rewrite !apdu_log_set. fold rep'.
    replace (reply_r rep' <? 0) with false by (symmetry; apply Z.ltb_ge; lia).
    replace (negb (reply_sw1 rep' =? 0x61)
             && (negb (reply_sw1 rep' =? 0x90) || negb (reply_sw2 rep' =? 0x00)))
      with false by (destruct Hacc as [->|[-> ->]]; reflexivity).
    destruct c; destruct file_out; [destruct sc_file_new|]; split; reflexivity.
  - replace ((reply_sw1 rep =? 0x62) && (reply_sw2 rep =? 0x84)) with false
      by (destruct Hacc as [->|[-> ->]]; reflexivity).
    replace ((reply_sw1 rep =? 0x61)
             || ((reply_sw1 rep =? 0x90) && (reply_sw2 rep =? 0x00))) with true
      by (destruct Hacc as [->|[-> ->]]; reflexivity).
    rewrite !apdu_log_set. fold rep2.
    replace (reply_r rep2 <? 0) with false by (symmetry; apply Z.ltb_ge; lia).
    replace (negb (reply_sw1 rep =? 0x61)
             && (negb (reply_sw1 rep =? 0x90) || negb (reply_sw2 rep =? 0x00)))
      with false by (destruct Hacc as [->|[-> ->]]; reflexivity).
    rewrite H69, H86. cbn [Z.eqb Pos.eqb andb].
    destruct c; destruct file_out; [destruct sc_file_new|]; split; reflexivity.
Qed.

(** Selecting a directory twice by file id: once the FID-select has found
    a DF (or the cache already ended in the FID), the same request is
    answered from the cache, with no command sent. *)
Theorem select_df_then_cache_hit `{Framework} (fuel : nat) (in_path : sc_path)
    (file_out file_out' : file_slot) (c : sc_card) :
  path_type in_path = SC_PATH_TYPE_FILE_ID ->
  path_len in_path = 2 ->
  wf_path (cache_current_path c) ->
  cache_valid c = true ->
  let req := take (Z.to_nat (path_len in_path)) (path_value in_path) in
  fid_select_df_accepted (at_index req 0) (at_index req 1) c ->
  let c1 := snd (starcos_select_file (S fuel) in_path file_out c) in
  starcos_select_file (S fuel) in_path file_out' c1 = (Some (SC_SUCCESS, file_out'), c1).
Proof.
  intros Hty Hlen Hwf Hvalid req Hdf c1.
  assert (Hstep : forall fo c0,
            starcos_select_file (S fuel) in_path fo c0
            = if cache_valid c0
                 && (path_type (cache_current_path c0) =? SC_PATH_TYPE_PATH)
                 && (2 <=? path_len (cache_current_path c0))
                 && (at_index (path_value (cache_current_path c0))
                              (path_len (cache_current_path c0) - 2) =? at_index req 0)
                 && (at_index (path_value (cache_current_path c0))
                              (path_len (cache_current_path c0) - 1) =? at_index req 1)
              then (Some (SC_SUCCESS, fo), c0)
              else (Some <$> starcos_select_fid (at_index req 0) (at_index req 1) fo) c0).
  { intros fo c0. cbn [starcos_select_file]. run_bind. fold req. rewrite Hty, Hlen.
    change (SC_PATH_TYPE_FILE_ID =? SC_PATH_TYPE_FILE_ID) with true.
    change (negb (2 =? 2)) with false. cbv iota.
    match goal with |- context [if ?b then _ else _] => destruct b end; reflexivity. }
  assert (Hhit : cache_valid c1
                 && (path_type (cache_current_path c1) =? SC_PATH_TYPE_PATH)
                 && (2 <=? path_len (cache_current_path c1))
                 && (at_index (path_value (cache_current_path c1))
                              (path_len (cache_current_path c1) - 2) =? at_index req 0)
                 && (at_index (path_value (cache_current_path c1))
                              (path_len (cache_current_path c1) - 1) =? at_index req 1)
                 = true).
  { subst c1. rewrite Hstep.
    match goal with |- context [if ?b then _ else _] => destruct b eqn:Hb end.
    - exact Hb.
    - rewrite fmap_Some_run. cbn [snd].
      destruct (select_fid_df_card (at_index req 0) (at_index req 1) file_out c Hdf)
        as [-> ->].
      rewrite Hvalid. destruct Hwf as [Hvlen _]. unfold cache_df.
      unfold SC_MAX_PATH_SIZE in Hvlen.
      destruct (path_value (cache_current_path c)) as [|a [|b [|x [|y v]]]];
        try (exfalso; cbn in Hvlen; lia).
      destruct (Z.eqb_spec (at_index req 0) 0x3f) as [E0|E0];
        [destruct (Z.eqb_spec (at_index req 1) 0x00) as [E1|E1]|];
        cbn [andb path_type path_len path_value];
        rewrite ?E0, ?E1; cbn; rewrite ?Z.eqb_refl; reflexivity. }
  rewrite Hstep, Hhit. reflexivity.
Qed.

Lemma select_df_then_cache_hit_witness :
  let F := scripted_card [sw_only 0x62 0x84; sw_only 0x90 0x00] in
  let req := path_of SC_PATH_TYPE_FILE_ID [0x12; 0x34] in
  let c1 := snd (@starcos_select_file F 1 req (Some None)
                   (cached_card (path_of SC_PATH_TYPE_PATH [0x3F; 0x00]))) in
  @starcos_select_file F 1 req None c1 = (Some (SC_SUCCESS, None), c1).
Proof.
  intros F req c1.
  apply (@select_df_then_cache_hit F 0 req (Some None) None
           (cached_card (path_of SC_PATH_TYPE_PATH [0x3F; 0x00]))).
  - reflexivity.
  - reflexivity.
  - split; [reflexivity|]. vm_compute. split; discriminate.
  - reflexivity.
  - split; [vm_compute; discriminate|]. left.
    split; [reflexivity|]. split; [reflexivity|].
    split; [vm_compute; discriminate|]. right. split; reflexivity.
Defined.

Lemma count_match_full (v p : list Z) (len : Z) :
  len = 2 \/ len = 4 ->
  (forall i, 0 <= i < len -> at_index v i = at_index p i) ->
  count_match (Z.to_nat len) v p len 0 0 = len.
Proof.
  intros Hlen Hall.
  assert (Hstep : forall steps i b,
            count_match (S steps) v p len i b
            = if i <? len
              then count_match steps v p len (i + 2)
                     (if (at_index v i =? at_index p i)
                         && (at_index v (i + 1) =? at_index p (i + 1))
                      then b + 2 else b)
              else b) by reflexivity.
  destruct Hlen as [Hlen|Hlen]; rewrite Hlen in *.
  - change (Z.to_nat 2) with 2%nat. rewrite !Hstep. eval_closed. cbv iota.
    rewrite (Hall 0), (Hall 1) by lia. rewrite !Z.eqb_refl. reflexivity.
  - change (Z.to_nat 4) with 4%nat. rewrite !Hstep. eval_closed. cbv iota.
    rewrite (Hall 0), (Hall 1), (Hall 2), (Hall 3) by lia.
    rewrite !Z.eqb_refl. reflexivity.
Qed.

(** A request by path whose leading FIDs are the valid cached path,
    with at most one FID more: what [starcos_select_file] does. *)
Lemma select_file_path_cached `{Framework} (fuel : nat) (in_path : sc_path)
    (file_out : file_slot) (c : sc_card) :
  let cur := cache_current_path c in
  let pathbuf := take (Z.to_nat (path_len in_path)) (path_value in_path) in
  let path := unified_path pathbuf in
  let L := Z.of_nat (length path) in
  path_type in_path = SC_PATH_TYPE_PATH ->
  wf_path in_path ->
  path_len in_path = 2 \/ path_len in_path = 4 \/ path_len in_path = 6 ->
  (path_len in_path = 6 -> at_index pathbuf 0 = 0x3f /\ at_index pathbuf 1 = 0x00) ->
  cache_valid c = true ->
  path_type cur = SC_PATH_TYPE_PATH ->
  path_len cur = 2 \/ path_len cur = 4 ->
  L = path_len cur \/ L = path_len cur + 2 ->
  (forall i, 0 <= i < path_len cur -> at_index (path_value cur) i = at_index path i) ->
  starcos_select_file (S fuel) in_path file_out c
  = if L =? path_len cur + 2 then
      (Some <$> starcos_select_fid (at_index path (path_len cur))
                                   (at_index path (path_len cur + 1)) file_out) c
    else
      match file_out with
      | Some _ =>
          match sc_file_new with
          | None => (Some (SC_ERROR_OUT_OF_MEMORY, file_out), c)
          | Some file =>
              let file := set_file_id (Z.shiftl (at_index path (L - 2)) 8
                                       + at_index path (L - 1)) file in
              let file := set_file_path (copy_path (file_path file) cur) file in
              let file := set_file_type SC_FILE_TYPE_DF file in
              let file := set_file_ef_structure SC_FILE_EF_UNKNOWN file in
              let file := set_file_size 0 file in
              let file := set_file_namelen 0 file in
              let file := set_file_magic SC_FILE_MAGIC file in
              (Some (SC_SUCCESS, Some (Some file)), c)
          end
      | None => (Some (SC_SUCCESS, file_out), c)
      end.
Proof.
  intros cur pathbuf path L Hty Hwf Hlen Hroot Hvalid Hcty Hclen HL Hall.
  pose proof (pathbuf_length in_path Hwf) as Hbuflen. fold pathbuf in Hbuflen.
  pose proof (count_match_full (path_value cur) path (path_len cur) Hclen Hall) as Hb.
  cbn [starcos_select_file]. run_bind. fold cur. fold pathbuf.
  rewrite Hty, Hvalid, Hcty.
  change (SC_PATH_TYPE_PATH =? SC_PATH_TYPE_FILE_ID) with false.
  change (SC_PATH_TYPE_PATH =? SC_PATH_TYPE_DF_NAME) with false.
  change (SC_PATH_TYPE_PATH =? SC_PATH_TYPE_PATH) with true. cbv iota. cbn [andb].
  assert (HLv : L = if negb (at_index pathbuf 0 =? 0x3f) || negb (at_index pathbuf 1 =? 0x00)
                    then path_len in_path + 2 else path_len in_path).
  { subst L path. unfold unified_path.
    destruct (negb (at_index pathbuf 0 =? 0x3f) || negb (at_index pathbuf 1 =? 0x00));
      rewrite ?length_app, Hbuflen; cbn [length]; lia. }
  clearbody L. subst path. unfold unified_path in *. clearbody pathbuf. clearbody cur.
  destruct (negb (at_index pathbuf 0 =? 0x3f) || negb (at_index pathbuf 1 =? 0x00))
    eqn:Hu.
  - (* the MF is put in front *)
    assert (Hn6 : path_len in_path <> 6).
    { intros E. destruct (Hroot E) as [E0 E1]. rewrite E0, E1 in Hu. discriminate Hu. }
    destruct Hlen as [Hl|[Hl|Hl]]; [| |contradiction]; rewrite Hl in *;
      destruct Hclen as [Hc|Hc]; rewrite Hc in *; try (exfalso; lia);
      vm_compute in HLv; subst L;
      eval_closed; cbn [negb orb andb]; cbv beta iota;
      rewrite Hb; eval_closed; cbv beta iota;
      first [reflexivity | destruct file_out; [destruct sc_file_new|]; reflexivity].
  - destruct Hlen as [Hl|[Hl|Hl]]; rewrite Hl in *;
      destruct Hclen as [Hc|Hc]; rewrite Hc in *; try (exfalso; lia);
      subst L;
      eval_closed; cbn [negb orb andb]; cbv beta iota;
      rewrite ?Hu; cbn [andb]; cbv beta iota; eval_closed; cbn [andb]; cbv beta iota;
      rewrite Hb; eval_closed; cbv beta iota;
      first [reflexivity | destruct file_out; [destruct sc_file_new|]; reflexivity].
Qed.

(** A request by path for a file right below the valid cached directory
    costs one FID-select, for the last FID of the path with the caller's
    slot; the directories in front are not selected again. *)
Theorem select_file_below_cached_dir `{Framework} (fuel : nat) (in_path : sc_path)
    (file_out : file_slot) (c : sc_card) :
  let cur := cache_current_path c in
  let pathbuf := take (Z.to_nat (path_len in_path)) (path_value in_path) in
  let path := unified_path pathbuf in
  path_type in_path = SC_PATH_TYPE_PATH ->
  wf_path in_path ->
  path_len in_path = 2 \/ path_len in_path = 4 \/ path_len in_path = 6 ->
  (path_len in_path = 6 -> at_index pathbuf 0 = 0x3f /\ at_index pathbuf 1 = 0x00) ->
  cache_valid c = true ->
  path_type cur = SC_PATH_TYPE_PATH ->
  path_len cur = 2 \/ path_len cur = 4 ->
  Z.of_nat (length path) = path_len cur + 2 ->
  (forall i, 0 <= i < path_len cur -> at_index (path_value cur) i = at_index path i) ->
  let res := starcos_select_file (S fuel) in_path file_out c in
  res = (Some <$> starcos_select_fid (at_index path (path_len cur))
                                     (at_index path (path_len cur + 1)) file_out) c /\
  fid_selects (apdu_log (snd res))
  = fid_selects (apdu_log c)
    ++ [(at_index path (path_len cur), at_index path (path_len cur + 1))].
Proof.
  intros cur pathbuf path Hty Hwf Hlen Hroot Hvalid Hcty Hclen HL Hall res.
  assert (Hres : res = (Some <$> starcos_select_fid (at_index path (path_len cur))
                          (at_index path (path_len cur + 1)) file_out) c).
  { subst res.
    rewrite (select_file_path_cached fuel in_path file_out c Hty Hwf Hlen Hroot Hvalid
               Hcty Hclen (or_intror HL) Hall).
    fold cur. fold pathbuf. fold path. rewrite HL, Z.eqb_refl. reflexivity. }
  split; [exact Hres|]. rewrite Hres, fmap_Some_run. cbn [snd].
  apply select_fid_selects.
Qed.

Lemma select_file_below_cached_dir_witness :
  let F := scripted_card [with_data [0x6F; 0x03; 0x82; 0x01; 0x01]; sw_only 0x90 0x00] in
  let c := cached_card (path_of SC_PATH_TYPE_PATH [0x3F; 0x00; 0x12; 0x34]) in
  fid_selects
    (apdu_log (snd (@starcos_select_file F 1
                      (path_of SC_PATH_TYPE_PATH [0x3F; 0x00; 0x12; 0x34; 0x56; 0x78])
                      (Some None) c)))
  = [(0x56, 0x78)].
Proof.
  intros F c.
  refine (proj2 (@select_file_below_cached_dir F 0
                   (path_of SC_PATH_TYPE_PATH [0x3F; 0x00; 0x12; 0x34; 0x56; 0x78])
                   (Some None) c eq_refl _ _ _ eq_refl eq_refl _ eq_refl _)).
  - split; [reflexivity|]. vm_compute. split; discriminate.
  - right. right. reflexivity.
  - intros _. split; reflexivity.
  - right. reflexivity.
  - intros i Hi. change (path_len (cache_current_path c)) with 4 in Hi.
    assert (Hc : i = 0 \/ i = 1 \/ i = 2 \/ i = 3) by lia.
    destruct Hc as [->|[->|[->| ->]]]; reflexivity.
Defined.

(** A request by path for the valid cached directory itself sends nothing
    and changes nothing; a caller who passed a slot gets a descriptor made
    up from the cache: a DF whose id is the last FID of the request. *)
Theorem select_file_at_cached_dir `{Framework} (fuel : nat) (in_path : sc_path)
    (file_out : file_slot) (c : sc_card) :
  let cur := cache_current_path c in
  let pathbuf := take (Z.to_nat (path_len in_path)) (path_value in_path) in
  let path := unified_path pathbuf in
  let L := Z.of_nat (length path) in
  path_type in_path = SC_PATH_TYPE_PATH ->
  wf_path in_path ->
  path_len in_path = 2 \/ path_len in_path = 4 \/ path_len in_path = 6 ->
  (path_len in_path = 6 -> at_index pathbuf 0 = 0x3f /\ at_index pathbuf 1 = 0x00) ->
  cache_valid c = true ->
  path_type cur = SC_PATH_TYPE_PATH ->
  path_len cur = 2 \/ path_len cur = 4 ->
  L = path_len cur ->
  (forall i, 0 <= i < path_len cur -> at_index (path_value cur) i = at_index path i) ->
  let res := starcos_select_file (S fuel) in_path file_out c in
  snd res = c /\
  (file_out = None -> fst res = Some (SC_SUCCESS, None)) /\
  (forall slot file0,
     file_out = Some slot -> sc_file_new = Some file0 ->
     exists f,
       fst res = Some (SC_SUCCESS, Some (Some f)) /\
       file_type f = SC_FILE_TYPE_DF /\
       file_id f = Z.shiftl (at_index path (L - 2)) 8 + at_index path (L - 1) /\
       file_path f = copy_path (file_path file0) cur).
Proof.
  intros cur pathbuf path L Hty Hwf Hlen Hroot Hvalid Hcty Hclen HL Hall res.
  assert (Hres : res
                 = match file_out with
                   | Some _ =>
                       match sc_file_new with
                       | None => (Some (SC_ERROR_OUT_OF_MEMORY, file_out), c)
                       | Some file =>
                           let file := set_file_id (Z.shiftl (at_index path (L - 2)) 8
                                                    + at_index path (L - 1)) file in
                           let file := set_file_path (copy_path (file_path file) cur)
                                                     file in
                           let file := set_file_type SC_FILE_TYPE_DF file in
                           let file := set_file_ef_structure SC_FILE_EF_UNKNOWN file in
                           let file := set_file_size 0 file in
                           let file := set_file_namelen 0 file in
                           let file := set_file_magic SC_FILE_MAGIC file in
                           (Some (SC_SUCCESS, Some (Some file)), c)
                       end
                   | None => (Some (SC_SUCCESS, file_out), c)
                   end).
  { subst res.
    rewrite (select_file_path_cached fuel in_path file_out c Hty Hwf Hlen Hroot Hvalid
               Hcty Hclen (or_introl HL) Hall).
    fold cur. fold pathbuf. fold path. fold L. rewrite HL.
    replace (path_len cur =? path_len cur + 2) with false
      by (symmetry; apply Z.eqb_neq; lia).
    reflexivity. }
  rewrite Hres. repeat split.
  - destruct file_out; [destruct sc_file_new|]; reflexivity.
  - intros ->. reflexivity.
  - intros slot file0 -> ->. eexists. split; [reflexivity|]. repeat split.
Qed.

Lemma select_file_at_cached_dir_witness :
  let c := cached_card (path_of SC_PATH_TYPE_PATH [0x3F; 0x00; 0x12; 0x34]) in
  snd (@starcos_select_file (scripted_card []) 1
         (path_of SC_PATH_TYPE_PATH [0x12; 0x34]) (Some None) c) = c.
Proof.
  intros c.
  refine (proj1 (@select_file_at_cached_dir (scripted_card []) 0
                   (path_of SC_PATH_TYPE_PATH [0x12; 0x34])
                   (Some None) c eq_refl _ _ _ eq_refl eq_refl _ eq_refl _)).
  - split; [reflexivity|]. vm_compute. split; discriminate.
  - left. reflexivity.
  - intros E. vm_compute in E. discriminate E.
  - right. reflexivity.
  - intros i Hi. change (path_len (cache_current_path c)) with 4 in Hi.
    assert (Hc : i = 0 \/ i = 1 \/ i = 2 \/ i = 3) by lia.
    destruct Hc as [->|[->|[->| ->]]]; reflexivity.
Defined.

(** Without a valid cache a path of more than one FID is walked from the
    MF, and the walk ends at the first failure: when the FID-select of the
    MF fails, its result is returned, no other FID is selected and the
    caller's slot is left as it was. *)
Theorem select_file_walk_stops `{Framework} (fuel : nat) (in_path : sc_path)
    (file_out : file_slot) (c c1 : sc_card) (r1 : Z) (s1 : file_slot) :
  let pathbuf := take (Z.to_nat (path_len in_path)) (path_value in_path) in
  path_type in_path = SC_PATH_TYPE_PATH ->
  wf_path in_path ->
  path_len in_path = 2 \/ path_len in_path = 4 \/ path_len in_path = 6 ->
  (path_len in_path = 6 -> at_index pathbuf 0 = 0x3f /\ at_index pathbuf 1 = 0x00) ->
  4 <= Z.of_nat (length (unified_path pathbuf)) ->
  cache_valid c = false ->
  starcos_select_fid 0x3f 0x00 None c = (r1, s1, c1) ->
  r1 < 0 ->
  starcos_select_file (S fuel) in_path file_out c = (Some (r1, file_out), c1).
Proof.
  intros pathbuf Hty Hwf Hlen Hroot HL Hvalid Hs1 Hr1.
  pose proof (pathbuf_length in_path Hwf) as Hbuflen. fold pathbuf in Hbuflen.
  cbn [starcos_select_file]. run_bind. fold pathbuf.
  rewrite Hty, Hvalid.
  change (SC_PATH_TYPE_PATH =? SC_PATH_TYPE_FILE_ID) with false.
  change (SC_PATH_TYPE_PATH =? SC_PATH_TYPE_DF_NAME) with false.
  change (SC_PATH_TYPE_PATH =? SC_PATH_TYPE_PATH) with true. cbv iota. cbn [andb].
  unfold unified_path in HL. clearbody pathbuf.
  assert (Hneg : (r1 <? 0) = true) by (apply Z.ltb_lt; lia).
  destruct (negb (at_index pathbuf 0 =? 0x3f) || negb (at_index pathbuf 1 =? 0x00))
    eqn:Hu.
  - assert (Hn6 : path_len in_path <> 6).
    { intros E. destruct (Hroot E) as [E0 E1]. rewrite E0, E1 in Hu. discriminate Hu. }
    destruct Hlen as [Hl|[Hl|Hl]]; [| |contradiction]; rewrite Hl in *;
      eval_closed; cbn [negb orb andb]; cbv beta iota;
      [change (Z.to_nat 4) with 4%nat|change (Z.to_nat 6) with 6%nat];
      rewrite select_walk_step; eval_closed; cbv iota; run_bind;
      change (at_index ([0x3f; 0x00] ++ pathbuf) 0) with 0x3f;
      change (at_index ([0x3f; 0x00] ++ pathbuf) 1) with 0x00;
      rewrite Hs1; do 2 (cbv beta iota; rewrite ?Hneg; run_bind); reflexivity.
  - apply orb_false_iff in Hu as [Hu0 Hu1].
    apply negb_false_iff, Z.eqb_eq in Hu0, Hu1.
    rewrite Hbuflen in HL.
    destruct Hlen as [Hl|[Hl|Hl]]; rewrite Hl in *; [exfalso; cbn in HL; lia| |];
      rewrite ?Hu0, ?Hu1; eval_closed; cbn [negb orb andb]; cbv beta iota;
      [change (Z.to_nat 4) with 4%nat|change (Z.to_nat 6) with 6%nat];
      rewrite select_walk_step; eval_closed; cbv iota; run_bind;
      rewrite Hu0, Hu1, Hs1; do 2 (cbv beta iota; rewrite ?Hneg; run_bind); reflexivity.
Qed.

Lemma select_file_walk_stops_witness :
  fst (@starcos_select_file (scripted_card [sw_only 0x6F 0x07; sw_only 0x90 0x00]) 1
         (path_of SC_PATH_TYPE_PATH [0x12; 0x34]) (Some None) (fresh_card []))
  = Some (SC_ERROR_FILE_NOT_FOUND, Some None).
Proof.
  rewrite (@select_file_walk_stops
             (scripted_card [sw_only 0x6F 0x07; sw_only 0x90 0x00]) 0
             (path_of SC_PATH_TYPE_PATH [0x12; 0x34]) (Some None) (fresh_card [])
             (snd (@starcos_select_fid
                     (scripted_card [sw_only 0x6F 0x07; sw_only 0x90 0x00])
                     0x3f 0x00 None (fresh_card [])))
             SC_ERROR_FILE_NOT_FOUND None).
  - reflexivity.
  - reflexivity.
  - split; [reflexivity|]. vm_compute. split; discriminate.
  - left. reflexivity.
  - intros E. vm_compute in E. discriminate E.
  - vm_compute. discriminate.
  - reflexivity.
  - reflexivity.
  - reflexivity.
Defined.

(** ** Further properties: recognition and initialisation *)

Lemma match_loop_entry `{Framework} (atrp : string) (atrs : list string) (i : Z)
    (card : sc_card) :
  (atr_matches atrp card /\ match_loop (atrp :: atrs) i card = (i, i + 1)) \/
  (~ atr_matches atrp card /\
   match_loop (atrp :: atrs) i card = match_loop atrs (i + 1) card).
Proof.
  cbn [match_loop]. unfold atr_matches.
  destruct (sc_hex_to_bin atrp SC_MAX_ATR_SIZE) as [defatr|] eqn:Hdec.
  - destruct (Z.eqb_spec (Z.of_nat (length defatr)) (Z.of_nat (length (card_atr card))))
      as [Hlen|Hlen]; cbn [negb].
    + destruct (memcmp_eq (card_atr card) defatr (Z.of_nat (length defatr))) eqn:Hcmp;
        cbn [negb].
      * left. split; [|reflexivity]. exists defatr. repeat split; [lia|exact Hcmp].
      * right. split; [|reflexivity]. intros (d & Hd & _ & Hc). congruence.
    + right. split; [|reflexivity]. intros (d & Hd & Hl & _).
      assert (d = defatr) by congruence. subst d. lia.
  - right. split; [|reflexivity]. intros (d & Hd & _). discriminate Hd.
Qed.

(** [starcos_match_card] answers 0 or 1 and nothing else: 1 exactly when
    the second entry of the table is the first that matches the card's
    ATR, and 0 both when no entry matches and when the first one does. *)
Theorem match_card_values `{Framework} (card : sc_card) :
  let first := "3B:B7:94:00:c0:24:31:fe:65:53:50:4b:32:33:90:00:b4"%string in
  let second := "3B:B7:94:00:81:31:fe:65:53:50:4b:32:33:90:00:d1"%string in
  (starcos_match_card card = 0 \/ starcos_match_card card = 1) /\
  (starcos_match_card card = 1 <->
   ~ atr_matches first card /\ atr_matches second card).
Proof.
  intros first second. unfold starcos_match_card, starcos_atrs. fold first. fold second.
  destruct (match_loop_entry first [second] 0 card) as [[Hm ->]|[Hn ->]].
  - cbn. split; [now left|]. split; [discriminate|]. intros [Hno _]. contradiction.
  - destruct (match_loop_entry second [] (0 + 1) card) as [[Hm ->]|[Hn2 ->]].
    + cbn. split; [now right|]. split; [now split|reflexivity].
    + cbn. split; [now left|]. split; [discriminate|]. intros [_ Hyes]. contradiction.
Qed.

Lemma match_card_values_witness :
  @starcos_match_card (scripted_card []) (fresh_card atr_spk23_b) = 1.
Proof.
  apply (proj2 (proj2 (@match_card_values (scripted_card []) (fresh_card atr_spk23_b)))).
  split.
  - intros (d & Hd & Hl & _). vm_compute in Hd. injection Hd as <-.
    vm_compute in Hl. discriminate Hl.
  - exists atr_spk23_b. repeat split.
Defined.

(** [starcos_init] sends nothing and leaves the cache alone.  When the
    allocation of the state fails it returns SC_ERROR_OUT_OF_MEMORY and
    has written nothing.  Otherwise it sets the class byte to 0 and the
    recorded environment to "none"; it then succeeds exactly when
    [starcos_match_card] gives 1 or 2, registering RSA with 512, 768 and
    1024 bits, each with the same flags and the exponent 0x10001, and
    setting the largest read to 128 bytes; for any other card it returns
    SC_ERROR_INTERNAL and registers nothing. *)
Theorem init_outcome `{Framework} (c : sc_card) :
  let res := starcos_init c in
  let known := starcos_match_card c = 1 \/ starcos_match_card c = 2 in
  apdu_log (snd res) = apdu_log c /\
  cache_current_path (snd res) = cache_current_path c /\
  cache_valid (snd res) = cache_valid c /\
  (malloc_mse_state = None -> res = (SC_ERROR_OUT_OF_MEMORY, c)) /\
  (forall state,
     malloc_mse_state = Some state ->
     card_cla (snd res) = 0 /\
     drv_data (snd res) = mk_mse 0 (mse_buf state) (mse_p1 state) (mse_p2 state) /\
     (known ->
      fst res = 0 /\ card_max_le (snd res) = 128 /\
      card_algorithms (snd res)
      = card_algorithms c ++ [mk_rsa_alg 512 starcos_rsa_flags 0x10001;
                              mk_rsa_alg 768 starcos_rsa_flags 0x10001;
                              mk_rsa_alg 1024 starcos_rsa_flags 0x10001]) /\
     (~ known ->
      fst res = SC_ERROR_INTERNAL /\ card_max_le (snd res) = card_max_le c /\
      card_algorithms (snd res) = card_algorithms c)).
Proof.
  intros res known. subst res known. unfold starcos_init.
  destruct malloc_mse_state as [st|]; run_monad.
  2: { split; [reflexivity|]. split; [reflexivity|]. split; [reflexivity|].
       split; [intros _; reflexivity|]. intros st' E. discriminate E. }
  destruct c as [atr cla le algs valid cur mse log].
  cbn [card_atr card_cla card_max_le card_algorithms cache_valid cache_current_path
       drv_data apdu_log].
  change (starcos_match_card
            (mk_card atr 0 le algs valid cur
               (mk_mse 0 (mse_buf st) (mse_p1 st) (mse_p2 st)) log))
    with (starcos_match_card (mk_card atr cla le algs valid cur mse log)).
  set (type := starcos_match_card (mk_card atr cla le algs valid cur mse log)).
  destruct (Z.eqb_spec type 1) as [E1|E1]; [|destruct (Z.eqb_spec type 2) as [E2|E2]];
    cbn [orb fst snd _sc_card_add_rsa_alg card_atr card_cla card_max_le card_algorithms
         cache_valid cache_current_path drv_data apdu_log sec_ops];
    (split; [reflexivity|]); (split; [reflexivity|]); (split; [reflexivity|]);
    (split; [intros E; discriminate E|]);
    intros st' E; injection E as <-;
    repeat split; try tauto; try (intros _); try reflexivity;
    try (rewrite <- !app_assoc; reflexivity).
Qed.

Lemma init_outcome_witness :
  fst (@starcos_init (scripted_card []) (fresh_card atr_spk23_b)) = 0 /\
  fst (@starcos_init (scripted_card []) (fresh_card [0x3B; 0x00])) = SC_ERROR_INTERNAL /\
  @starcos_init exhausted_host (fresh_card atr_spk23_b)
  = (SC_ERROR_OUT_OF_MEMORY, fresh_card atr_spk23_b).
Proof.
  split; [|split].
  - apply (proj2 (proj2 (proj2 (proj2
             (@init_outcome (scripted_card []) (fresh_card atr_spk23_b)))))
             _ eq_refl).
    left. reflexivity.
  - apply (proj2 (proj2 (proj2 (proj2
             (@init_outcome (scripted_card []) (fresh_card [0x3B; 0x00])))))
             _ eq_refl).
    intros [E|E]; vm_compute in E; discriminate E.
  - apply (proj1 (proj2 (proj2 (proj2
             (@init_outcome exhausted_host (fresh_card atr_spk23_b)))))).
    reflexivity.
Defined.

Lemma init_sec_ops `{Framework} (c : sc_card) :
  fst (starcos_init c) <> SC_ERROR_OUT_OF_MEMORY ->
  sec_ops (drv_data (snd (starcos_init c))) = 0.
Proof.
  unfold starcos_init. destruct malloc_mse_state as [st|]; run_monad.
  - intros _. now case_match.
  - intros E. now contradiction E.
Qed.

(** Between a [starcos_init] that got its memory and the first
    [starcos_set_security_env] the two crypto entry points are closed:
    whether [starcos_init] returned 0 or SC_ERROR_INTERNAL, and whatever
    the input, both return SC_ERROR_INVALID_ARGUMENTS, send nothing and
    leave the card structure as [starcos_init] made it. *)
Theorem init_then_sequencer_refused `{Framework} (c : sc_card) (input : list Z)
    (len outlen : Z) :
  fst (starcos_init c) <> SC_ERROR_OUT_OF_MEMORY ->
  let c' := snd (starcos_init c) in
  starcos_compute_signature input len outlen c' = (SC_ERROR_INVALID_ARGUMENTS, None, c') /\
  starcos_decipher input len outlen c' = (SC_ERROR_INVALID_ARGUMENTS, None, c').
Proof.
  intros Hmem c'. pose proof (init_sec_ops c Hmem) as Hops. fold c' in Hops. clearbody c'.
  unfold starcos_compute_signature, starcos_decipher.
  split; [destruct (20 <? len)|destruct (255 <? len)]; run_monad; try reflexivity;
    rewrite Hops; reflexivity.
Qed.

Lemma init_then_sequencer_refused_witness :
  let c' := snd (@starcos_init (scripted_card []) (fresh_card atr_spk23_b)) in
  sec_ops (drv_data c') = 0 /\
  @starcos_compute_signature (scripted_card []) digest 20 128 c'
  = (SC_ERROR_INVALID_ARGUMENTS, None, c') /\
  @starcos_decipher (scripted_card []) digest 20 128 c'
  = (SC_ERROR_INVALID_ARGUMENTS, None, c').
Proof.
  intros c'. split; [reflexivity|].
  apply (@init_then_sequencer_refused (scripted_card []) (fresh_card atr_spk23_b)).
  vm_compute. discriminate.
Defined.

(** ** Further properties: file creation *)

Lemma namelen_cases (n : Z) :
  0 <= n <= 16 -> In n (map Z.of_nat (seq 0 17)).
Proof.
  intros Hn. replace n with (Z.of_nat (Z.to_nat n)) by lia.
  apply in_map, in_seq. lia.
Qed.

Ltac name_cases file :=
  let Hlen := fresh "Hlen" in
  let Hn := fresh "Hn" in
  intros [Hlen Hn];
  destruct file as [fpath name namelen ftype shareable structure size id rl rc magic];
  cbn [file_name file_namelen file_id] in *;
  do 16 (destruct name as [|? name]; [discriminate Hlen|]);
  destruct name; [|discriminate Hlen]; clear Hlen;
  apply namelen_cases in Hn; cbn in Hn;
  repeat (destruct Hn as [Hn|Hn]); try contradiction; subst namelen.

(** What the stores of lines 663-676 and 690-699 leave in the first 25
    bytes of [sbuf], for a file with a name. *)
Lemma create_file_sbuf_named `{Framework} (file : sc_file) :
  name_in_bounds file -> file_namelen file <> 0 ->
  let sbuf :=
    write_at (write_at (write_at stack_sbuf 0
                [Z.shiftr (Z.land (file_id file) 0xffff) 8; Z.land (file_id file) 0xff])
                2 [Z.land (file_namelen file) 0xff])
             3 (take (Z.to_nat (file_namelen file)) (file_name file)) in
  3 + file_namelen file = Z.of_nat (length (register_df_data file)) /\
  take (Z.to_nat (3 + file_namelen file)) sbuf = register_df_data file /\
  take (Z.to_nat 25) (write_at sbuf 19 [0x00; 0x80; 0x00; 0x00; 0x00; 0x00])
  = create_df_data file.
Proof.
  name_cases file; intros Hnz; try (exfalso; apply Hnz; reflexivity); clear Hnz;
    unfold create_df_data, register_df_data, df_name, stack_sbuf;
    cbn [file_name file_namelen file_id];
    generalize (Z.shiftr (Z.land id 65535) 8) (Z.land id 255); intros hi lo;
    repeat split; vm_compute; reflexivity.
Qed.

(** The same for a file without a name. *)
Lemma create_file_sbuf_unnamed `{Framework} (file : sc_file) :
  file_namelen file = 0 ->
  let sbuf0 :=
    write_at stack_sbuf 0
      [Z.shiftr (Z.land (file_id file) 0xffff) 8; Z.land (file_id file) 0xff] in
  let sbuf := write_at sbuf0 2 [2; at_index sbuf0 0; at_index sbuf0 1] in
  3 + 2 = Z.of_nat (length (register_df_data file)) /\
  take (Z.to_nat (3 + 2)) sbuf = register_df_data file /\
  take (Z.to_nat 25) (write_at sbuf 19 [0x00; 0x80; 0x00; 0x00; 0x00; 0x00])
  = create_df_data file.
Proof.
  intros Hn. unfold create_df_data, register_df_data, df_name, stack_sbuf. rewrite Hn.
  generalize (Z.shiftr (Z.land (file_id file) 65535) 8) (Z.land (file_id file) 255).
  intros hi lo. repeat split; vm_compute; reflexivity.
Qed.

Lemma log_grows (l : list sc_apdu) (a : sc_apdu) (l' : list sc_apdu) :
  l ++ a :: l' <> l.
Proof.
  intros E. apply (f_equal (@length _)) in E. rewrite length_app in E. cbn in E. lia.
Qed.

Lemma create_file_send_run `{Framework} (apdu : sc_apdu) (sbuf : list Z) (len : Z)
    (c : sc_card) :
  let sent := mk_apdu (apdu_cse apdu) (Z.lor (apdu_cla apdu) 0x80) (apdu_ins apdu)
                (apdu_p1 apdu) (apdu_p2 apdu) len (apdu_le apdu)
                (take (Z.to_nat len) sbuf) (apdu_resplen apdu) (apdu_sensitive apdu) in
  let rep := card_reply (apdu_log c) sent in
  create_file_send apdu sbuf len c
  = (if reply_r rep <? 0 then reply_r rep
     else sc_check_sw (reply_sw1 rep) (reply_sw2 rep),
     set_apdu_log (apdu_log c ++ [sent]) c).
Proof.
  unfold create_file_send. run_monad. now case_match.
Qed.

(** The DF branch of [starcos_create_file] as one equation. *)
Lemma create_file_df_run `{Framework} (file : sc_file) (c : sc_card) :
  file_type file = SC_FILE_TYPE_DF -> name_in_bounds file ->
  let reg := register_df_apdu c file in
  let rep := card_reply (apdu_log c) reg in
  let cre := create_df_apdu c file in
  let rep2 := card_reply (apdu_log c ++ [reg]) cre in
  starcos_create_file file c
  = if reply_r rep <? 0 then (reply_r rep, set_apdu_log (apdu_log c ++ [reg]) c)
    else if negb ((reply_sw1 rep =? 0x90) && (reply_sw2 rep =? 0x00))
    then (sc_check_sw (reply_sw1 rep) (reply_sw2 rep),
          set_apdu_log (apdu_log c ++ [reg]) c)
    else (if reply_r rep2 <? 0 then reply_r rep2
          else sc_check_sw (reply_sw1 rep2) (reply_sw2 rep2),
          set_apdu_log (apdu_log c ++ [reg; cre]) c).
Proof.
  intros Htype Hname reg rep cre rep2. subst rep rep2 reg cre.
  unfold starcos_create_file, register_df_apdu, create_df_apdu.
  rewrite Htype.
  change (SC_FILE_TYPE_DF =? SC_FILE_TYPE_WORKING_EF) with false.
  change (SC_FILE_TYPE_DF =? SC_FILE_TYPE_DF) with true.
  destruct c as [atr cla le algs valid cur mse log].
  destruct (Z.eqb_spec (file_namelen file) 0) as [Hz|Hnz]; cbn [negb].
  - destruct (create_file_sbuf_unnamed file Hz) as (Hlc & Hreg & Hcre).
    cbv zeta in Hlc, Hreg, Hcre. run_monad.
    cbn [sc_format_apdu apdu_cse apdu_cla apdu_ins apdu_p1 apdu_p2 apdu_le apdu_resplen
         apdu_sensitive card_cla apdu_log set_apdu_log fst snd].
    rewrite Hreg, Hlc.
    case_match; [reflexivity|]. case_match; [reflexivity|].
    rewrite create_file_send_run.
    cbn [sc_format_apdu apdu_cse apdu_cla apdu_ins apdu_p1 apdu_p2 apdu_le apdu_resplen
         apdu_sensitive card_cla apdu_log set_apdu_log fst snd].
    change (Z.to_nat 25) with 25%nat in *. rewrite Hcre.
    rewrite <- !app_assoc. reflexivity.
  - destruct (create_file_sbuf_named file Hname Hnz) as (Hlc & Hreg & Hcre).
    cbv zeta in Hlc, Hreg, Hcre. run_monad.
    cbn [sc_format_apdu apdu_cse apdu_cla apdu_ins apdu_p1 apdu_p2 apdu_le apdu_resplen
         apdu_sensitive card_cla apdu_log set_apdu_log fst snd].
    rewrite Hreg, Hlc.
    case_match; [reflexivity|]. case_match; [reflexivity|].
    rewrite create_file_send_run.
    cbn [sc_format_apdu apdu_cse apdu_cla apdu_ins apdu_p1 apdu_p2 apdu_le apdu_resplen
         apdu_sensitive card_cla apdu_log set_apdu_log fst snd].
    change (Z.to_nat 25) with 25%nat in *. rewrite Hcre.
    rewrite <- !app_assoc. reflexivity.
Qed.

(** A DF is created in two steps, and the second depends on the first:
    when REGISTER DF cannot be transmitted or is answered by anything but
    90 00, [starcos_create_file] stops there, CREATE is never sent, and
    the result is the transport error or the translated status. *)
Theorem create_df_registration_refused `{Framework} (file : sc_file) (c : sc_card) :
  file_type file = SC_FILE_TYPE_DF -> name_in_bounds file ->
  let reg := register_df_apdu c file in
  let rep := card_reply (apdu_log c) reg in
  reply_r rep < 0 \/ reply_sw1 rep <> 0x90 \/ reply_sw2 rep <> 0x00 ->
  starcos_create_file file c
  = (if reply_r rep <? 0 then reply_r rep
     else sc_check_sw (reply_sw1 rep) (reply_sw2 rep),
     set_apdu_log (apdu_log c ++ [reg]) c).
Proof.
  intros Htype Hname reg rep Hrefused.
  rewrite (create_file_df_run file c Htype Hname). fold reg. fold rep.
  destruct (Z.ltb_spec (reply_r rep) 0) as [Hr|Hr]; [reflexivity|].
  destruct (Z.eqb_spec (reply_sw1 rep) 0x90) as [H1|H1];
    destruct (Z.eqb_spec (reply_sw2 rep) 0x00) as [H2|H2]; cbn [andb negb];
    try reflexivity.
  exfalso. destruct Hrefused as [?|[?|?]]; [lia|contradiction|contradiction].
Qed.

Lemma create_df_registration_refused_witness :
  let file := mk_file (mk_path (replicate 16 0) 0 0 0) (replicate 16 0) 0
                SC_FILE_TYPE_DF 0 0 0x0400 0x4100 0 0 SC_FILE_MAGIC in
  @starcos_create_file (scripted_card [sw_only 0x6A 0x89]) file (fresh_card [])
  = (SC_ERROR_FILE_ALREADY_EXISTS,
     set_apdu_log [mk_apdu SC_APDU_CASE_3_SHORT 0x80 0x52 0x04 0x00 5 0
                     [0x41; 0x00; 2; 0x41; 0x00] 0 0] (fresh_card [])).
Proof.
  intros file.
  apply (@create_df_registration_refused (scripted_card [sw_only 0x6A 0x89]) file
           (fresh_card [])).
  - reflexivity.
  - split; [reflexivity|]. cbn. lia.
  - right. left. cbn. lia.
Defined.

(** When REGISTER DF is answered by 90 00, [starcos_create_file] sends
    exactly one more command, CREATE with P1 = 01 and 25 bytes of data:
    the data of REGISTER DF (FID, length of the name, and the name or, for
    a file without one, the FID again), then whatever the stack held up to
    index 18, then 00 80 00 00 00 00. *)
Theorem create_df_two_commands `{Framework} (file : sc_file) (c : sc_card) :
  file_type file = SC_FILE_TYPE_DF -> name_in_bounds file ->
  let reg := register_df_apdu c file in
  let rep := card_reply (apdu_log c) reg in
  let cre := create_df_apdu c file in
  let rep2 := card_reply (apdu_log c ++ [reg]) cre in
  0 <= reply_r rep -> reply_sw1 rep = 0x90 -> reply_sw2 rep = 0x00 ->
  starcos_create_file file c
  = (if reply_r rep2 <? 0 then reply_r rep2
     else sc_check_sw (reply_sw1 rep2) (reply_sw2 rep2),
     set_apdu_log (apdu_log c ++ [reg; cre]) c) /\
  length (apdu_data cre) = 25%nat /\
  take (length (apdu_data reg)) (apdu_data cre) = apdu_data reg /\
  drop 19 (apdu_data cre) = [0x00; 0x80; 0x00; 0x00; 0x00; 0x00] /\
  apdu_lc reg = 3 + Z.of_nat (length (df_name file)).
Proof.
  intros Htype Hname reg rep cre rep2 Hr H1 H2.
  rewrite (create_file_df_run file c Htype Hname). fold reg. fold rep. fold cre. fold rep2.
  destruct (Z.ltb_spec (reply_r rep) 0) as [Hneg|_]; [lia|].
  rewrite H1, H2. cbn [negb andb Z.eqb Pos.eqb]. split; [reflexivity|].
  assert (Hreg : (length (register_df_data file) <= 19)%nat).
  { unfold register_df_data, df_name. destruct Hname as [Hlen Hn].
    destruct (file_namelen file =? 0); cbn [length app]; [lia|].
    rewrite length_take. lia. }
  subst reg cre. unfold create_df_apdu, register_df_apdu, create_df_data.
  cbn [apdu_data apdu_lc].
  repeat split.
  - rewrite !length_app, length_map, length_seq. cbn [length]. lia.
  - rewrite take_app_length. reflexivity.
  - rewrite app_assoc. rewrite drop_app_length'; [reflexivity|].
    rewrite length_app, length_map, length_seq. lia.
  - unfold register_df_data. cbn [length app]. lia.
Qed.

Lemma create_df_two_commands_witness :
  let file := mk_file (mk_path (replicate 16 0) 0 0 0)
                ([0xA0; 0x00; 0x00] ++ replicate 13 0) 3
                SC_FILE_TYPE_DF 0 0 0x0400 0x4100 0 0 SC_FILE_MAGIC in
  @starcos_create_file (scripted_card [sw_only 0x90 0x00; sw_only 0x90 0x00]) file
    (fresh_card [])
  = (SC_SUCCESS,
     set_apdu_log
       [mk_apdu SC_APDU_CASE_3_SHORT 0x80 0x52 0x04 0x00 6 0
          [0x41; 0x00; 3; 0xA0; 0x00; 0x00] 0 0;
        mk_apdu SC_APDU_CASE_3_SHORT 0x80 0xE0 0x01 0x00 25 0
          ([0x41; 0x00; 3; 0xA0; 0x00; 0x00] ++ replicate 13 0xCC
           ++ [0x00; 0x80; 0x00; 0x00; 0x00; 0x00]) 0 0] (fresh_card [])).
Proof.
  intros file.
  refine (proj1 (@create_df_two_commands
                   (scripted_card [sw_only 0x90 0x00; sw_only 0x90 0x00]) file
                   (fresh_card []) eq_refl _ _ eq_refl eq_refl)).
  - split; [reflexivity|]. cbn. lia.
  - cbn. lia.
Defined.

(** For an EF of a supported structure [starcos_create_file] sends one
    command, CREATE with P1 = 03 and 16 bytes: the FID, eleven zero bytes
    (access conditions, SM byte, SID), and a three-byte descriptor; 82 or
    84 with the record count and record length modulo 256 for linear
    fixed and cyclic files, 81 with the size modulo 65536 for transparent
    ones.  The result is the transport error or the translated status. *)
Theorem create_ef_command `{Framework} (file : sc_file) (c : sc_card) :
  file_type file = SC_FILE_TYPE_WORKING_EF -> ef_structure_supported file = true ->
  exists d,
    (file_ef_structure file = SC_FILE_EF_LINEAR_FIXED ->
     d = [0x82; file_record_count file mod 256; file_record_length file mod 256]) /\
    (file_ef_structure file = SC_FILE_EF_CYCLIC ->
     d = [0x84; file_record_count file mod 256; file_record_length file mod 256]) /\
    (file_ef_structure file = SC_FILE_EF_TRANSPARENT ->
     d = [0x81; (file_size file mod 65536) / 256; file_size file mod 256]) /\
    let apdu := create_ef_apdu c file d in
    let rep := card_reply (apdu_log c) apdu in
    starcos_create_file file c
    = (if reply_r rep <? 0 then reply_r rep
       else sc_check_sw (reply_sw1 rep) (reply_sw2 rep),
       set_apdu_log (apdu_log c ++ [apdu]) c).
Proof.
  intros Htype Hsup. unfold ef_structure_supported in Hsup.
  unfold starcos_create_file. rewrite Htype.
  change (SC_FILE_TYPE_WORKING_EF =? SC_FILE_TYPE_WORKING_EF) with true.
  assert (Hff : forall z, Z.land z 0xff = z mod 256)
    by (intros z; apply (Z.land_ones z 8); lia).
  assert (Hffff : forall z, Z.shiftr (Z.land z 0xffff) 8 = (z mod 65536) / 256).
  { intros z. change 0xffff with (Z.ones 16). rewrite (Z.land_ones z 16) by lia. rewrite Z.shiftr_div_pow2 by lia.
    reflexivity. }
  run_monad.
  destruct (Z.eqb_spec (file_ef_structure file) SC_FILE_EF_LINEAR_FIXED) as [E1|E1];
    [|destruct (Z.eqb_spec (file_ef_structure file) SC_FILE_EF_CYCLIC) as [E2|E2];
      [|destruct (Z.eqb_spec (file_ef_structure file) SC_FILE_EF_TRANSPARENT) as [E3|E3];
        [|discriminate Hsup]]];
    unfold SC_FILE_EF_LINEAR_FIXED, SC_FILE_EF_CYCLIC, SC_FILE_EF_TRANSPARENT in *;
    eexists;
    (split; [intros E; first [exfalso; lia | reflexivity]|]);
    (split; [intros E; first [exfalso; lia | reflexivity]|]);
    (split; [intros E; first [exfalso; lia | reflexivity]|]);
    rewrite create_file_send_run; unfold create_ef_apdu;
    cbn [sc_format_apdu apdu_cse apdu_cla apdu_ins apdu_p1 apdu_p2 apdu_le apdu_resplen
         apdu_sensitive];
    change (Z.to_nat 16) with 16%nat;
    cbn [write_at take drop app replicate length Nat.add];
    rewrite ?Hff, ?Hffff; reflexivity.
Qed.

Lemma create_ef_command_witness :
  let file := mk_file (mk_path (replicate 16 0) 0 0 0) (replicate 16 0) 0
                SC_FILE_TYPE_WORKING_EF 0 SC_FILE_EF_TRANSPARENT 0x0123 0x4101 0 0
                SC_FILE_MAGIC in
  exists d,
    d = [0x81; 0x01; 0x23] /\
    @starcos_create_file (scripted_card [sw_only 0x90 0x00]) file (fresh_card [])
    = (SC_SUCCESS,
       set_apdu_log [create_ef_apdu (fresh_card []) file d] (fresh_card [])).
Proof.
  intros file.
  destruct (@create_ef_command (scripted_card [sw_only 0x90 0x00]) file (fresh_card [])
              eq_refl eq_refl) as (d & _ & _ & Hd & Hrun).
  exists d. split; [exact (Hd eq_refl)|].
  rewrite Hrun. rewrite (Hd eq_refl). reflexivity.
Defined.

(** [starcos_create_file] returns without sending anything in one case
    only, an EF whose structure it has no descriptor for, and then with
    SC_ERROR_INVALID_ARGUMENTS; a file of any other kind, a file that is
    neither an EF nor a DF included, makes it transmit. *)
Theorem create_file_rejects_only_unsupported_ef `{Framework} (file : sc_file) (c : sc_card) :
  (apdu_log (snd (starcos_create_file file c)) = apdu_log c <->
   file_type file = SC_FILE_TYPE_WORKING_EF /\ ef_structure_supported file = false) /\
  (apdu_log (snd (starcos_create_file file c)) = apdu_log c ->
   starcos_create_file file c = (SC_ERROR_INVALID_ARGUMENTS, c)).
Proof.
  unfold ef_structure_supported, starcos_create_file.
  destruct c as [atr cla le algs valid cur mse log]. run_monad.
  destruct (Z.eqb_spec (file_type file) SC_FILE_TYPE_WORKING_EF) as [Et|Et].
  - destruct (file_ef_structure file =? SC_FILE_EF_LINEAR_FIXED);
      [|destruct (file_ef_structure file =? SC_FILE_EF_CYCLIC);
        [|destruct (file_ef_structure file =? SC_FILE_EF_TRANSPARENT)]];
      cbn [orb]; rewrite ?create_file_send_run; cbn [snd fst apdu_log set_apdu_log];
      (split; [split|]); try (intros E; exfalso; revert E; apply log_grows);
      try (intros [_ E]; discriminate E); try (intros _; split; [exact Et|reflexivity]);
      try reflexivity.
  - destruct (file_type file =? SC_FILE_TYPE_DF).
    + destruct (negb (file_namelen file =? 0)); cbv beta iota zeta;
        repeat case_match; rewrite ?create_file_send_run;
        cbn [snd fst apdu_log set_apdu_log];
        (split; [split|]); try (intros [E _]; contradiction);
        intros E; exfalso; revert E; rewrite <- ?app_assoc; apply log_grows.
    + rewrite create_file_send_run. cbn [snd fst apdu_log set_apdu_log].
      (split; [split|]); try (intros [E _]; contradiction);
        intros E; exfalso; revert E; apply log_grows.
Qed.

(** ** Further properties: the file descriptor decoder and the status table *)

(** The result of [process_fci] as a record: the fields it decides are
    functions of the FCI alone. *)
Lemma process_fci_fields `{Framework} (file : sc_file) (buf : list Z) :
  exists ty sh st sz rl,
    (forall file', process_fci file' buf
                 = mk_file (file_path file') (file_name file') (file_namelen file')
                     ty sh st sz (file_id file') rl (file_record_count file')
                     SC_FILE_MAGIC) /\
    ty = SC_FILE_TYPE_WORKING_EF /\ sh = 0 /\
  (st = SC_FILE_EF_UNKNOWN \/
   st = SC_FILE_EF_TRANSPARENT \/
   st = SC_FILE_EF_LINEAR_FIXED \/
   st = SC_FILE_EF_CYCLIC) /\
  (st = SC_FILE_EF_TRANSPARENT -> rl = 0).
Proof.
  unfold process_fci.
  destruct (sc_asn1_find_tag buf 0x80) as [t80|];
    [destruct (2 <=? Z.of_nat (length t80))|];
    destruct (sc_asn1_find_tag buf 0x82) as [t82|]; cbv beta iota zeta;
    repeat match goal with
           | |- context [if ?b then _ else _] => destruct b
           end;
    do 5 eexists;
    (split; [intros file'; destruct file' as [a1 a2 a3 a4 a5 a6 a7 a8 a9 a10 a11];
             cbv [set_file_magic set_file_ef_structure set_file_type set_file_size
                  set_file_record_length set_file_shareable
                  file_path file_name file_namelen file_type file_shareable
                  file_ef_structure file_size file_id file_record_length
                  file_record_count file_magic];
             reflexivity|]);
    (split; [reflexivity|]); (split; [reflexivity|]);
    (split; [first [left; reflexivity | right; left; reflexivity
                   | right; right; left; reflexivity | right; right; right; reflexivity]|]);
    first [reflexivity | discriminate].
Qed.

(** [process_fci] decides the type, the structure, the shareable flag, the
    record length, the size and the magic number from the FCI alone and
    touches nothing else of the file: path, name, FID and record count
    stay.  The type is a working EF whatever the FCI says, the structure
    one of unknown, transparent, linear fixed and cyclic, and a record
    length other than 0 comes only with a structure that is not
    transparent.  Decoding the same FCI a second time changes nothing. *)
Theorem process_fci_overwrites `{Framework} (file : sc_file) (buf : list Z) :
  let f := process_fci file buf in
  file_path f = file_path file /\ file_name f = file_name file /\
  file_namelen f = file_namelen file /\ file_id f = file_id file /\
  file_record_count f = file_record_count file /\
  file_type f = SC_FILE_TYPE_WORKING_EF /\ file_shareable f = 0 /\
  file_magic f = SC_FILE_MAGIC /\
  (file_ef_structure f = SC_FILE_EF_UNKNOWN \/
   file_ef_structure f = SC_FILE_EF_TRANSPARENT \/
   file_ef_structure f = SC_FILE_EF_LINEAR_FIXED \/
   file_ef_structure f = SC_FILE_EF_CYCLIC) /\
  (file_ef_structure f = SC_FILE_EF_TRANSPARENT -> file_record_length f = 0) /\
  process_fci f buf = f.
Proof.
  destruct (process_fci_fields file buf) as (ty & sh & st & sz & rl & Hrun & -> & -> & Hst & Hrl).
  cbv zeta. rewrite !Hrun.
  cbn [file_path file_name file_namelen file_type file_shareable file_ef_structure
       file_size file_id file_record_length file_record_count file_magic].
  repeat split; assumption.
Qed.

Lemma at_index_byte (tag : list Z) (i : Z) :
  Forall (fun b => 0 <= b <= 255) tag -> 0 <= at_index tag i <= 255.
Proof.
  intros Hall. unfold at_index. rewrite list_lookup_total_alt.
  destruct (tag !! Z.to_nat i) as [b|] eqn:E; cbn.
  - exact (Forall_lookup_1 _ _ _ _ Hall E).
  - vm_compute. split; discriminate.
Qed.

(** When the values that [sc_asn1_find_tag] finds for the tags 0x80 and
    0x82 are made of bytes, the size that [process_fci] decodes is below
    65536 and the record length below 256. *)
Theorem process_fci_ranges `{Framework} (file : sc_file) (buf : list Z) :
  (forall tag, sc_asn1_find_tag buf 0x80 = Some tag ->
               Forall (fun b => 0 <= b <= 255) tag) ->
  (forall tag, sc_asn1_find_tag buf 0x82 = Some tag ->
               Forall (fun b => 0 <= b <= 255) tag) ->
  0 <= file_size (process_fci file buf) <= 0xFFFF /\
  0 <= file_record_length (process_fci file buf) <= 255.
Proof.
  intros Hbytes80 Hbytes82. unfold process_fci.
  destruct (sc_asn1_find_tag buf 0x80) as [t80|] eqn:H80;
    [destruct (2 <=? Z.of_nat (length t80))|];
    (destruct (sc_asn1_find_tag buf 0x82) as [t82|] eqn:H82;
     [repeat match goal with
             | |- context [if ?b then _ else _] => destruct b
             end|]);
    cbn [file_size file_record_length set_file_type set_file_ef_structure
         set_file_shareable set_file_record_length set_file_size set_file_magic];
    try rewrite Z.shiftl_mul_pow2 by lia;
    try pose proof (at_index_byte t80 0 (Hbytes80 _ eq_refl)) as B0;
    try pose proof (at_index_byte t80 1 (Hbytes80 _ eq_refl)) as B1;
    try pose proof (at_index_byte t82 2 (Hbytes82 _ eq_refl)) as B2;
    change (2 ^ 8) with 256 in *; lia.
Qed.

Lemma process_fci_ranges_witness :
  let buf := [0x80; 2; 0x01; 0x00; 0x82; 3; 0x02; 0x21; 0x10] in
  0 <= file_size (@process_fci (scripted_card []) blank_file buf) <= 0xFFFF /\
  0 <= file_record_length (@process_fci (scripted_card []) blank_file buf) <= 255.
Proof.
  intros buf. apply (@process_fci_ranges (scripted_card []) blank_file buf).
  - intros tag Htag. vm_compute in Htag. injection Htag as <-.
    repeat constructor; discriminate.
  - intros tag Htag. vm_compute in Htag. injection Htag as <-.
    repeat constructor; discriminate.
Defined.

(** No entry of [starcos_errors] is dead: for the status word of each one
    [starcos_check_sw] returns that entry's error and prints that entry's
    text; neither the 90 xx rule nor the 63 Cx rule nor an earlier entry
    takes it away. *)
Theorem check_sw_table_entries `{Framework} (e : sc_card_error) :
  In e starcos_errors ->
  starcos_check_sw (Z.shiftr (SWs e) 8) (Z.land (SWs e) 0xff)
  = (errorno e, Some (Card_error (errorstr e))).
Proof.
  intros Hin. unfold starcos_errors in Hin. cbn [In] in Hin.
  repeat (destruct Hin as [<-|Hin]; [vm_compute; reflexivity|]).
  contradiction.
Qed.

Lemma check_sw_table_entries_witness :
  @starcos_check_sw (scripted_card []) 0x6F 0x07
  = (SC_ERROR_FILE_NOT_FOUND, Some (Card_error "key part not found")).
Proof.
  apply (@check_sw_table_entries (scripted_card [])
           (mk_error 0x6F07 SC_ERROR_FILE_NOT_FOUND "key part not found")).
  unfold starcos_errors. cbn [In]. do 9 right. left. reflexivity.
Defined.
